(** * The resource-dependency remapping engine of [dfcx_functions.py]

    A shallow embedding of the identity index builders, the page and
    start-page reference rewriters, the dependency extractor and the
    route-group paste step of the copy orchestrator, followed by the
    properties established about them. *)

From Stdlib Require Import Ascii String.
From stdpp Require Import base option list strings gmap.

Local Open Scope string_scope.

(** ** Python strings *)

Module PyStr.

(** [s.split(sep)] for a one-character separator: never empty, and the
    empty string splits into one empty segment. *)
Fixpoint split (sep : Ascii.ascii) (s : string) : list string :=
  match s with
  | EmptyString => [EmptyString]
  | String c s' =>
      if Ascii.eqb c sep then EmptyString :: split sep s'
      else match split sep s' with
           | seg :: rest => String c seg :: rest
           | [] => [String c EmptyString]
           end
  end.

(** [s.split('/')[-1]] *)
Definition last_segment (s : string) : string :=
  default EmptyString (last (split "/"%char s)).

(** [sub in s] on strings: [sub] occurs somewhere in [s]. *)
Fixpoint contains (sub s : string) : bool :=
  String.prefix sub s ||
  match s with
  | EmptyString => false
  | String _ s' => contains sub s'
  end.

(** ['/'.join(l)] *)
Definition join (l : list string) : string := String.concat "/" l.

End PyStr.

(** ** Exceptions and results *)

Inductive exn : Type :=
| KeyError (key : string)
| IndexError.

Inductive result (A : Type) : Type :=
| Ok (a : A)
| Raise (e : exn).
Arguments Ok {A} a.
Arguments Raise {A} e.

#[global] Instance result_ret : MRet result := fun A a => Ok a.
#[global] Instance result_bind : MBind result := fun A B f m =>
  match m with
  | Ok a => f a
  | Raise e => Raise e
  end.

(** [d[k]] on a dictionary: the value, or [KeyError(k)]. *)
Definition getitem (d : gmap string string) (k : string) : result string :=
  match d !! k with
  | Some v => Ok v
  | None => Raise (KeyError k)
  end.

(** ['field' in message] for a string field of a protocol-buffer message:
    the field counts as present when it is not the empty string. *)
Definition present (s : string) : bool := bool_decide (s ≠ "").

(** ** Data model: the fields of the Dialogflow CX messages the code reads *)

Record Fulfillment : Type := mkFulfillment {
  ff_messages : list string;
  ff_webhook : string;
  ff_tag : string
}.

Record TransitionRoute : Type := mkTransitionRoute {
  tr_intent : string;
  tr_condition : string;
  tr_trigger_fulfillment : option Fulfillment;
  tr_target_page : string
}.

Record EventHandler : Type := mkEventHandler {
  eh_event : string;
  eh_trigger_fulfillment : option Fulfillment;
  eh_target_page : string
}.

Record FillBehavior : Type := mkFillBehavior {
  fb_initial_prompt_fulfillment : option Fulfillment;
  fb_reprompt_event_handlers : list EventHandler
}.

Record FormParameter : Type := mkFormParameter {
  pa_display_name : string;
  pa_entity_type : string;
  pa_is_list : bool;
  pa_fill_behavior : option FillBehavior
}.

Record Form : Type := mkForm {
  fo_parameters : list FormParameter
}.

Record Page : Type := mkPage {
  pg_name : string;
  pg_display_name : string;
  pg_entry_fulfillment : option Fulfillment;
  pg_form : option Form;
  pg_transition_route_groups : list string;
  pg_transition_routes : list TransitionRoute;
  pg_event_handlers : list EventHandler
}.

(** The object handed to [convert_start_page_dependencies]: only its
    transition routes are read; the other fields ride along. *)
Record StartPage : Type := mkStartPage {
  sp_name : string;
  sp_display_name : string;
  sp_transition_routes : list TransitionRoute;
  sp_event_handlers : list EventHandler
}.

Record RouteGroup : Type := mkRouteGroup {
  rg_name : string;
  rg_display_name : string;
  rg_transition_routes : list TransitionRoute
}.

(** A listed resource of which only the two naming fields matter (flows,
    intents, entity types, webhooks). *)
Record Resource : Type := mkResource {
  rs_name : string;
  rs_display_name : string
}.

#[global] Instance Page_inhabited : Inhabited Page :=
  populate (mkPage "" "" None None [] [] []).
#[global] Instance StartPage_inhabited : Inhabited StartPage :=
  populate (mkStartPage "" "" [] []).

(** Field assignments. *)
Definition set_ff_webhook (w : string) (f : Fulfillment) : Fulfillment :=
  mkFulfillment (ff_messages f) w (ff_tag f).
Definition set_tr_intent (i : string) (tr : TransitionRoute) : TransitionRoute :=
  mkTransitionRoute i (tr_condition tr) (tr_trigger_fulfillment tr) (tr_target_page tr).
Definition set_tr_trigger_fulfillment (f : option Fulfillment) (tr : TransitionRoute)
  : TransitionRoute :=
  mkTransitionRoute (tr_intent tr) (tr_condition tr) f (tr_target_page tr).
Definition set_tr_target_page (t : string) (tr : TransitionRoute) : TransitionRoute :=
  mkTransitionRoute (tr_intent tr) (tr_condition tr) (tr_trigger_fulfillment tr) t.
Definition set_eh_trigger_fulfillment (f : option Fulfillment) (h : EventHandler)
  : EventHandler :=
  mkEventHandler (eh_event h) f (eh_target_page h).
Definition set_eh_target_page (t : string) (h : EventHandler) : EventHandler :=
  mkEventHandler (eh_event h) (eh_trigger_fulfillment h) t.

(** ** The collaborator [self.dfcx] (listing calls only) *)

Record Collaborator : Type := mkCollaborator {
  list_flows : string → list Resource;
  list_intents : string → list Resource;
  list_entity_types : string → list Resource;
  list_webhooks : string → list Resource;
  list_pages : string → list Page;
  list_transition_route_groups : string → list RouteGroup
}.

(** ** Identity index builders *)

(** A dictionary comprehension [{k: v for ...}]: a later pair overwrites an
    earlier one with the same key. *)
Definition dict_of (kvs : list (string * string)) : gmap string string :=
  foldl (fun d kv => <[kv.1 := kv.2]> d) ∅ kvs.

Definition index_of {A} (name display_name : A → string) (reverse : bool)
    (l : list A) : gmap string string :=
  if reverse then dict_of ((fun x => (display_name x, name x)) <$> l)
  else dict_of ((fun x => (name x, display_name x)) <$> l).

Section IndexBuilders.
Variable dfcx : Collaborator.

Definition get_flows_map (agent_id : string) (reverse : bool) :=
  index_of rs_name rs_display_name reverse (list_flows dfcx agent_id).
Definition get_intents_map (agent_id : string) (reverse : bool) :=
  index_of rs_name rs_display_name reverse (list_intents dfcx agent_id).
Definition get_entities_map (agent_id : string) (reverse : bool) :=
  index_of rs_name rs_display_name reverse (list_entity_types dfcx agent_id).
Definition get_webhooks_map (agent_id : string) (reverse : bool) :=
  index_of rs_name rs_display_name reverse (list_webhooks dfcx agent_id).
Definition get_pages_map (flow_id : string) (reverse : bool) :=
  index_of pg_name pg_display_name reverse (list_pages dfcx flow_id).
Definition get_route_groups_map (flow_id : string) (reverse : bool) :=
  index_of rg_name rg_display_name reverse
    (list_transition_route_groups dfcx flow_id).
End IndexBuilders.

(** ** Reference rewriter: the per-object passes of
       [convert_page_dependencies] and [convert_start_page_dependencies]

    The maps are the local variables of the same names; they hold the
    identifier-to-name indexes in the source direction and the
    name-to-identifier indexes in the destination direction. [flow_id]
    stands for [flows_map[flow]]. *)

(** [f.webhook] of a possibly unset sub-message (an unset one reads as the
    default message, whose webhook is empty). *)
Definition fulfillment_webhook (f : option Fulfillment) : string :=
  match f with
  | Some ff => ff_webhook ff
  | None => ""
  end.

(** ['webhook' in f] *)
Definition has_webhook (f : option Fulfillment) : bool :=
  present (fulfillment_webhook f).

Section Rewriter.
Variables intents_map entities_map webhooks_map pages_map rgs_map : gmap string string.
Variable flow_id : string.

(** [if 'webhook' in f: f.webhook = webhooks_map[f.webhook]] *)
Definition convert_webhook (f : option Fulfillment) : result (option Fulfillment) :=
  match f with
  | Some ff =>
      if present (ff_webhook ff)
      then w ← getitem webhooks_map (ff_webhook ff); mret (Some (set_ff_webhook w ff))
      else mret f
  | None => mret None
  end.

(** Lines 440-450, 462-472 and 494-504: the target of a route or handler in
    the source direction. *)
Definition source_target_page (target_page : string) : result string :=
  if decide (PyStr.last_segment target_page = "END_FLOW") then mret "END_FLOW"
  else if decide (PyStr.last_segment target_page = "END_SESSION") then mret "END_SESSION"
  else if decide (PyStr.last_segment target_page = "CURRENT_PAGE") then mret "CURRENT_PAGE"
  else getitem pages_map target_page.

(** Lines 543-553, 565-575 and 595-605: the same in the destination
    direction. *)
Definition destination_target_page (target_page : string) : result string :=
  if decide (target_page = "END_FLOW") then mret (flow_id +:+ "/pages/END_FLOW")
  else if decide (target_page = "END_SESSION") then mret (flow_id +:+ "/pages/END_SESSION")
  else if decide (target_page = "CURRENT_PAGE") then mret (flow_id +:+ "/pages/CURRENT_PAGE")
  else getitem pages_map target_page.

(** Lines 633-638 and 655-660: the start-page variants. *)
Definition start_source_target_page (target_page : string) : result string :=
  if decide (PyStr.last_segment target_page = "END_FLOW") then mret "END_FLOW"
  else if decide (PyStr.last_segment target_page = "START_PAGE") then mret "START_PAGE"
  else getitem pages_map target_page.

Definition start_destination_target_page (target_page : string) : result string :=
  if decide (target_page = "END_FLOW") then mret (flow_id +:+ "/pages/END_FLOW")
  else if decide (target_page = "START_PAGE") then mret (flow_id +:+ "/pages/START_PAGE")
  else getitem pages_map target_page.

(** Lines 452-457 (and 555-560, 640-645, 662-667, the same text): intent
    and trigger-fulfillment webhook of a transition route. *)
Definition convert_trigger (tr : TransitionRoute) : result TransitionRoute :=
  if present (tr_intent tr) then
    i ← getitem intents_map (tr_intent tr);
    f ← convert_webhook (tr_trigger_fulfillment tr);
    mret (set_tr_trigger_fulfillment f (set_tr_intent i tr))
  else if present (tr_condition tr) && has_webhook (tr_trigger_fulfillment tr) then
    f ← convert_webhook (tr_trigger_fulfillment tr);
    mret (set_tr_trigger_fulfillment f tr)
  else mret tr.

(** One round of a [for tr in ...transition_routes] loop: target first,
    then the trigger. [target] is the target pass of the direction. A
    repeated field counts as present when it is not empty, and a loop over
    an empty one does nothing, so the loops are run as they are. *)
Definition convert_transition_route (target : string → result string)
    (tr : TransitionRoute) : result TransitionRoute :=
  tr1 ← (if present (tr_target_page tr)
         then t ← target (tr_target_page tr); mret (set_tr_target_page t tr)
         else mret tr);
  convert_trigger tr1.

(** One round of the [for handler in page.event_handlers] loop: target
    first, then the webhook. *)
Definition convert_event_handler (target : string → result string)
    (h : EventHandler) : result EventHandler :=
  h1 ← (if present (eh_target_page h)
        then t ← target (eh_target_page h); mret (set_eh_target_page t h)
        else mret h);
  f ← convert_webhook (eh_trigger_fulfillment h1);
  mret (set_eh_trigger_fulfillment f h1).

(** One round of the [for handler in ...reprompt_event_handlers] loop:
    webhook first, then the target (the [print] of line 493 is left out). *)
Definition convert_reprompt_handler (target : string → result string)
    (h : EventHandler) : result EventHandler :=
  f ← convert_webhook (eh_trigger_fulfillment h);
  let h1 := set_eh_trigger_fulfillment f h in
  if present (eh_target_page h1)
  then t ← target (eh_target_page h1); mret (set_eh_target_page t h1)
  else mret h1.

Definition convert_fill_behavior (target : string → result string)
    (fb : FillBehavior) : result FillBehavior :=
  f ← convert_webhook (fb_initial_prompt_fulfillment fb);
  hs ← mapM (convert_reprompt_handler target) (fb_reprompt_event_handlers fb);
  mret (mkFillBehavior f hs).

(** Lines 507-510 and 607-610. *)
Definition convert_entity_type (entity_type : string) : result string :=
  if PyStr.contains "sys." entity_type then mret entity_type
  else getitem entities_map entity_type.

(** One round of the [for param in page.form.parameters] loop. *)
Definition convert_parameter (target : string → result string)
    (param : FormParameter) : result FormParameter :=
  fb ← match pa_fill_behavior param with
       | Some fb => fb' ← convert_fill_behavior target fb; mret (Some fb')
       | None => mret None
       end;
  e ← convert_entity_type (pa_entity_type param);
  mret (mkFormParameter (pa_display_name param) e (pa_is_list param) fb).

Definition convert_form (target : string → result string)
    (form : option Form) : result (option Form) :=
  match form with
  | Some fo =>
      ps ← mapM (convert_parameter target) (fo_parameters fo);
      mret (Some (mkForm ps))
  | None => mret None
  end.

(** Lines 512-517. [temp_list] grows by one looked-up name per reference.
    In the source direction the assignment to the page field sits inside
    the loop: after every round the field holds the contents of
    [temp_list]. The loop runs over the list it started on. *)
Fixpoint source_route_groups_loop (temp_list field trgs : list string)
  : result (list string) :=
  match trgs with
  | [] => mret field
  | trg :: rest =>
      n ← getitem rgs_map trg;
      source_route_groups_loop (temp_list ++ [n]) (temp_list ++ [n]) rest
  end.

Definition source_route_groups (trgs : list string) : result (list string) :=
  match trgs with
  | [] => mret trgs
  | _ => source_route_groups_loop [] trgs trgs
  end.

(** Lines 612-617: here the assignment follows the loop. *)
Fixpoint destination_route_groups_loop (temp_list trgs : list string)
  : result (list string) :=
  match trgs with
  | [] => mret temp_list
  | trg :: rest =>
      n ← getitem rgs_map trg;
      destination_route_groups_loop (temp_list ++ [n]) rest
  end.

Definition destination_route_groups (trgs : list string) : result (list string) :=
  match trgs with
  | [] => mret trgs
  | _ => destination_route_groups_loop [] trgs
  end.

(** Lines 432-517: the body of [for page in pages_mod] in the source
    direction. *)
Definition source_page (page : Page) : result Page :=
  ef ← convert_webhook (pg_entry_fulfillment page);
  trs ← mapM (convert_transition_route source_target_page) (pg_transition_routes page);
  ehs ← mapM (convert_event_handler source_target_page) (pg_event_handlers page);
  fo ← convert_form source_target_page (pg_form page);
  rgs ← source_route_groups (pg_transition_route_groups page);
  mret (mkPage (pg_name page) (pg_display_name page) ef fo rgs trs ehs).

(** Lines 533-617: the same in the destination direction; the page's own
    identifier is looked up first. *)
Definition destination_page (page : Page) : result Page :=
  name ← getitem pages_map (pg_display_name page);
  ef ← convert_webhook (pg_entry_fulfillment page);
  trs ← mapM (convert_transition_route destination_target_page)
          (pg_transition_routes page);
  ehs ← mapM (convert_event_handler destination_target_page) (pg_event_handlers page);
  fo ← convert_form destination_target_page (pg_form page);
  rgs ← destination_route_groups (pg_transition_route_groups page);
  mret (mkPage name (pg_display_name page) ef fo rgs trs ehs).

(** Lines 631-645 and 653-667: the loops over a start page's routes. *)
Definition source_start_page (sp : StartPage) : result StartPage :=
  trs ← mapM (convert_transition_route start_source_target_page)
          (sp_transition_routes sp);
  mret (mkStartPage (sp_name sp) (sp_display_name sp) trs (sp_event_handlers sp)).

Definition destination_start_page (sp : StartPage) : result StartPage :=
  trs ← mapM (convert_transition_route start_destination_target_page)
          (sp_transition_routes sp);
  mret (mkStartPage (sp_name sp) (sp_display_name sp) trs (sp_event_handlers sp)).

End Rewriter.

(** ** Objects, references and mutation

    Page objects live in a store and are handed around by reference; a
    Python list of pages is a list of references. A computation may change
    the store and either returns or raises. An exception leaves the store
    as it stands at that point (the rewriters assign field by field to a
    copy nobody else can reach, so the copy is recorded whole, once its
    pass went through). *)

Definition loc : Type := positive.

Definition M (O A : Type) : Type := gmap loc O → gmap loc O * result A.

#[global] Instance M_ret {O} : MRet (M O) := fun A a h => (h, Ok a).
#[global] Instance M_bind {O} : MBind (M O) := fun A B f m h =>
  match m h with
  | (h', Ok a) => f a h'
  | (h', Raise e) => (h', Raise e)
  end.

Definition lift {O A} (r : result A) : M O A := fun h => (h, r).
Definition read {O} `{Inhabited O} (l : loc) : M O O := fun h => (h, Ok (h !!! l)).
Definition write {O} (l : loc) (o : O) : M O unit := fun h => (<[l := o]> h, Ok tt).
Definition alloc {O} (o : O) : M O loc := fun h =>
  let l := fresh (dom h) in (<[l := o]> h, Ok l).

(** [copy.deepcopy] of one message object: a new object with the same
    contents (a message owns its sub-messages, so they are copied with it). *)
Definition deepcopy {O} `{Inhabited O} (l : loc) : M O loc :=
  o ← read l; alloc o.

(** [copy.deepcopy] of a list of objects: an object met again is copied
    once (the memo), so the copy shares what the original shared. *)
Fixpoint deepcopy_list {O} `{Inhabited O} (memo : gmap loc loc) (ls : list loc)
  : M O (list loc) :=
  match ls with
  | [] => mret []
  | l :: rest =>
      match memo !! l with
      | Some l' => ls' ← deepcopy_list memo rest; mret (l' :: ls')
      | None =>
          l' ← deepcopy l;
          ls' ← deepcopy_list (<[l := l']> memo) rest;
          mret (l' :: ls')
      end
  end.

(** A run of field assignments on the object [l], as one pass [body]. *)
Definition mutate {O} `{Inhabited O} (body : O → result O) (l : loc) : M O unit :=
  o ← read l;
  o' ← lift (body o);
  write l o'.

(** [for x in xs: body], the body mutating the object [x]. *)
Fixpoint for_each {O} `{Inhabited O} (body : O → result O) (ls : list loc)
  : M O unit :=
  match ls with
  | [] => mret tt
  | l :: rest => _ ← mutate body l; for_each body rest
  end.

Section TopLevel.
Variable dfcx : Collaborator.

(** Lines 415-619. *)
Definition convert_page_dependencies (agent_id : string) (pages : list loc)
    (agent_type flow : string) : M Page (list loc) :=
  pages_mod ← deepcopy_list ∅ pages;
  _ ← (if decide (agent_type = "source") then
         let intents_map := get_intents_map dfcx agent_id false in
         let entities_map := get_entities_map dfcx agent_id false in
         let webhooks_map := get_webhooks_map dfcx agent_id false in
         let flows_map := get_flows_map dfcx agent_id true in
         flow_id ← lift (getitem flows_map flow);
         let pages_map := get_pages_map dfcx flow_id false in
         let rgs_map := get_route_groups_map dfcx flow_id false in
         for_each (source_page intents_map entities_map webhooks_map pages_map rgs_map)
           pages_mod
       else mret tt);
  _ ← (if decide (agent_type = "destination") then
         let intents_map := get_intents_map dfcx agent_id true in
         let entities_map := get_entities_map dfcx agent_id true in
         let webhooks_map := get_webhooks_map dfcx agent_id true in
         let flows_map := get_flows_map dfcx agent_id true in
         flow_id ← lift (getitem flows_map flow);
         let pages_map := get_pages_map dfcx flow_id true in
         let rgs_map := get_route_groups_map dfcx flow_id true in
         for_each (destination_page intents_map entities_map webhooks_map pages_map
                     rgs_map flow_id) pages_mod
       else mret tt);
  mret pages_mod.

(** Lines 622-669. *)
Definition convert_start_page_dependencies (agent_id : string) (start_page : loc)
    (agent_type flow : string) : M StartPage loc :=
  page_mod ← deepcopy start_page;
  _ ← (if decide (agent_type = "source") then
         let intents_map := get_intents_map dfcx agent_id false in
         let webhooks_map := get_webhooks_map dfcx agent_id false in
         let flows_map := get_flows_map dfcx agent_id true in
         flow_id ← lift (getitem flows_map flow);
         let pages_map := get_pages_map dfcx flow_id false in
         mutate (source_start_page intents_map webhooks_map pages_map) page_mod
       else mret tt);
  _ ← (if decide (agent_type = "destination") then
         let intents_map := get_intents_map dfcx agent_id true in
         let webhooks_map := get_webhooks_map dfcx agent_id true in
         let flows_map := get_flows_map dfcx agent_id true in
         flow_id ← lift (getitem flows_map flow);
         let pages_map := get_pages_map dfcx flow_id true in
         mutate (destination_start_page intents_map webhooks_map pages_map flow_id)
           page_mod
       else mret tt);
  mret page_mod.

End TopLevel.

(** ** Dependency extractor: [get_page_dependencies] *)

(** [resources[key].append(v)] on a [defaultdict(list)]. *)
Definition append_to (key v : string) (resources : gmap string (list string))
  : gmap string (list string) :=
  <[key := (default [] (resources !! key) ++ [v])%list]> resources.

Section Extractor.
Variable route_groups : list RouteGroup.

(** Lines 694-697. *)
Definition route_dependencies (resources : gmap string (list string))
    (tr : TransitionRoute) : gmap string (list string) :=
  if present (tr_intent tr) then append_to "intents" (tr_intent tr) resources
  else if present (tr_condition tr) && has_webhook (tr_trigger_fulfillment tr)
  then append_to "webhooks" (fulfillment_webhook (tr_trigger_fulfillment tr)) resources
  else resources.

(** Lines 701-704. *)
Definition parameter_dependencies (resources : gmap string (list string))
    (param : FormParameter) : gmap string (list string) :=
  if PyStr.contains "sys." (pa_entity_type param) then resources
  else append_to "entities" (pa_entity_type param) resources.

(** Lines 709-712. *)
Definition route_group_intents (trg : string)
    (resources : gmap string (list string)) (rg : RouteGroup)
  : gmap string (list string) :=
  if decide (trg = rg_name rg)
  then foldl (fun r tr => append_to "intents" (tr_intent tr) r) resources
         (rg_transition_routes rg)
  else resources.

(** Lines 707-712. *)
Definition route_group_dependencies (resources : gmap string (list string))
    (trg : string) : gmap string (list string) :=
  foldl (route_group_intents trg) (append_to "route_groups" trg resources) route_groups.

(** Lines 690-712: the body of [for page in obj_list]. *)
Definition page_dependencies (resources : gmap string (list string)) (page : Page)
  : gmap string (list string) :=
  let r1 := if has_webhook (pg_entry_fulfillment page)
            then append_to "webhooks" (fulfillment_webhook (pg_entry_fulfillment page))
                   resources
            else resources in
  let r2 := foldl route_dependencies r1 (pg_transition_routes page) in
  let r3 := match pg_form page with
            | Some fo => foldl parameter_dependencies r2 (fo_parameters fo)
            | None => r2
            end in
  foldl route_group_dependencies r3 (pg_transition_route_groups page).

End Extractor.

(** ['/'.join(name.split('/')[0:8])] *)
Definition flow_of_page_name (name : string) : string :=
  PyStr.join (take 8 (PyStr.split "/"%char name)).

(** Lines 673-717, on the pages themselves. *)
Definition page_list_dependencies (dfcx : Collaborator) (obj_list : list Page)
  : result (gmap string (gset string)) :=
  match obj_list with
  | [] => Raise IndexError
  | first :: _ =>
      let flow_id := flow_of_page_name (pg_name first) in
      let route_groups := list_transition_route_groups dfcx flow_id in
      let resources := foldl (page_dependencies route_groups) ∅ obj_list in
      mret (list_to_set <$> resources)
  end.

(** Lines 673-717, on references into the store: the pages are only read. *)
Definition get_page_dependencies (dfcx : Collaborator) (obj_list : list loc)
  : M Page (gmap string (gset string)) :=
  pages ← mapM read obj_list;
  lift (page_list_dependencies dfcx pages).

(** ** Copy orchestrator: the route-group part of
       [copy_paste_agent_resources] *)

(** A call [create_transition_route_group(flow_id, rg)]. Whether the
    collaborator accepts it or raises changes nothing but the log line: the
    call sits in a [try] whose handler goes on. *)
Inductive call : Type :=
| create_transition_route_group (flow_id : string) (rg : RouteGroup).

Section RouteGroupPaste.
Variables source_intents_map source_webhooks_map source_pages_map : gmap string string.
Variables destination_flows destination_intents_map destination_webhooks_map
  destination_pages_map : gmap string string.
Variable destination_flow : string.

(** Lines 388-404: the body of [for tr in rg.transition_routes]. *)
Definition paste_transition_route (tr : TransitionRoute) : result TransitionRoute :=
  source_name ← getitem source_intents_map (tr_intent tr);
  destination_name ← getitem destination_intents_map source_name;
  let tr1 := set_tr_intent destination_name tr in
  tr2 ← match tr_trigger_fulfillment tr1 with
        | Some ff =>
            if present (ff_webhook ff) then
              source_webhook ← getitem source_webhooks_map (ff_webhook ff);
              destination_webhook ← getitem destination_webhooks_map source_webhook;
              mret (set_tr_trigger_fulfillment
                      (Some (set_ff_webhook destination_webhook ff)) tr1)
            else mret tr1
        | None => mret tr1
        end;
  if present (tr_target_page tr2) then
    if decide (PyStr.last_segment (tr_target_page tr2) = "END_FLOW") then
      f ← getitem destination_flows destination_flow;
      mret (set_tr_target_page (f +:+ "/pages/END_FLOW") tr2)
    else
      source_page ← getitem source_pages_map (tr_target_page tr2);
      destination_page ← getitem destination_pages_map source_page;
      mret (set_tr_target_page destination_page tr2)
  else mret tr2.

(** Lines 386-412: [for rg in resource_obj_dict['route_groups']], with the
    creation calls made so far. A lookup inside the [try] that misses is
    swallowed with the call it belongs to. *)
Fixpoint paste_route_groups (calls : list call) (rgs : list RouteGroup)
  : list call * result unit :=
  match rgs with
  | [] => (calls, Ok tt)
  | rg :: rest =>
      match mapM paste_transition_route (rg_transition_routes rg) with
      | Raise e => (calls, Raise e)
      | Ok trs =>
          let rg' := mkRouteGroup (rg_name rg) (rg_display_name rg) trs in
          match getitem destination_flows destination_flow with
          | Ok f =>
              paste_route_groups (calls ++ [create_transition_route_group f rg']) rest
          | Raise _ => paste_route_groups calls rest
          end
      end
  end.

End RouteGroupPaste.

(** Lines 308-313 and 375-412: selection of the route groups of the source
    agent's 'Default Start Flow' and their paste into the destination flow.
    [resource_route_groups] is [resource_dict['route_groups']]. *)
Definition copy_paste_route_groups (dfcx : Collaborator)
    (resource_route_groups : list string)
    (source_agent destination_agent destination_flow : string)
    (skip_list : list string) : list call * result unit :=
  if decide ("route_groups" ∈ skip_list) then ([], Ok tt)
  else
    let source_flows_map := get_flows_map dfcx source_agent true in
    match getitem source_flows_map "Default Start Flow" with
    | Raise e => ([], Raise e)
    | Ok source_flow =>
        let selected :=
          filter (fun rg => rg_name rg ∈ resource_route_groups)
            (list_transition_route_groups dfcx source_flow) in
        match selected with
        | [] => ([], Ok tt)
        | _ =>
            let source_intents_map := get_intents_map dfcx source_agent false in
            let source_webhooks_map := get_webhooks_map dfcx source_agent false in
            let source_pages_map := get_pages_map dfcx source_flow false in
            let destination_flows := get_flows_map dfcx destination_agent true in
            let destination_intents_map := get_intents_map dfcx destination_agent true in
            let destination_webhooks_map :=
              get_webhooks_map dfcx destination_agent true in
            match getitem destination_flows destination_flow with
            | Raise e => ([], Raise e)
            | Ok f =>
                let destination_pages_map := get_pages_map dfcx f true in
                paste_route_groups source_intents_map source_webhooks_map
                  source_pages_map destination_flows destination_intents_map
                  destination_webhooks_map destination_pages_map destination_flow
                  [] selected
            end
        end
    end.

(** * Vocabulary of the statements *)

(** ** Target pages of a page, in traversal order *)

Definition reprompt_targets (param : FormParameter) : list string :=
  match pa_fill_behavior param with
  | Some fb => eh_target_page <$> fb_reprompt_event_handlers fb
  | None => []
  end.

Definition form_targets (form : option Form) : list string :=
  match form with
  | Some fo => fo_parameters fo ≫= reprompt_targets
  | None => []
  end.

(** Every target-page reference of a page: those of its transition routes,
    of its event handlers and of its parameters' reprompt event handlers. *)
Definition page_targets (page : Page) : list string :=
  ((tr_target_page <$> pg_transition_routes page) ++
   (eh_target_page <$> pg_event_handlers page) ++
   form_targets (pg_form page))%list.

(** What a direction's target pass [target] makes of a target field: an
    unset field stays unset, a set one holds what the pass returned. *)
Definition target_pass (target : string → result string) (t t' : string) : Prop :=
  if present t then target t = Ok t' else t' = t.

(** ** Targets that are no pages *)

Definition page_sentinel (s : string) : Prop :=
  s = "END_FLOW" ∨ s = "END_SESSION" ∨ s = "CURRENT_PAGE".

#[global] Instance page_sentinel_dec (s : string) : Decision (page_sentinel s).
Proof. unfold page_sentinel. apply _. Defined.

Definition start_sentinel (s : string) : Prop := s = "END_FLOW" ∨ s = "START_PAGE".

#[global] Instance start_sentinel_dec (s : string) : Decision (start_sentinel s).
Proof. unfold start_sentinel. apply _. Defined.

(** The page rewriter and the start-page rewriter tell these targets
    apart. *)
Definition sentinel_of_one_rewriter (s : string) : Prop :=
  s = "END_SESSION" ∨ s = "CURRENT_PAGE" ∨ s = "START_PAGE".

(** ** Form parameters *)

Definition page_parameters (page : Page) : list FormParameter :=
  match pg_form page with
  | Some fo => fo_parameters fo
  | None => []
  end.

(** The entity type of a parameter is left alone when it holds 'sys.'. *)
Definition entity_type_kept (param param' : FormParameter) : Prop :=
  PyStr.contains "sys." (pa_entity_type param) = true →
  pa_entity_type param' = pa_entity_type param.

(** ** Failures *)

(** A computation that can only fail with a [KeyError]. *)
Definition key_errors {A} (r : result A) : Prop :=
  ∀ e, r = Raise e → ∃ k, e = KeyError k.

(** A creation call made for the group [rg], once all its routes went
    through the paste of lines 388-404. *)
Definition call_for
    (source_intents_map source_webhooks_map source_pages_map destination_flows
       destination_intents_map destination_webhooks_map destination_pages_map
       : gmap string string)
    (destination_flow : string) (rg : RouteGroup) (c : call) : Prop :=
  ∃ f trs,
    destination_flows !! destination_flow = Some f ∧
    mapM (paste_transition_route source_intents_map source_webhooks_map
            source_pages_map destination_flows destination_intents_map
            destination_webhooks_map destination_pages_map destination_flow)
      (rg_transition_routes rg) = Ok trs ∧
    c = create_transition_route_group f
          (mkRouteGroup (rg_name rg) (rg_display_name rg) trs).

(** ** Collected dependencies *)

(** Several appends under one key. *)
Definition extend (key : string) (vs : list string)
    (resources : gmap string (list string)) : gmap string (list string) :=
  foldl (fun r v => append_to key v r) resources vs.

(** The intent fields of the routes of the listed groups named [trg], in
    listing order. *)
Definition route_group_intent_list (route_groups : list RouteGroup) (trg : string)
  : list string :=
  rg ← filter (fun rg => trg = rg_name rg) route_groups;
  tr_intent <$> rg_transition_routes rg.

(** ** Changes to the store *)

(** A computation that leaves every object outside [locs] as it is. *)
Definition touches_only {O A} (locs : list loc) (m : M O A) : Prop :=
  ∀ h l, l ∉ locs → (m h).1 !! l = h !! l.

(** ** A page of agent A and the same page in agent B *)

(** The indexes of an agent and of one of its flows, as the rewriter holds
    them: identifier to display name for the source agent, display name to
    identifier for the destination agent. *)
Record Indexes : Type := mkIndexes {
  ix_intents : gmap string string;
  ix_entities : gmap string string;
  ix_webhooks : gmap string string;
  ix_pages : gmap string string;
  ix_rgs : gmap string string
}.

Definition source_pass (A : Indexes) (page : Page) : result Page :=
  source_page (ix_intents A) (ix_entities A) (ix_webhooks A) (ix_pages A) (ix_rgs A)
    page.

Definition destination_pass (B : Indexes) (flow_id : string) (page : Page)
  : result Page :=
  destination_page (ix_intents B) (ix_entities B) (ix_webhooks B) (ix_pages B)
    (ix_rgs B) flow_id page.

(** [y] is B's identifier for the display name that the identifier [x] has
    in A. *)
Definition two_hop (map_a map_b : gmap string string) (x y : string) : Prop :=
  ∃ n, map_a !! x = Some n ∧ map_b !! n = Some y.

(** B's display names mirror A's. *)
Definition mirrors (map_a map_b : gmap string string) : Prop :=
  ∀ x n, map_a !! x = Some n → is_Some (map_b !! n).

(** B's display names mirror A's, category by category. *)
Definition mirror (A B : Indexes) : Prop :=
  mirrors (ix_intents A) (ix_intents B) ∧ mirrors (ix_entities A) (ix_entities B) ∧
  mirrors (ix_webhooks A) (ix_webhooks B) ∧ mirrors (ix_pages A) (ix_pages B) ∧
  mirrors (ix_rgs A) (ix_rgs B).

(** The display names of A can be told from what the portable form sets
    apart: no empty intent, webhook or page name, no page named like a
    token, no entity type named like a built-in one. *)
Definition well_named (A : Indexes) : Prop :=
  (∀ x n, ix_intents A !! x = Some n → n ≠ "") ∧
  (∀ x n, ix_webhooks A !! x = Some n → n ≠ "") ∧
  (∀ x n, ix_pages A !! x = Some n → n ≠ "" ∧ ¬ page_sentinel n) ∧
  (∀ x n, ix_entities A !! x = Some n → PyStr.contains "sys." n = false).

Section Translation.
Variables A B : Indexes.
Variable flow_b : string.

Definition webhook_translated (w w' : string) : Prop :=
  if present w then two_hop (ix_webhooks A) (ix_webhooks B) w w' else w' = w.

Definition fulfillment_translated (f f' : option Fulfillment) : Prop :=
  option_Forall2
    (fun ff ff' =>
       ff_messages ff' = ff_messages ff ∧ ff_tag ff' = ff_tag ff ∧
       webhook_translated (ff_webhook ff) (ff_webhook ff')) f f'.

Definition intent_translated (i i' : string) : Prop :=
  if present i then two_hop (ix_intents A) (ix_intents B) i i' else i' = i.

Definition target_translated (t t' : string) : Prop :=
  if present t then
    if decide (page_sentinel (PyStr.last_segment t))
    then t' = flow_b +:+ "/pages/" +:+ PyStr.last_segment t
    else two_hop (ix_pages A) (ix_pages B) t t'
  else t' = t.

Definition entity_type_translated (e e' : string) : Prop :=
  if PyStr.contains "sys." e then e' = e else two_hop (ix_entities A) (ix_entities B) e e'.

Definition route_translated (tr tr' : TransitionRoute) : Prop :=
  tr_condition tr' = tr_condition tr ∧
  intent_translated (tr_intent tr) (tr_intent tr') ∧
  fulfillment_translated (tr_trigger_fulfillment tr) (tr_trigger_fulfillment tr') ∧
  target_translated (tr_target_page tr) (tr_target_page tr').

Definition handler_translated (h h' : EventHandler) : Prop :=
  eh_event h' = eh_event h ∧
  fulfillment_translated (eh_trigger_fulfillment h) (eh_trigger_fulfillment h') ∧
  target_translated (eh_target_page h) (eh_target_page h').

Definition fill_behavior_translated (fb fb' : FillBehavior) : Prop :=
  fulfillment_translated (fb_initial_prompt_fulfillment fb)
    (fb_initial_prompt_fulfillment fb') ∧
  Forall2 handler_translated (fb_reprompt_event_handlers fb)
    (fb_reprompt_event_handlers fb').

Definition parameter_translated (p p' : FormParameter) : Prop :=
  pa_display_name p' = pa_display_name p ∧ pa_is_list p' = pa_is_list p ∧
  entity_type_translated (pa_entity_type p) (pa_entity_type p') ∧
  option_Forall2 fill_behavior_translated (pa_fill_behavior p) (pa_fill_behavior p').

(** The same page in B: same shape, every reference translated, and the
    page's own identifier the one B has for its display name. *)
Definition page_translated (page page' : Page) : Prop :=
  pg_display_name page' = pg_display_name page ∧
  (ix_pages B) !! pg_display_name page = Some (pg_name page') ∧
  fulfillment_translated (pg_entry_fulfillment page) (pg_entry_fulfillment page') ∧
  Forall2 route_translated (pg_transition_routes page) (pg_transition_routes page') ∧
  Forall2 handler_translated (pg_event_handlers page) (pg_event_handlers page') ∧
  option_Forall2
    (fun fo fo' => Forall2 parameter_translated (fo_parameters fo) (fo_parameters fo'))
    (pg_form page) (pg_form page') ∧
  Forall2 (two_hop (ix_rgs A) (ix_rgs B)) (pg_transition_route_groups page)
    (pg_transition_route_groups page').

End Translation.

(** A route that carries a webhook is triggered by an intent or by a
    condition. *)
Definition triggered (tr : TransitionRoute) : Prop :=
  has_webhook (tr_trigger_fulfillment tr) = true →
  present (tr_intent tr) = true ∨ present (tr_condition tr) = true.

(** * Examples to run the code on *)

(** ** A source agent [a] and a destination agent [b] to run the code on *)

Definition example_page : Page :=
  mkPage "projects/p/locations/global/agents/a/flows/f/pages/p1" "Greeting"
    (Some (mkFulfillment ["Hello"] "projects/p/locations/global/agents/a/webhooks/w1" ""))
    (Some (mkForm
       [mkFormParameter "size" "projects/p/locations/global/agents/a/entityTypes/e1"
          false None]))
    ["projects/p/locations/global/agents/a/flows/f/transitionRouteGroups/rg1"]
    [mkTransitionRoute "projects/p/locations/global/agents/a/intents/i1" ""
       (Some (mkFulfillment [] "projects/p/locations/global/agents/a/webhooks/w2" ""))
       "projects/p/locations/global/agents/a/flows/f/pages/END_FLOW"]
    [].

Definition example_route_group : RouteGroup :=
  mkRouteGroup "projects/p/locations/global/agents/a/flows/f/transitionRouteGroups/rg1"
    "Common"
    [mkTransitionRoute "projects/p/locations/global/agents/a/intents/i2" ""
       (Some (mkFulfillment ["Bye"] "projects/p/locations/global/agents/a/webhooks/w1" ""))
       "projects/p/locations/global/agents/a/flows/f/pages/END_FLOW"].

(** A route group with a condition-triggered route: no intent. *)
Definition condition_route_group : RouteGroup :=
  mkRouteGroup "projects/p/locations/global/agents/a/flows/f/transitionRouteGroups/rg2"
    "Conditions"
    [mkTransitionRoute "" "$session.params.done = true" None
       "projects/p/locations/global/agents/a/flows/f/pages/END_FLOW"].

Definition example_dfcx : Collaborator :=
  mkCollaborator
    (fun agent_id =>
       if decide (agent_id = "projects/p/locations/global/agents/a")
       then [mkResource "projects/p/locations/global/agents/a/flows/f" "Default Start Flow"]
       else if decide (agent_id = "projects/p/locations/global/agents/b")
       then [mkResource "projects/p/locations/global/agents/b/flows/g" "Default Start Flow"]
       else [])
    (fun agent_id =>
       if decide (agent_id = "projects/p/locations/global/agents/a")
       then [mkResource "projects/p/locations/global/agents/a/intents/i1" "Order Pizza";
             mkResource "projects/p/locations/global/agents/a/intents/i2" "Cancel"]
       else if decide (agent_id = "projects/p/locations/global/agents/b")
       then [mkResource "projects/p/locations/global/agents/b/intents/i8" "Cancel";
             mkResource "projects/p/locations/global/agents/b/intents/i9" "Order Pizza"]
       else [])
    (fun agent_id =>
       if decide (agent_id = "projects/p/locations/global/agents/a")
       then [mkResource "projects/p/locations/global/agents/a/entityTypes/e1" "Size"]
       else if decide (agent_id = "projects/p/locations/global/agents/b")
       then [mkResource "projects/p/locations/global/agents/b/entityTypes/e9" "Size"]
       else [])
    (fun agent_id =>
       if decide (agent_id = "projects/p/locations/global/agents/a")
       then [mkResource "projects/p/locations/global/agents/a/webhooks/w1" "OrderWebhook";
             mkResource "projects/p/locations/global/agents/a/webhooks/w2" "PriceWebhook"]
       else if decide (agent_id = "projects/p/locations/global/agents/b")
       then [mkResource "projects/p/locations/global/agents/b/webhooks/w8" "PriceWebhook";
             mkResource "projects/p/locations/global/agents/b/webhooks/w9" "OrderWebhook"]
       else [])
    (fun flow_id =>
       if decide (flow_id = "projects/p/locations/global/agents/a/flows/f")
       then [example_page]
       else if decide (flow_id = "projects/p/locations/global/agents/b/flows/g")
       then [mkPage "projects/p/locations/global/agents/b/flows/g/pages/p9" "Greeting"
               None None [] [] []]
       else [])
    (fun flow_id =>
       if decide (flow_id = "projects/p/locations/global/agents/a/flows/f")
       then [example_route_group; condition_route_group]
       else if decide (flow_id = "projects/p/locations/global/agents/b/flows/g")
       then [mkRouteGroup
               "projects/p/locations/global/agents/b/flows/g/transitionRouteGroups/rg8"
               "Conditions" [];
             mkRouteGroup
               "projects/p/locations/global/agents/b/flows/g/transitionRouteGroups/rg9"
               "Common" []]
       else []).

Definition example_page_portable : Page :=
  mkPage "projects/p/locations/global/agents/a/flows/f/pages/p1" "Greeting"
    (Some (mkFulfillment ["Hello"] "OrderWebhook" ""))
    (Some (mkForm [mkFormParameter "size" "Size" false None]))
    ["Common"]
    [mkTransitionRoute "Order Pizza" "" (Some (mkFulfillment [] "PriceWebhook" ""))
       "END_FLOW"]
    [].

Definition example_page_in_b : Page :=
  mkPage "projects/p/locations/global/agents/b/flows/g/pages/p9" "Greeting"
    (Some (mkFulfillment ["Hello"] "projects/p/locations/global/agents/b/webhooks/w9" ""))
    (Some (mkForm
       [mkFormParameter "size" "projects/p/locations/global/agents/b/entityTypes/e9"
          false None]))
    ["projects/p/locations/global/agents/b/flows/g/transitionRouteGroups/rg9"]
    [mkTransitionRoute "projects/p/locations/global/agents/b/intents/i9" ""
       (Some (mkFulfillment [] "projects/p/locations/global/agents/b/webhooks/w8" ""))
       "projects/p/locations/global/agents/b/flows/g/pages/END_FLOW"]
    [].

(** A page of flow [f] of agent [a] whose three kinds of targets all end a
    flow, a session or stay on the page. *)
Definition sentinel_page : Page :=
  mkPage "projects/p/locations/global/agents/a/flows/f/pages/p1" "Greeting" None
    (Some (mkForm
       [mkFormParameter "size" "projects/-/locations/-/agents/-/entityTypes/sys.number"
          false
          (Some (mkFillBehavior None
             [mkEventHandler "sys.no-match-default" None
                "projects/p/locations/global/agents/a/flows/f/pages/CURRENT_PAGE"]))]))
    []
    [mkTransitionRoute "" "$page.params.status = FINAL" None
       "projects/p/locations/global/agents/a/flows/f/pages/END_FLOW"]
    [mkEventHandler "sys.no-input-default" None
       "projects/p/locations/global/agents/a/flows/f/pages/END_SESSION"].

Definition sentinel_page_portable : Page :=
  mkPage "projects/p/locations/global/agents/a/flows/f/pages/p1" "Greeting" None
    (Some (mkForm
       [mkFormParameter "size" "projects/-/locations/-/agents/-/entityTypes/sys.number"
          false
          (Some (mkFillBehavior None
             [mkEventHandler "sys.no-match-default" None "CURRENT_PAGE"]))]))
    []
    [mkTransitionRoute "" "$page.params.status = FINAL" None "END_FLOW"]
    [mkEventHandler "sys.no-input-default" None "END_SESSION"].

Definition example_start_page : StartPage :=
  mkStartPage "a/flows/f" "Default Start Flow"
    [mkTransitionRoute "a/intents/i1" "" (Some (mkFulfillment ["Bye"] "a/webhooks/w1" ""))
       "a/flows/f/pages/END_FLOW";
     mkTransitionRoute "" "true" None "a/flows/f/pages/START_PAGE";
     mkTransitionRoute "a/intents/i1" "" None "a/flows/f/pages/p2"]
    [mkEventHandler "sys.no-match-default" None "a/flows/f/pages/p2"].

Definition example_start_page_portable : StartPage :=
  mkStartPage "a/flows/f" "Default Start Flow"
    [mkTransitionRoute "Order Pizza" "" (Some (mkFulfillment ["Bye"] "OrderWebhook" ""))
       "END_FLOW";
     mkTransitionRoute "" "true" None "START_PAGE";
     mkTransitionRoute "Order Pizza" "" None "Menu"]
    [mkEventHandler "sys.no-match-default" None "a/flows/f/pages/p2"].

(** A route whose intent and target page both miss: the page rewriter meets
    the target first. *)
Definition double_miss_route : TransitionRoute :=
  mkTransitionRoute "a/intents/i1" "" None "a/flows/f/pages/p1".

Definition missing_intent_route : TransitionRoute :=
  mkTransitionRoute "a/intents/i1" "" (Some (mkFulfillment [] "a/webhooks/w1" ""))
    "a/flows/f/pages/END_FLOW".

(** A page of another flow [h] of agent [a], attached to a route group of
    that flow. *)
Definition other_flow_page : Page :=
  mkPage "projects/p/locations/global/agents/a/flows/h/pages/p5" "Survey" None None
    ["projects/p/locations/global/agents/a/flows/h/transitionRouteGroups/rg5"] [] [].

(** The collaborator of the example, with a route group listed for [h]. *)
Definition example_dfcx_with_h : Collaborator :=
  mkCollaborator (list_flows example_dfcx) (list_intents example_dfcx)
    (list_entity_types example_dfcx) (list_webhooks example_dfcx)
    (list_pages example_dfcx)
    (fun flow_id =>
       if decide (flow_id = "projects/p/locations/global/agents/a/flows/h")
       then [mkRouteGroup
               "projects/p/locations/global/agents/a/flows/h/transitionRouteGroups/rg5"
               "Survey routes"
               [mkTransitionRoute "projects/p/locations/global/agents/a/intents/i5" ""
                  None ""]]
       else list_transition_route_groups example_dfcx flow_id).

(** A page of A whose route leads to a page that A's operator named
    END_FLOW: the portable form of the target cannot be told from the token,
    and B's page of that name is not what the destination pass picks. *)
Definition token_named_pages_a : gmap string string :=
  <["projects/p/locations/global/agents/a/flows/f/pages/p2" := "END_FLOW"]>
    {["projects/p/locations/global/agents/a/flows/f/pages/p1" := "Greeting"]}.

Definition token_named_pages_b : gmap string string :=
  <["END_FLOW" := "projects/p/locations/global/agents/b/flows/g/pages/p7"]>
    {["Greeting" := "projects/p/locations/global/agents/b/flows/g/pages/p9"]}.

Definition token_named_page : Page :=
  mkPage "projects/p/locations/global/agents/a/flows/f/pages/p1" "Greeting" None None []
    [mkTransitionRoute "" "true" None
       "projects/p/locations/global/agents/a/flows/f/pages/p2"]
    [].

(** The indexes of agents [a] and [b] of the example, as the index builders
    make them. *)
Definition example_indexes_a : Indexes :=
  mkIndexes
    (get_intents_map example_dfcx "projects/p/locations/global/agents/a" false)
    (get_entities_map example_dfcx "projects/p/locations/global/agents/a" false)
    (get_webhooks_map example_dfcx "projects/p/locations/global/agents/a" false)
    (get_pages_map example_dfcx "projects/p/locations/global/agents/a/flows/f" false)
    (get_route_groups_map example_dfcx "projects/p/locations/global/agents/a/flows/f"
       false).

Definition example_indexes_b : Indexes :=
  mkIndexes
    (get_intents_map example_dfcx "projects/p/locations/global/agents/b" true)
    (get_entities_map example_dfcx "projects/p/locations/global/agents/b" true)
    (get_webhooks_map example_dfcx "projects/p/locations/global/agents/b" true)
    (get_pages_map example_dfcx "projects/p/locations/global/agents/b/flows/g" true)
    (get_route_groups_map example_dfcx "projects/p/locations/global/agents/b/flows/g"
       true).

(** * Further functions of the file *)

(** ** Intents with their parameters *)

Record IntentParameter : Type := mkIntentParameter {
  ip_id : string;
  ip_entity_type : string;
  ip_is_list : bool
}.

Record Intent : Type := mkIntent {
  in_name : string;
  in_display_name : string;
  in_training_phrases : list string;
  in_parameters : list IntentParameter
}.

(** The naming fields of an intent, which is all the index builders read. *)
Definition intent_resource (intent : Intent) : Resource :=
  mkResource (in_name intent) (in_display_name intent).

(** Lines 196-201 and 357-362: one round of [for param in
    intent.parameters]. *)
Definition convert_intent_parameter
    (source_entities_map destination_entities_map : gmap string string)
    (param : IntentParameter) : result IntentParameter :=
  if PyStr.contains "sys." (ip_entity_type param) then mret param
  else
    source_name ← getitem source_entities_map (ip_entity_type param);
    destination_name ← getitem destination_entities_map source_name;
    mret (mkIntentParameter (ip_id param) destination_name (ip_is_list param)).

(** Lines 195-201 and 355-362: [if 'parameters' in intent: for param in
    intent.parameters: ...] (an empty list of parameters makes no round). *)
Definition convert_intent
    (source_entities_map destination_entities_map : gmap string string)
    (intent : Intent) : result Intent :=
  params ← mapM (convert_intent_parameter source_entities_map destination_entities_map)
             (in_parameters intent);
  mret (mkIntent (in_name intent) (in_display_name intent) (in_training_phrases intent)
          params).

(** ** The collaborator as a service that changes

    A creation call is a request sent to the service. What the service
    lists and returns is a function of the requests sent to it so far. A
    creation call that raises is caught by the caller ([try ... except]),
    which goes on: the request is recorded, its outcome changes nothing but
    the log. [time.sleep] and the log lines are left out. *)

Inductive request : Type :=
| create_webhook (agent_id : string) (webhook : Resource)
| create_entity_type (agent_id : string) (entity : Resource)
| create_intent (agent_id : string) (intent : Intent)
| create_page (flow_id : string) (display_name : string)
| create_route_group (c : call).

Record Service : Type := mkService {
  sv_list_flows : list request → string → list Resource;
  sv_list_intents : list request → string → list Intent;
  sv_list_entity_types : list request → string → list Resource;
  sv_list_webhooks : list request → string → list Resource;
  sv_list_pages : list request → string → list Page;
  sv_list_transition_route_groups : list request → string → list RouteGroup;
  sv_get_intent : list request → string → Intent;
  sv_get_entity_type : list request → string → Resource
}.

(** The listing calls of the service after the requests [h]. *)
Definition dfcx_at (sv : Service) (h : list request) : Collaborator :=
  mkCollaborator (sv_list_flows sv h)
    (fun agent_id => intent_resource <$> sv_list_intents sv h agent_id)
    (sv_list_entity_types sv h) (sv_list_webhooks sv h) (sv_list_pages sv h)
    (sv_list_transition_route_groups sv h).

(** ** [copy_intent_to_agent] and [copy_entity_type_to_agent] *)

(** Lines 185-209. *)
Definition copy_intent_to_agent (sv : Service)
    (intent_display_name source_agent destination_agent : string)
    (h : list request) : list request * result unit :=
  let intents_map := get_intents_map (dfcx_at sv h) source_agent true in
  match getitem intents_map intent_display_name with
  | Raise e => (h, Raise e)
  | Ok intent_id =>
      let intent_object := sv_get_intent sv h intent_id in
      let source_entities_map := get_entities_map (dfcx_at sv h) source_agent false in
      let destination_entities_map :=
        get_entities_map (dfcx_at sv h) destination_agent true in
      match convert_intent source_entities_map destination_entities_map intent_object with
      | Raise e => (h, Raise e)
      | Ok intent' => ((h ++ [create_intent destination_agent intent'])%list, Ok tt)
      end
  end.

(** Lines 212-225. *)
Definition copy_entity_type_to_agent (sv : Service)
    (entity_type_display_name source_agent destination_agent : string)
    (h : list request) : list request * result unit :=
  let entity_map := get_entities_map (dfcx_at sv h) source_agent true in
  match getitem entity_map entity_type_display_name with
  | Raise e => (h, Raise e)
  | Ok entity_id =>
      let entity_object := sv_get_entity_type sv h entity_id in
      ((h ++ [create_entity_type destination_agent entity_object])%list, Ok tt)
  end.

(** ** [create_page_shells] *)

(** Lines 250-256: one round of [for page in pages_list]. The flow lookup
    sits inside the [try]: when it misses, the handler logs and goes on to
    the next page. *)
Definition create_page_shell (destination_flows : gmap string string)
    (destination_flow : string) (h : list request) (page : Page) : list request :=
  match getitem destination_flows destination_flow with
  | Ok flow_id => (h ++ [create_page flow_id (pg_display_name page)])%list
  | Raise _ => h
  end.

(** Lines 228-256. *)
Definition create_page_shells (sv : Service) (pages_list : list Page)
    (destination_agent destination_flow : string) (h : list request)
  : list request * result unit :=
  let destination_flows := get_flows_map (dfcx_at sv h) destination_agent true in
  (foldl (create_page_shell destination_flows destination_flow) h pages_list, Ok tt).

(** ** [copy_paste_agent_resources], all of it *)

(** The argument [resource_dict]: [resource_dict[key]] raises on a plain
    dictionary without the key and gives an empty collection on the
    [defaultdict] that [get_page_dependencies] returns. Only membership in
    the values is asked. *)
Record ResourceDict : Type := mkResourceDict {
  rd_items : gmap string (gset string);
  rd_default : bool
}.

Definition category (resource_dict : ResourceDict) (key : string)
  : result (gset string) :=
  match rd_items resource_dict !! key with
  | Some ids => Ok ids
  | None => if rd_default resource_dict then Ok ∅ else Raise (KeyError key)
  end.

(** Lines 292-294 (and 298-300, 304-306, 311-313): [for x in listed: if
    x.name in resource_dict[key]: ...append(x)]. *)
Fixpoint select {A} (name : A → string) (resource_dict : ResourceDict) (key : string)
    (listed : list A) : result (list A) :=
  match listed with
  | [] => mret []
  | x :: rest =>
      ids ← category resource_dict key;
      kept ← select name resource_dict key rest;
      mret (if decide (name x ∈ ids) then x :: kept else kept)
  end.

(** Lines 351-373: [for intent in resource_obj_dict['intents']]. *)
Fixpoint paste_intents
    (source_entities_map destination_entities_map : gmap string string)
    (destination_agent : string) (h : list request) (intents : list Intent)
  : list request * result unit :=
  match intents with
  | [] => (h, Ok tt)
  | intent :: rest =>
      match convert_intent source_entities_map destination_entities_map intent with
      | Raise e => (h, Raise e)
      | Ok intent' =>
          paste_intents source_entities_map destination_entities_map destination_agent
            (h ++ [create_intent destination_agent intent'])%list rest
      end
  end.

(** Lines 290-313: the COPY part, every listing asked of the service as it
    is when the function is entered. *)
Definition copy_resources (sv : Service) (resource_dict : ResourceDict)
    (source_agent : string) (skip_list : list string) (h : list request)
  : result (list Resource * list Intent * list Resource * option (string * list RouteGroup)) :=
  entities ← (if decide ("entities" ∈ skip_list) then mret []
              else select rs_name resource_dict "entities"
                     (sv_list_entity_types sv h source_agent));
  intents ← (if decide ("intents" ∈ skip_list) then mret []
             else select in_name resource_dict "intents"
                    (sv_list_intents sv h source_agent));
  webhooks ← (if decide ("webhooks" ∈ skip_list) then mret []
              else select rs_name resource_dict "webhooks"
                     (sv_list_webhooks sv h source_agent));
  route_groups ← (if decide ("route_groups" ∈ skip_list) then mret None
                  else
                    let source_flows_map := get_flows_map (dfcx_at sv h) source_agent true in
                    source_flow ← getitem source_flows_map "Default Start Flow";
                    rgs ← select rg_name resource_dict "route_groups"
                            (sv_list_transition_route_groups sv h source_flow);
                    mret (Some (source_flow, rgs)));
  mret (entities, intents, webhooks, route_groups).

(** Lines 375-412: the PASTE of the route groups, after the requests [h]. *)
Definition paste_selected_route_groups (sv : Service)
    (source_agent destination_agent destination_flow source_flow : string)
    (rgs : list RouteGroup) (h : list request) : list request * result unit :=
  match rgs with
  | [] => (h, Ok tt)
  | _ =>
      let source_intents_map := get_intents_map (dfcx_at sv h) source_agent false in
      let source_webhooks_map := get_webhooks_map (dfcx_at sv h) source_agent false in
      let source_pages_map := get_pages_map (dfcx_at sv h) source_flow false in
      let destination_flows := get_flows_map (dfcx_at sv h) destination_agent true in
      let destination_intents_map :=
        get_intents_map (dfcx_at sv h) destination_agent true in
      let destination_webhooks_map :=
        get_webhooks_map (dfcx_at sv h) destination_agent true in
      match getitem destination_flows destination_flow with
      | Raise e => (h, Raise e)
      | Ok f =>
          let destination_pages_map := get_pages_map (dfcx_at sv h) f true in
          let out :=
            paste_route_groups source_intents_map source_webhooks_map source_pages_map
              destination_flows destination_intents_map destination_webhooks_map
              destination_pages_map destination_flow [] rgs in
          ((h ++ (create_route_group <$> out.1))%list, out.2)
      end
  end.

(** Lines 259-412. *)
Definition copy_paste_agent_resources (sv : Service) (resource_dict : ResourceDict)
    (source_agent destination_agent destination_flow : string)
    (skip_list : list string) (h : list request) : list request * result unit :=
  match copy_resources sv resource_dict source_agent skip_list h with
  | Raise e => (h, Raise e)
  | Ok (entities, intents, webhooks, route_groups) =>
      let h1 := (h ++ (create_webhook destination_agent <$> webhooks))%list in
      let h2 := (h1 ++ (create_entity_type destination_agent <$> entities))%list in
      let pasted :=
        match intents with
        | [] => (h2, Ok tt)
        | _ =>
            paste_intents (get_entities_map (dfcx_at sv h2) source_agent false)
              (get_entities_map (dfcx_at sv h2) destination_agent true)
              destination_agent h2 intents
        end in
      match pasted with
      | (h3, Raise e) => (h3, Raise e)
      | (h3, Ok _) =>
          match route_groups with
          | Some (source_flow, rgs) =>
              paste_selected_route_groups sv source_agent destination_agent
                destination_flow source_flow rgs h3
          | None => (h3, Ok tt)
          end
      end
  end.

(** ** Dictionaries that are iterated *)

(** A Python dictionary keeps its keys in the order of their first
    insertion; a later value for a key replaces the earlier one where it
    stands. *)
Fixpoint odict_set {V} (k : string) (v : V) (d : list (string * V))
  : list (string * V) :=
  match d with
  | [] => [(k, v)]
  | (k', v') :: rest =>
      if decide (k' = k) then (k', v) :: rest else (k', v') :: odict_set k v rest
  end.

(** [{key: value for ...}], kept in order. *)
Definition odict_of {V} (kvs : list (string * V)) : list (string * V) :=
  foldl (fun d kv => odict_set kv.1 kv.2 d) [] kvs.

(** ** [route_groups_to_dataframe], up to the rows handed to pandas *)

(** A row [temp_dict]; the keys 'webhook' and 'fulfillment_message' are set
    on some rows only. *)
Record Row : Type := mkRow {
  row_flow : string;
  row_route_group_name : string;
  row_intent : string;
  row_webhook : option string;
  row_webhook_tag : string;
  row_fulfillment_message : option string
}.

(** [f.tag] and [f.messages] of a possibly unset sub-message. *)
Definition fulfillment_tag (f : option Fulfillment) : string :=
  match f with
  | Some ff => ff_tag ff
  | None => ""
  end.

Definition fulfillment_messages (f : option Fulfillment) : list string :=
  match f with
  | Some ff => ff_messages ff
  | None => []
  end.

Section Dataframe.
Variable dfcx : Collaborator.
(** [message.text.text], the texts of a response message. *)
Variable text_of : string → list string.
(** [self.agent_id], used when no agent is given. *)
Variable self_agent_id : string.

(** Lines 760-774: the body of [for route in route_group.transition_routes]. *)
Definition route_row (intent_dict webhooks_dict : gmap string string) (flow : string)
    (route_group : RouteGroup) (route : TransitionRoute) : result Row :=
  intent ← getitem intent_dict (PyStr.last_segment (tr_intent route));
  webhook ← (if present (fulfillment_webhook (tr_trigger_fulfillment route))
             then w ← getitem webhooks_dict
                        (PyStr.last_segment
                           (fulfillment_webhook (tr_trigger_fulfillment route)));
                  mret (Some w)
             else mret None);
  mret (mkRow flow (rg_display_name route_group) intent webhook
          (fulfillment_tag (tr_trigger_fulfillment route))
          (match fulfillment_messages (tr_trigger_fulfillment route) with
           | message :: _ =>
               match text_of message with
               | text :: _ => Some text
               | [] => None
               end
           | [] => None
           end)).

(** Lines 741-774: [rows_list], which [pd.DataFrame] is then built from. *)
Definition route_groups_rows (agent_id : string) : result (list Row) :=
  let agent_id := if present agent_id then agent_id else self_agent_id in
  let flows_dict :=
    odict_of ((fun flow => (rs_display_name flow, rs_name flow))
                <$> list_flows dfcx agent_id) in
  let intent_dict :=
    dict_of ((fun intent => (PyStr.last_segment (rs_name intent), rs_display_name intent))
               <$> list_intents dfcx agent_id) in
  let webhooks_dict :=
    dict_of ((fun webhook => (PyStr.last_segment (rs_name webhook),
                              rs_display_name webhook))
               <$> list_webhooks dfcx agent_id) in
  let route_groups_dict :=
    (fun kv => (kv.1, list_transition_route_groups dfcx kv.2)) <$> flows_dict in
  mapM (fun x : string * RouteGroup * TransitionRoute =>
          route_row intent_dict webhooks_dict x.1.1 x.1.2 x.2)
    (kv ← route_groups_dict;
     route_group ← kv.2;
     route ← rg_transition_routes route_group;
     [(kv.1, route_group, route)]).

(** ** [find_list_parameters], without what it prints *)

(** Lines 840-849: the body of [for param in page.form.parameters]; what is
    returned is what the round appends to [params_list]. *)
Definition list_parameter (entities_map : gmap string string) (param : FormParameter)
  : result (list string) :=
  if pa_is_list param then
    if PyStr.contains "sys" (PyStr.last_segment (pa_entity_type param))
    then mret [pa_display_name param]
    else
      _ ← getitem entities_map (PyStr.last_segment (pa_entity_type param));
      mret [pa_display_name param]
  else mret [].

(** Lines 828-852. [flows_map] maps identifiers to display names, and the
    pages are asked for under [flows_map[flow]]. *)
Definition find_list_parameters (agent_id : string) : result (list string) :=
  let agent_id := if present agent_id then agent_id else self_agent_id in
  let flows_map :=
    odict_of ((fun flow => (rs_name flow, rs_display_name flow))
                <$> list_flows dfcx agent_id) in
  let entities_map := get_entities_map dfcx agent_id false in
  found ← mapM (list_parameter entities_map)
            (kv ← flows_map;
             page ← list_pages dfcx kv.2;
             page_parameters page);
  mret (concat found).

End Dataframe.

(** ** [GitlabFunctions] *)

(** An entry [temp] of the actions list; 'content' is set for the actions
    that carry a file. *)
Record Action : Type := mkAction {
  ac_action : string;
  ac_file_path : string;
  ac_content : option string
}.

(** Lines 924-947. [read_file] is [open(path).read()], which gives nothing
    when the file cannot be opened (the call raises). *)
Definition gl_build_actions_list (read_file : string → option string)
    (action : string) (file_list : list string) (content_path : string)
  : option (list Action) :=
  if decide (action ∈ ["create"; "update"]) then
    mapM (fun file =>
            content ← read_file (content_path +:+ file);
            mret (mkAction action ("/" +:+ file) (Some content)))
      file_list
  else if decide (action ∈ ["delete"]) then
    Some ((fun file => mkAction action ("/" +:+ file) None) <$> file_list)
  else Some [].

(** Lines 949-956. *)
Record CommitData : Type := mkCommitData {
  cd_branch : string;
  cd_commit_message : string;
  cd_actions : list Action
}.

Definition gl_build_commit_data (actions_list : list Action) (branch message : string)
  : CommitData :=
  mkCommitData branch message actions_list.

(** ** Vocabulary of the further properties *)

(** The key and the value an index takes from a listed resource. *)
Definition index_key {A} (name display_name : A → string) (reverse : bool) (x : A)
  : string := if reverse then display_name x else name x.
Definition index_value {A} (name display_name : A → string) (reverse : bool) (x : A)
  : string := if reverse then name x else display_name x.


(** What the two-hop translation makes of the entity type of an intent
    parameter. *)
Definition intent_parameter_translated
    (source_entities_map destination_entities_map : gmap string string)
    (param param' : IntentParameter) : Prop :=
  ip_id param' = ip_id param ∧ ip_is_list param' = ip_is_list param ∧
  if PyStr.contains "sys." (ip_entity_type param)
  then ip_entity_type param' = ip_entity_type param
  else two_hop source_entities_map destination_entities_map
         (ip_entity_type param) (ip_entity_type param').

(** ** A service to run the further functions on

    The source agent [a] of the example, with its intents in full, and a
    destination agent [b] that starts with one empty flow and lists what
    was created in it. *)

Definition example_intents : list Intent :=
  [mkIntent "projects/p/locations/global/agents/a/intents/i1" "Order Pizza"
     ["a large pizza"]
     [mkIntentParameter "size" "projects/p/locations/global/agents/a/entityTypes/e1"
        false;
      mkIntentParameter "count" "projects/-/locations/-/agents/-/entityTypes/sys.number"
        false];
   mkIntent "projects/p/locations/global/agents/a/intents/i2" "Cancel" ["stop"] []].

(** What the requests [h] created in [agent_id]; a created resource gets an
    identifier made of the agent and its display name. *)
Definition created_entity_types (h : list request) (agent_id : string) : list Resource :=
  r ← h;
  match r with
  | create_entity_type a e =>
      if decide (a = agent_id)
      then [mkResource (a +:+ "/entityTypes/" +:+ rs_display_name e) (rs_display_name e)]
      else []
  | _ => []
  end.

Definition created_webhooks (h : list request) (agent_id : string) : list Resource :=
  r ← h;
  match r with
  | create_webhook a w =>
      if decide (a = agent_id)
      then [mkResource (a +:+ "/webhooks/" +:+ rs_display_name w) (rs_display_name w)]
      else []
  | _ => []
  end.

Definition created_intents (h : list request) (agent_id : string) : list Intent :=
  r ← h;
  match r with
  | create_intent a i =>
      if decide (a = agent_id)
      then [mkIntent (a +:+ "/intents/" +:+ in_display_name i) (in_display_name i)
              (in_training_phrases i) (in_parameters i)]
      else []
  | _ => []
  end.

Definition example_service : Service :=
  mkService
    (fun _ agent_id =>
       if decide (agent_id = "projects/p/locations/global/agents/a")
       then [mkResource "projects/p/locations/global/agents/a/flows/f" "Default Start Flow"]
       else [mkResource (agent_id +:+ "/flows/g") "Default Start Flow"])
    (fun h agent_id =>
       if decide (agent_id = "projects/p/locations/global/agents/a")
       then example_intents else created_intents h agent_id)
    (fun h agent_id =>
       if decide (agent_id = "projects/p/locations/global/agents/a")
       then list_entity_types example_dfcx agent_id
       else created_entity_types h agent_id)
    (fun h agent_id =>
       if decide (agent_id = "projects/p/locations/global/agents/a")
       then list_webhooks example_dfcx agent_id
       else created_webhooks h agent_id)
    (fun _ flow_id => list_pages example_dfcx flow_id)
    (fun _ flow_id =>
       if decide (flow_id = "projects/p/locations/global/agents/a/flows/f")
       then [example_route_group; condition_route_group]
       else [])
    (fun _ intent_id =>
       default (mkIntent "" "" [] [])
         (head (filter (fun i => in_name i = intent_id) example_intents)))
    (fun _ entity_id =>
       default (mkResource "" "")
         (head (filter (fun e => rs_name e = entity_id)
                  (list_entity_types example_dfcx
                     "projects/p/locations/global/agents/a")))).

(** ** What a call of [copy_paste_agent_resources] selects and sends *)

(** The category of [skip_list] that a request belongs to; pages have
    none. *)
Definition request_kind (r : request) : string :=
  match r with
  | create_webhook _ _ => "webhooks"
  | create_entity_type _ _ => "entities"
  | create_intent _ _ => "intents"
  | create_page _ _ => "pages"
  | create_route_group _ => "route_groups"
  end.

(** The listed resources that belong to the copy: none when the category is
    skipped, else those whose identifier is in [resource_dict[key]], in the
    order of the listing; a key that is missing holds nothing. *)
Definition selected {A} (name : A → string) (resource_dict : ResourceDict)
    (key : string) (skip_list : list string) (listed : list A) : list A :=
  if decide (key ∈ skip_list) then []
  else filter (fun x => name x ∈ default ∅ (rd_items resource_dict !! key)) listed.

(** [resource_dict[key]] gives a collection: the dictionary has the key, or
    it is a [defaultdict]. *)
Definition answers (resource_dict : ResourceDict) (key : string) : Prop :=
  rd_default resource_dict = true ∨ is_Some (rd_items resource_dict !! key).

(** The identifiers that the source agent lists for a category of agent
    level resources. *)
Definition listed_names (sv : Service) (h : list request) (source_agent key : string)
  : list string :=
  if decide (key = "entities") then rs_name <$> sv_list_entity_types sv h source_agent
  else if decide (key = "intents") then in_name <$> sv_list_intents sv h source_agent
  else if decide (key = "webhooks") then rs_name <$> sv_list_webhooks sv h source_agent
  else [].

(** The dictionary that selects every resource of the example's source
    agent, as [get_page_dependencies] would return it, and a plain one
    without the key 'intents'. *)
Definition example_resource_dict : ResourceDict :=
  mkResourceDict
    (<["entities" := {["projects/p/locations/global/agents/a/entityTypes/e1"]}]>
       (<["intents" := {["projects/p/locations/global/agents/a/intents/i1";
                         "projects/p/locations/global/agents/a/intents/i2"]}]>
          (<["webhooks" := {["projects/p/locations/global/agents/a/webhooks/w1"]}]> ∅)))
    true.

Definition plain_resource_dict : ResourceDict :=
  mkResourceDict
    (<["entities" := {["projects/p/locations/global/agents/a/entityTypes/e1"]}]> ∅)
    false.

(** ** Agents to build rows and find list parameters on *)

(** An agent whose only route group has intent routes only. *)
Definition intent_routes_dfcx : Collaborator :=
  mkCollaborator
    (fun _ => [mkResource "projects/p/locations/global/agents/a/flows/f"
                 "Default Start Flow"])
    (fun _ => [mkResource "projects/p/locations/global/agents/a/intents/i1" "Order Pizza";
               mkResource "projects/p/locations/global/agents/a/intents/i2" "Cancel"])
    (fun _ => [])
    (fun _ => [mkResource "projects/p/locations/global/agents/a/webhooks/w1"
                 "OrderWebhook"])
    (fun _ => [])
    (fun flow_id =>
       if decide (flow_id = "projects/p/locations/global/agents/a/flows/f")
       then [example_route_group] else []).

(** A collaborator that answers [list_pages] under the display name
    'Main' of its only flow, with the given pages. *)
Definition pages_by_name_dfcx (pages : list Page) : Collaborator :=
  mkCollaborator
    (fun _ => [mkResource "projects/p/locations/global/agents/a/flows/f" "Main"])
    (fun _ => [])
    (fun _ => [mkResource "projects/p/locations/global/agents/a/entityTypes/e1" "Size"])
    (fun _ => [])
    (fun flow_id => if decide (flow_id = "Main") then pages else [])
    (fun _ => []).

Definition builtin_list_page : Page :=
  mkPage "projects/p/locations/global/agents/a/flows/f/pages/p1" "Toppings" None
    (Some (mkForm
       [mkFormParameter "toppings"
          "projects/-/locations/-/agents/-/entityTypes/sys.any" true None;
        mkFormParameter "size" "projects/p/locations/global/agents/a/entityTypes/e1"
          false None]))
    [] [] [].

Definition custom_list_page : Page :=
  mkPage "projects/p/locations/global/agents/a/flows/f/pages/p2" "Sizes" None
    (Some (mkForm
       [mkFormParameter "sizes" "projects/p/locations/global/agents/a/entityTypes/e1"
          true None]))
    [] [] [].

(** ** What a page gives the extractor *)

(** The value [x] is collected under [key] because of [page], the groups
    [route_groups] being those listed for the flow of the first page. *)
Definition page_gives (route_groups : list RouteGroup) (page : Page) (key x : string)
  : Prop :=
  (key = "webhooks" ∧ x ≠ "" ∧
   (fulfillment_webhook (pg_entry_fulfillment page) = x ∨
    ∃ tr, tr ∈ pg_transition_routes page ∧ tr_intent tr = "" ∧ tr_condition tr ≠ "" ∧
          fulfillment_webhook (tr_trigger_fulfillment tr) = x)) ∨
  (key = "intents" ∧
   ((x ≠ "" ∧ ∃ tr, tr ∈ pg_transition_routes page ∧ tr_intent tr = x) ∨
    ∃ rg tr, rg_name rg ∈ pg_transition_route_groups page ∧ rg ∈ route_groups ∧
             tr ∈ rg_transition_routes rg ∧ tr_intent tr = x)) ∨
  (key = "entities" ∧ PyStr.contains "sys." x = false ∧
   ∃ param, param ∈ page_parameters page ∧ pa_entity_type param = x) ∨
  (key = "route_groups" ∧ x ∈ pg_transition_route_groups page).

(** A dictionary of lists as the extractor builds it: only the four
    categories are keys, and no key holds an empty list. *)
Definition categories_only (resources : gmap string (list string)) : Prop :=
  ∀ key l, resources !! key = Some l →
           key ∈ ["webhooks"; "intents"; "entities"; "route_groups"] ∧ l ≠ [].

(** ** The pass that a call of [convert_page_dependencies] runs on a page *)

(** The body of the loop over the copies, with the maps that the call
    builds for [agent_type] 'source' or 'destination'; [flow_id] is
    [flows_map[flow]]. *)
Definition page_pass (dfcx : Collaborator) (agent_id agent_type flow_id : string)
    (page : Page) : result Page :=
  if decide (agent_type = "source") then
    source_page (get_intents_map dfcx agent_id false)
      (get_entities_map dfcx agent_id false) (get_webhooks_map dfcx agent_id false)
      (get_pages_map dfcx flow_id false) (get_route_groups_map dfcx flow_id false) page
  else
    destination_page (get_intents_map dfcx agent_id true)
      (get_entities_map dfcx agent_id true) (get_webhooks_map dfcx agent_id true)
      (get_pages_map dfcx flow_id true) (get_route_groups_map dfcx flow_id true)
      flow_id page.

(** ** A start page of the example's source agent, and its source pass *)



(** * Properties *)

(** ** The result monad *)

Lemma bind_Ok {A B} (m : result A) (f : A → result B) (b : B) :
  m ≫= f = Ok b ↔ ∃ a, m = Ok a ∧ f a = Ok b.
Proof.
  destruct m as [a|e]; simpl; split.
  - intros Hf. by exists a.
  - by intros (a' & [= <-] & Hf).
  - discriminate.
  - by intros (a' & [=] & _).
Qed.

Lemma bind_Raise {A B} (m : result A) (f : A → result B) (e : exn) :
  m ≫= f = Raise e ↔ m = Raise e ∨ ∃ a, m = Ok a ∧ f a = Raise e.
Proof.
  destruct m as [a|e']; simpl; split.
  - intros Hf. right. by exists a.
  - intros [[=]|(a' & [= <-] & Hf)]. done.
  - intros [= ->]. by left.
  - intros [[= ->]|(a' & [=] & _)]. done.
Qed.

Lemma getitem_Ok (d : gmap string string) (k v : string) :
  getitem d k = Ok v ↔ d !! k = Some v.
Proof.
  unfold getitem. destruct (d !! k); split; (by intros [= ->]) || discriminate.
Qed.

Lemma getitem_Raise (d : gmap string string) (k : string) (e : exn) :
  getitem d k = Raise e ↔ d !! k = None ∧ e = KeyError k.
Proof.
  unfold getitem. destruct (d !! k); split.
  - discriminate.
  - by intros [[=] _].
  - by intros [= <-].
  - by intros [_ ->].
Qed.

Lemma getitem_miss (d : gmap string string) (k : string) :
  d !! k = None → getitem d k = Raise (KeyError k).
Proof. intros Hk. by apply getitem_Raise. Qed.

Lemma mapM_Ok {A B} (f : A → result B) (l : list A) (l' : list B) :
  mapM f l = Ok l' ↔ Forall2 (fun x y => f x = Ok y) l l'.
Proof.
  revert l'. induction l as [|x l IH]; intros l'; simpl.
  - split.
    + intros [= <-]. constructor.
    + intros Hl. by inversion Hl.
  - split.
    + intros Hm. apply bind_Ok in Hm as (y & Hy & Hm).
      apply bind_Ok in Hm as (k & Hk & [= <-]).
      constructor; [done|]. by apply IH.
    + intros Hl. apply Forall2_cons_inv_l in Hl as (y & k & Hy & Hk & ->).
      apply IH in Hk. by rewrite Hy, Hk.
Qed.

(** ** Strings *)

Lemma present_true (s : string) : present s = true ↔ s ≠ "".
Proof. unfold present. apply bool_decide_eq_true. Qed.

Lemma present_false (s : string) : present s = false ↔ s = "".
Proof.
  unfold present. rewrite bool_decide_eq_false.
  split; [|by intros -> Hn].
  intros Hn. destruct (decide (s = "")) as [Hs|Hs]; [done|]. by destruct Hn.
Qed.

(** ** C6: the two-hop translation on the spec's scenario *)

(** C6. With source maps intents {"i1":"Order Pizza"}, webhooks
    {"w1":"OrderWebhook"} and destination reverse maps intents
    {"Order Pizza":"i9"}, webhooks {"OrderWebhook":"w9"}, the route-group
    paste step turns a route with intent "i1" and trigger-fulfillment webhook
    "w1" (and no target page) into the same route with intent "i9" and
    webhook "w9", whatever the page and flow maps, the condition and the
    rest of the fulfillment are. *)
Theorem C6_paste_route_order_pizza
    (source_pages_map destination_flows destination_pages_map : gmap string string)
    (destination_flow condition tag : string) (messages : list string) :
  paste_transition_route
    {["i1" := "Order Pizza"]} {["w1" := "OrderWebhook"]} source_pages_map
    destination_flows {["Order Pizza" := "i9"]} {["OrderWebhook" := "w9"]}
    destination_pages_map destination_flow
    (mkTransitionRoute "i1" condition (Some (mkFulfillment messages "w1" tag)) "")
  = Ok (mkTransitionRoute "i9" condition (Some (mkFulfillment messages "w9" tag)) "").
Proof.
  unfold paste_transition_route, getitem. simpl.
  rewrite !lookup_singleton_eq. simpl.
  rewrite !lookup_singleton_eq. reflexivity.
Qed.

Lemma mret_Ok_inv {A} (a b : A) : mret a = Ok b → a = b.
Proof. by intros [=]. Qed.

Lemma bind_Ok_inv {A B} (m : result A) (f : A → result B) (b : B) :
  m ≫= f = Ok b → ∃ a, m = Ok a ∧ f a = Ok b.
Proof. apply bind_Ok. Qed.

Lemma mapM_Ok_rel {A B} (f : A → result B) (R : A → B → Prop) (l : list A)
    (l' : list B) :
  (∀ x y, f x = Ok y → R x y) → mapM f l = Ok l' → Forall2 R l l'.
Proof.
  intros Hf Hm. apply mapM_Ok in Hm.
  eapply Forall2_impl; [exact Hm|]. exact Hf.
Qed.

Lemma mapM_ext_in {A B} (f g : A → result B) (l : list A) :
  (∀ x, x ∈ l → f x = g x) → mapM f l = mapM g l.
Proof.
  induction l as [|x l IH]; intros Hfg; [done|]. simpl.
  rewrite (Hfg x) by apply list_elem_of_here.
  rewrite IH; [done|]. intros y Hy. apply Hfg. by apply list_elem_of_further.
Qed.

Section TargetPass.
Variables intents_map entities_map webhooks_map : gmap string string.
Variable target : string → result string.

Lemma convert_trigger_target (tr tr' : TransitionRoute) :
  convert_trigger intents_map webhooks_map tr = Ok tr' →
  tr_target_page tr' = tr_target_page tr ∧ tr_condition tr' = tr_condition tr.
Proof.
  unfold convert_trigger. intros H.
  destruct (present (tr_intent tr)).
  - apply bind_Ok_inv in H as (i & _ & H).
    apply bind_Ok_inv in H as (f & _ & H).
    by apply mret_Ok_inv in H as <-.
  - destruct (_ && _).
    + apply bind_Ok_inv in H as (f & _ & H).
      by apply mret_Ok_inv in H as <-.
    + by apply mret_Ok_inv in H as <-.
Qed.

Lemma convert_transition_route_target (tr tr' : TransitionRoute) :
  convert_transition_route intents_map webhooks_map target tr = Ok tr' →
  target_pass target (tr_target_page tr) (tr_target_page tr').
Proof.
  unfold convert_transition_route, target_pass. intros H.
  apply bind_Ok_inv in H as (tr1 & Htr1 & H).
  apply convert_trigger_target in H as [-> _].
  destruct (present (tr_target_page tr)).
  - apply bind_Ok_inv in Htr1 as (t & Ht & Htr1).
    by apply mret_Ok_inv in Htr1 as <-.
  - by apply mret_Ok_inv in Htr1 as <-.
Qed.

Lemma convert_event_handler_target (h h' : EventHandler) :
  convert_event_handler webhooks_map target h = Ok h' →
  target_pass target (eh_target_page h) (eh_target_page h').
Proof.
  unfold convert_event_handler, target_pass. intros H.
  apply bind_Ok_inv in H as (h1 & Hh1 & H).
  apply bind_Ok_inv in H as (f & _ & H).
  apply mret_Ok_inv in H as <-. simpl.
  destruct (present (eh_target_page h)).
  - apply bind_Ok_inv in Hh1 as (t & Ht & Hh1).
    by apply mret_Ok_inv in Hh1 as <-.
  - by apply mret_Ok_inv in Hh1 as <-.
Qed.

Lemma convert_reprompt_handler_target (h h' : EventHandler) :
  convert_reprompt_handler webhooks_map target h = Ok h' →
  target_pass target (eh_target_page h) (eh_target_page h').
Proof.
  unfold convert_reprompt_handler, target_pass. intros H.
  apply bind_Ok_inv in H as (f & _ & H). simpl in H.
  destruct (present (eh_target_page h)).
  - apply bind_Ok_inv in H as (t & Ht & H).
    by apply mret_Ok_inv in H as <-.
  - by apply mret_Ok_inv in H as <-.
Qed.

Lemma convert_parameter_targets (param param' : FormParameter) :
  convert_parameter entities_map webhooks_map target param = Ok param' →
  Forall2 (target_pass target) (reprompt_targets param) (reprompt_targets param').
Proof.
  unfold convert_parameter, reprompt_targets. intros H.
  apply bind_Ok_inv in H as (fb' & Hfb & H).
  apply bind_Ok_inv in H as (e & _ & H).
  apply mret_Ok_inv in H as <-. simpl.
  destruct (pa_fill_behavior param) as [fb|].
  - apply bind_Ok_inv in Hfb as (fb1 & Hfb1 & Hfb).
    apply mret_Ok_inv in Hfb as <-.
    unfold convert_fill_behavior in Hfb1.
    apply bind_Ok_inv in Hfb1 as (f & _ & Hfb1).
    apply bind_Ok_inv in Hfb1 as (hs & Hhs & Hfb1).
    apply mret_Ok_inv in Hfb1 as <-. simpl.
    apply Forall2_fmap. eapply mapM_Ok_rel; [|exact Hhs].
    apply convert_reprompt_handler_target.
  - apply mret_Ok_inv in Hfb as <-. constructor.
Qed.

Lemma convert_form_targets (form form' : option Form) :
  convert_form entities_map webhooks_map target form = Ok form' →
  Forall2 (target_pass target) (form_targets form) (form_targets form').
Proof.
  unfold convert_form, form_targets. intros H.
  destruct form as [fo|].
  - apply bind_Ok_inv in H as (ps & Hps & H).
    apply mret_Ok_inv in H as <-. simpl.
    apply Forall2_bind.
    eapply mapM_Ok_rel; [|exact Hps]. apply convert_parameter_targets.
  - apply mret_Ok_inv in H as <-. constructor.
Qed.

End TargetPass.

(** ** C2: sentinel targets in the page rewriter *)

Lemma source_target_page_sentinel (pages_map : gmap string string) (t : string) :
  page_sentinel (PyStr.last_segment t) →
  source_target_page pages_map t = Ok (PyStr.last_segment t).
Proof.
  unfold page_sentinel, source_target_page. intros Ht.
  repeat case_decide; try (unfold mret, result_ret; congruence).
  by destruct Ht as [?|[?|?]].
Qed.

Lemma destination_target_page_sentinel (pages_map : gmap string string)
    (flow_id t : string) :
  page_sentinel t →
  destination_target_page pages_map flow_id t = Ok (flow_id +:+ "/pages/" +:+ t).
Proof.
  unfold page_sentinel, destination_target_page. intros Ht.
  repeat case_decide; subst; try done.
  by destruct Ht as [?|[?|?]].
Qed.

Lemma source_target_page_agree (pm pm' : gmap string string) (t : string) :
  (¬ page_sentinel (PyStr.last_segment t) → pm' !! t = pm !! t) →
  source_target_page pm' t = source_target_page pm t.
Proof.
  unfold page_sentinel, source_target_page, getitem. intros Ht.
  repeat case_decide; try done.
  rewrite Ht; [done|]. by intros [?|[?|?]].
Qed.

Section PageTargets.
Variables intents_map entities_map webhooks_map pages_map rgs_map : gmap string string.
Variable flow_id : string.

Lemma source_page_targets (page page' : Page) :
  source_page intents_map entities_map webhooks_map pages_map rgs_map page = Ok page' →
  Forall2 (target_pass (source_target_page pages_map))
    (page_targets page) (page_targets page').
Proof.
  unfold source_page, page_targets. intros H.
  apply bind_Ok_inv in H as (ef & _ & H).
  apply bind_Ok_inv in H as (trs & Htrs & H).
  apply bind_Ok_inv in H as (ehs & Hehs & H).
  apply bind_Ok_inv in H as (fo & Hfo & H).
  apply bind_Ok_inv in H as (rgs & _ & H).
  apply mret_Ok_inv in H as <-. simpl.
  repeat apply Forall2_app.
  - apply Forall2_fmap. eapply mapM_Ok_rel; [|exact Htrs].
    apply convert_transition_route_target.
  - apply Forall2_fmap. eapply mapM_Ok_rel; [|exact Hehs].
    apply convert_event_handler_target.
  - eapply convert_form_targets, Hfo.
Qed.

Lemma destination_page_targets (page page' : Page) :
  destination_page intents_map entities_map webhooks_map pages_map rgs_map flow_id page
    = Ok page' →
  Forall2 (target_pass (destination_target_page pages_map flow_id))
    (page_targets page) (page_targets page').
Proof.
  unfold destination_page, page_targets. intros H.
  apply bind_Ok_inv in H as (name & _ & H).
  apply bind_Ok_inv in H as (ef & _ & H).
  apply bind_Ok_inv in H as (trs & Htrs & H).
  apply bind_Ok_inv in H as (ehs & Hehs & H).
  apply bind_Ok_inv in H as (fo & Hfo & H).
  apply bind_Ok_inv in H as (rgs & _ & H).
  apply mret_Ok_inv in H as <-. simpl.
  repeat apply Forall2_app.
  - apply Forall2_fmap. eapply mapM_Ok_rel; [|exact Htrs].
    apply convert_transition_route_target.
  - apply Forall2_fmap. eapply mapM_Ok_rel; [|exact Hehs].
    apply convert_event_handler_target.
  - eapply convert_form_targets, Hfo.
Qed.

End PageTargets.

(** The passes depend on the target pass only through the targets that
    occur. *)
Section TargetExt.
Variables intents_map entities_map webhooks_map : gmap string string.
Variables target1 target2 : string → result string.

Lemma convert_transition_route_ext (tr : TransitionRoute) :
  target1 (tr_target_page tr) = target2 (tr_target_page tr) →
  convert_transition_route intents_map webhooks_map target1 tr
  = convert_transition_route intents_map webhooks_map target2 tr.
Proof. unfold convert_transition_route. by intros ->. Qed.

Lemma convert_event_handler_ext (h : EventHandler) :
  target1 (eh_target_page h) = target2 (eh_target_page h) →
  convert_event_handler webhooks_map target1 h
  = convert_event_handler webhooks_map target2 h.
Proof. unfold convert_event_handler. by intros ->. Qed.

Lemma convert_reprompt_handler_ext (h : EventHandler) :
  target1 (eh_target_page h) = target2 (eh_target_page h) →
  convert_reprompt_handler webhooks_map target1 h
  = convert_reprompt_handler webhooks_map target2 h.
Proof. unfold convert_reprompt_handler. simpl. by intros ->. Qed.

Lemma convert_parameter_ext (param : FormParameter) :
  (∀ t, t ∈ reprompt_targets param → target1 t = target2 t) →
  convert_parameter entities_map webhooks_map target1 param
  = convert_parameter entities_map webhooks_map target2 param.
Proof.
  unfold convert_parameter, reprompt_targets, convert_fill_behavior. intros Ht.
  destruct (pa_fill_behavior param) as [fb|]; [|done].
  rewrite (mapM_ext_in (convert_reprompt_handler webhooks_map target1)
             (convert_reprompt_handler webhooks_map target2)); [done|].
  intros h Hh. apply convert_reprompt_handler_ext, Ht.
  by apply list_elem_of_fmap_2.
Qed.

Lemma convert_form_ext (form : option Form) :
  (∀ t, t ∈ form_targets form → target1 t = target2 t) →
  convert_form entities_map webhooks_map target1 form
  = convert_form entities_map webhooks_map target2 form.
Proof.
  unfold convert_form, form_targets. intros Ht.
  destruct form as [fo|]; [|done].
  rewrite (mapM_ext_in (convert_parameter entities_map webhooks_map target1)
             (convert_parameter entities_map webhooks_map target2)); [done|].
  intros param Hparam. apply convert_parameter_ext. intros t Hin.
  apply Ht, list_elem_of_bind. by exists param.
Qed.

End TargetExt.

Lemma source_page_pages_map_agree
    (intents_map entities_map webhooks_map pm pm' rgs_map : gmap string string)
    (page : Page) :
  (∀ t, t ∈ page_targets page → ¬ page_sentinel (PyStr.last_segment t) →
        pm' !! t = pm !! t) →
  source_page intents_map entities_map webhooks_map pm' rgs_map page
  = source_page intents_map entities_map webhooks_map pm rgs_map page.
Proof.
  unfold source_page, page_targets. intros Ht.
  assert (∀ t, t ∈ page_targets page →
               source_target_page pm' t = source_target_page pm t) as Hs.
  { intros t Hin. apply source_target_page_agree. by apply Ht. }
  unfold page_targets in Hs.
  rewrite (mapM_ext_in
             (convert_transition_route intents_map webhooks_map (source_target_page pm'))
             (convert_transition_route intents_map webhooks_map (source_target_page pm))).
  2:{ intros tr Htr. apply convert_transition_route_ext, Hs.
      apply elem_of_app. left. by apply list_elem_of_fmap_2. }
  rewrite (mapM_ext_in
             (convert_event_handler webhooks_map (source_target_page pm'))
             (convert_event_handler webhooks_map (source_target_page pm))).
  2:{ intros h Hh. apply convert_event_handler_ext, Hs.
      apply elem_of_app. right. apply elem_of_app. left.
      by apply list_elem_of_fmap_2. }
  rewrite (convert_form_ext entities_map webhooks_map
             (source_target_page pm') (source_target_page pm)); [done|].
  intros t Hin. apply Hs. apply elem_of_app. right. apply elem_of_app. by right.
Qed.

(** C2. In the source direction every target-page reference of a page
    (transition routes, event handlers, reprompt event handlers) whose last
    path segment is END_FLOW, END_SESSION or CURRENT_PAGE comes out as that
    bare token, and the pages map is not consulted for it: the pass gives
    the same outcome under any pages map that agrees on the other targets.
    In the destination direction every bare token comes out as the
    destination flow identifier followed by '/pages/' and the token. *)
Theorem C2_sentinel_preservation
    (intents_map entities_map webhooks_map pages_map rgs_map : gmap string string)
    (flow_id : string) (page : Page) :
  (∀ page',
     source_page intents_map entities_map webhooks_map pages_map rgs_map page
       = Ok page' →
     Forall2 (fun t t' => page_sentinel (PyStr.last_segment t) →
                          t' = PyStr.last_segment t)
       (page_targets page) (page_targets page')) ∧
  (∀ pages_map',
     (∀ t, t ∈ page_targets page → ¬ page_sentinel (PyStr.last_segment t) →
           pages_map' !! t = pages_map !! t) →
     source_page intents_map entities_map webhooks_map pages_map' rgs_map page
     = source_page intents_map entities_map webhooks_map pages_map rgs_map page) ∧
  (∀ page',
     destination_page intents_map entities_map webhooks_map pages_map rgs_map
       flow_id page = Ok page' →
     Forall2 (fun t t' => page_sentinel t → t' = flow_id +:+ "/pages/" +:+ t)
       (page_targets page) (page_targets page')).
Proof.
  split; [|split].
  - intros page' H. apply source_page_targets in H.
    eapply Forall2_impl; [exact H|]. intros t t' Hpass Hsent.
    unfold target_pass in Hpass.
    destruct (present t) eqn:Hp.
    + rewrite source_target_page_sentinel in Hpass by done. by injection Hpass.
    + apply present_false in Hp. subst t. by destruct Hsent as [?|[?|?]].
  - intros pages_map'. apply source_page_pages_map_agree.
  - intros page' H. apply destination_page_targets in H.
    eapply Forall2_impl; [exact H|]. intros t t' Hpass Hsent.
    unfold target_pass in Hpass.
    destruct (present t) eqn:Hp.
    + rewrite destination_target_page_sentinel in Hpass by done. by injection Hpass.
    + apply present_false in Hp. subst t. by destruct Hsent as [?|[?|?]].
Qed.

Lemma C2_sentinel_preservation_witness :
  source_page ∅ ∅ ∅ ∅ ∅ sentinel_page = Ok sentinel_page_portable ∧
  Forall2 (fun t t' => page_sentinel (PyStr.last_segment t) →
                       t' = PyStr.last_segment t)
    (page_targets sentinel_page) (page_targets sentinel_page_portable) ∧
  source_page ∅ ∅ ∅ {["unrelated" := "Other"]} ∅ sentinel_page
  = source_page ∅ ∅ ∅ ∅ ∅ sentinel_page ∧
  ∃ page',
    destination_page ∅ ∅ ∅ {["Greeting" := "b/flows/g/pages/p9"]} ∅ "b/flows/g"
      sentinel_page_portable = Ok page' ∧
    page_targets page' =
      ["b/flows/g/pages/END_FLOW"; "b/flows/g/pages/END_SESSION";
       "b/flows/g/pages/CURRENT_PAGE"] ∧
    Forall2 (fun t t' => page_sentinel t → t' = "b/flows/g" +:+ "/pages/" +:+ t)
      (page_targets sentinel_page_portable) (page_targets page').
Proof.
  assert (source_page ∅ ∅ ∅ ∅ ∅ sentinel_page = Ok sentinel_page_portable) as Hs
    by (vm_compute; reflexivity).
  split; [exact Hs|]. split.
  { exact (proj1 (C2_sentinel_preservation ∅ ∅ ∅ ∅ ∅ "" sentinel_page) _ Hs). }
  split.
  { apply (proj1 (proj2 (C2_sentinel_preservation ∅ ∅ ∅ ∅ ∅ "" sentinel_page))).
    intros t Hin Hns. exfalso. apply Hns.
    unfold page_targets, sentinel_page in Hin. simpl in Hin.
    repeat (apply elem_of_cons in Hin as [->|Hin]);
      [ vm_compute; tauto .. | by apply elem_of_nil in Hin ]. }
  eexists. split; [vm_compute; reflexivity|]. split; [reflexivity|].
  apply (proj2 (proj2 (C2_sentinel_preservation ∅ ∅ ∅
           {["Greeting" := "b/flows/g/pages/p9"]} ∅ "b/flows/g"
           sentinel_page_portable))).
  vm_compute. reflexivity.
Defined.

(** ** C5: built-in entity types *)

Lemma convert_entity_type_sys (entities_map : gmap string string) (e : string) :
  PyStr.contains "sys." e = true → convert_entity_type entities_map e = Ok e.
Proof. unfold convert_entity_type. by intros ->. Qed.

Lemma convert_entity_type_agree (em em' : gmap string string) (e : string) :
  (PyStr.contains "sys." e = false → em' !! e = em !! e) →
  convert_entity_type em' e = convert_entity_type em e.
Proof.
  unfold convert_entity_type, getitem. intros He.
  destruct (PyStr.contains "sys." e); [done|]. by rewrite He.
Qed.

Section EntityTypes.
Variables intents_map webhooks_map pages_map rgs_map : gmap string string.
Variable flow_id : string.

Lemma convert_parameter_entity_type (entities_map : gmap string string)
    (target : string → result string) (param param' : FormParameter) :
  convert_parameter entities_map webhooks_map target param = Ok param' →
  convert_entity_type entities_map (pa_entity_type param)
  = Ok (pa_entity_type param').
Proof.
  unfold convert_parameter. intros H.
  apply bind_Ok_inv in H as (fb & _ & H).
  apply bind_Ok_inv in H as (e & He & H).
  by apply mret_Ok_inv in H as <-.
Qed.

Lemma convert_form_entity_types (entities_map : gmap string string)
    (target : string → result string) (form form' : option Form) :
  convert_form entities_map webhooks_map target form = Ok form' →
  Forall2 entity_type_kept
    (match form with Some fo => fo_parameters fo | None => [] end)
    (match form' with Some fo => fo_parameters fo | None => [] end).
Proof.
  unfold convert_form. intros H. destruct form as [fo|].
  - apply bind_Ok_inv in H as (ps & Hps & H).
    apply mret_Ok_inv in H as <-. simpl.
    eapply mapM_Ok_rel; [|exact Hps].
    intros param param' Hp Hsys. apply convert_parameter_entity_type in Hp.
    rewrite convert_entity_type_sys in Hp by done. by injection Hp.
  - apply mret_Ok_inv in H as <-. constructor.
Qed.

Lemma convert_form_entities_agree (em em' : gmap string string)
    (target : string → result string) (form : option Form) :
  (∀ param, param ∈ match form with Some fo => fo_parameters fo | None => [] end →
            PyStr.contains "sys." (pa_entity_type param) = false →
            em' !! pa_entity_type param = em !! pa_entity_type param) →
  convert_form em' webhooks_map target form = convert_form em webhooks_map target form.
Proof.
  unfold convert_form. intros He. destruct form as [fo|]; [|done].
  rewrite (mapM_ext_in (convert_parameter em' webhooks_map target)
             (convert_parameter em webhooks_map target)); [done|].
  intros param Hin. unfold convert_parameter.
  rewrite (convert_entity_type_agree em em'); [done|]. by apply He.
Qed.

End EntityTypes.

(** C5. A form parameter whose entity-type reference holds the substring
    'sys.' keeps that reference through the rewriter in the source and in
    the destination direction, and the entities map is not consulted for
    it: either pass gives the same outcome under any entities map that
    agrees on the other parameters' entity types. *)
Theorem C5_builtin_entity_passthrough
    (intents_map entities_map webhooks_map pages_map rgs_map : gmap string string)
    (flow_id : string) (page : Page) :
  (∀ page',
     source_page intents_map entities_map webhooks_map pages_map rgs_map page
       = Ok page' →
     Forall2 entity_type_kept (page_parameters page) (page_parameters page')) ∧
  (∀ page',
     destination_page intents_map entities_map webhooks_map pages_map rgs_map
       flow_id page = Ok page' →
     Forall2 entity_type_kept (page_parameters page) (page_parameters page')) ∧
  (∀ entities_map',
     (∀ param, param ∈ page_parameters page →
               PyStr.contains "sys." (pa_entity_type param) = false →
               entities_map' !! pa_entity_type param
               = entities_map !! pa_entity_type param) →
     source_page intents_map entities_map' webhooks_map pages_map rgs_map page
     = source_page intents_map entities_map webhooks_map pages_map rgs_map page ∧
     destination_page intents_map entities_map' webhooks_map pages_map rgs_map
       flow_id page
     = destination_page intents_map entities_map webhooks_map pages_map rgs_map
         flow_id page).
Proof.
  split; [|split].
  - unfold source_page, page_parameters. intros page' H.
    apply bind_Ok_inv in H as (ef & _ & H).
    apply bind_Ok_inv in H as (trs & _ & H).
    apply bind_Ok_inv in H as (ehs & _ & H).
    apply bind_Ok_inv in H as (fo & Hfo & H).
    apply bind_Ok_inv in H as (rgs & _ & H).
    apply mret_Ok_inv in H as <-. simpl.
    eapply convert_form_entity_types, Hfo.
  - unfold destination_page, page_parameters. intros page' H.
    apply bind_Ok_inv in H as (name & _ & H).
    apply bind_Ok_inv in H as (ef & _ & H).
    apply bind_Ok_inv in H as (trs & _ & H).
    apply bind_Ok_inv in H as (ehs & _ & H).
    apply bind_Ok_inv in H as (fo & Hfo & H).
    apply bind_Ok_inv in H as (rgs & _ & H).
    apply mret_Ok_inv in H as <-. simpl.
    eapply convert_form_entity_types, Hfo.
  - unfold page_parameters. intros entities_map' He.
    unfold source_page, destination_page.
    by rewrite !(convert_form_entities_agree webhooks_map entities_map entities_map').
Qed.

Lemma C5_builtin_entity_passthrough_witness :
  source_page ∅ ∅ ∅ ∅ ∅ sentinel_page = Ok sentinel_page_portable ∧
  Forall2 entity_type_kept (page_parameters sentinel_page)
    (page_parameters sentinel_page_portable) ∧
  (pa_entity_type <$> page_parameters sentinel_page_portable)
  = ["projects/-/locations/-/agents/-/entityTypes/sys.number"] ∧
  (∃ page',
     destination_page ∅ ∅ ∅ {["Greeting" := "b/flows/g/pages/p9"]} ∅ "b/flows/g"
       sentinel_page_portable = Ok page' ∧
     Forall2 entity_type_kept (page_parameters sentinel_page_portable)
       (page_parameters page')) ∧
  source_page ∅ {["e1" := "Size"]} ∅ ∅ ∅ sentinel_page
  = source_page ∅ ∅ ∅ ∅ ∅ sentinel_page.
Proof.
  assert (source_page ∅ ∅ ∅ ∅ ∅ sentinel_page = Ok sentinel_page_portable) as Hs
    by (vm_compute; reflexivity).
  split; [exact Hs|]. split.
  { exact (proj1 (C5_builtin_entity_passthrough ∅ ∅ ∅ ∅ ∅ "" sentinel_page) _ Hs). }
  split; [reflexivity|]. split.
  { eexists. split; [vm_compute; reflexivity|].
    apply (proj1 (proj2 (C5_builtin_entity_passthrough ∅ ∅ ∅
             {["Greeting" := "b/flows/g/pages/p9"]} ∅ "b/flows/g"
             sentinel_page_portable))).
    vm_compute. reflexivity. }
  apply (proj2 (proj2 (C5_builtin_entity_passthrough ∅ ∅ ∅ ∅ ∅ "" sentinel_page))).
  intros param Hin Hns. exfalso.
  unfold page_parameters, sentinel_page in Hin. simpl in Hin.
  apply list_elem_of_singleton in Hin as ->. vm_compute in Hns. discriminate.
Defined.

(** ** C8: the start-page rewriter *)

Lemma start_source_target_page_eq (pages_map : gmap string string) (t : string) :
  start_source_target_page pages_map t
  = if decide (start_sentinel (PyStr.last_segment t))
    then Ok (PyStr.last_segment t) else getitem pages_map t.
Proof.
  unfold start_source_target_page, start_sentinel.
  repeat case_decide; try (unfold mret, result_ret; congruence); tauto.
Qed.

Lemma start_destination_target_page_eq (pages_map : gmap string string)
    (flow_id t : string) :
  start_destination_target_page pages_map flow_id t
  = if decide (start_sentinel t)
    then Ok (flow_id +:+ "/pages/" +:+ t) else getitem pages_map t.
Proof.
  unfold start_destination_target_page, start_sentinel.
  repeat case_decide; subst; try done; tauto.
Qed.

Lemma start_source_target_page_same (pages_map : gmap string string) (t : string) :
  ¬ sentinel_of_one_rewriter (PyStr.last_segment t) →
  start_source_target_page pages_map t = source_target_page pages_map t.
Proof.
  unfold sentinel_of_one_rewriter, start_source_target_page, source_target_page.
  intros Ht. repeat case_decide; try done; tauto.
Qed.

Lemma start_destination_target_page_same (pages_map : gmap string string)
    (flow_id t : string) :
  ¬ sentinel_of_one_rewriter t →
  start_destination_target_page pages_map flow_id t
  = destination_target_page pages_map flow_id t.
Proof.
  unfold sentinel_of_one_rewriter, start_destination_target_page,
    destination_target_page.
  intros Ht. repeat case_decide; try done; tauto.
Qed.

(** C8. [convert_start_page_dependencies] rewrites the transition routes of
    the start page and nothing else of it. On a route it runs the route pass
    of the page rewriter, with its own target pass: in the source direction
    a target whose last segment is END_FLOW or START_PAGE becomes that token
    and any other target is looked up in the pages map; in the destination
    direction the token END_FLOW or START_PAGE becomes the flow identifier
    followed by '/pages/' and the token and any other target is looked up in
    the pages map. On a route whose target is none of END_SESSION,
    CURRENT_PAGE and START_PAGE the two rewriters agree. *)
Theorem C8_start_page_rewriter
    (intents_map webhooks_map pages_map : gmap string string) (flow_id : string)
    (sp : StartPage) :
  (∀ t, start_source_target_page pages_map t
        = if decide (start_sentinel (PyStr.last_segment t))
          then Ok (PyStr.last_segment t) else getitem pages_map t) ∧
  (∀ t, start_destination_target_page pages_map flow_id t
        = if decide (start_sentinel t)
          then Ok (flow_id +:+ "/pages/" +:+ t) else getitem pages_map t) ∧
  (∀ sp',
     source_start_page intents_map webhooks_map pages_map sp = Ok sp' →
     sp_name sp' = sp_name sp ∧ sp_display_name sp' = sp_display_name sp ∧
     sp_event_handlers sp' = sp_event_handlers sp ∧
     Forall2 (fun tr tr' =>
                target_pass (start_source_target_page pages_map)
                  (tr_target_page tr) (tr_target_page tr') ∧
                (¬ sentinel_of_one_rewriter (PyStr.last_segment (tr_target_page tr)) →
                 convert_transition_route intents_map webhooks_map
                   (source_target_page pages_map) tr = Ok tr'))
       (sp_transition_routes sp) (sp_transition_routes sp')) ∧
  (∀ sp',
     destination_start_page intents_map webhooks_map pages_map flow_id sp = Ok sp' →
     sp_name sp' = sp_name sp ∧ sp_display_name sp' = sp_display_name sp ∧
     sp_event_handlers sp' = sp_event_handlers sp ∧
     Forall2 (fun tr tr' =>
                target_pass (start_destination_target_page pages_map flow_id)
                  (tr_target_page tr) (tr_target_page tr') ∧
                (¬ sentinel_of_one_rewriter (tr_target_page tr) →
                 convert_transition_route intents_map webhooks_map
                   (destination_target_page pages_map flow_id) tr = Ok tr'))
       (sp_transition_routes sp) (sp_transition_routes sp')).
Proof.
  split; [apply start_source_target_page_eq|].
  split; [apply start_destination_target_page_eq|].
  split.
  - unfold source_start_page. intros sp' H.
    apply bind_Ok_inv in H as (trs & Htrs & H).
    apply mret_Ok_inv in H as <-. simpl. repeat split.
    eapply mapM_Ok_rel; [|exact Htrs]. intros tr tr' Htr. split.
    + eapply convert_transition_route_target, Htr.
    + intros Hsame. rewrite <- Htr. symmetry.
      by apply convert_transition_route_ext, start_source_target_page_same.
  - unfold destination_start_page. intros sp' H.
    apply bind_Ok_inv in H as (trs & Htrs & H).
    apply mret_Ok_inv in H as <-. simpl. repeat split.
    eapply mapM_Ok_rel; [|exact Htrs]. intros tr tr' Htr. split.
    + eapply convert_transition_route_target, Htr.
    + intros Hsame. rewrite <- Htr. symmetry.
      by apply convert_transition_route_ext, start_destination_target_page_same.
Qed.

Lemma C8_start_page_rewriter_witness :
  source_start_page {["a/intents/i1" := "Order Pizza"]}
    {["a/webhooks/w1" := "OrderWebhook"]} {["a/flows/f/pages/p2" := "Menu"]}
    example_start_page = Ok example_start_page_portable ∧
  Forall2 (fun tr tr' =>
             target_pass (start_source_target_page {["a/flows/f/pages/p2" := "Menu"]})
               (tr_target_page tr) (tr_target_page tr') ∧
             (¬ sentinel_of_one_rewriter (PyStr.last_segment (tr_target_page tr)) →
              convert_transition_route {["a/intents/i1" := "Order Pizza"]}
                {["a/webhooks/w1" := "OrderWebhook"]}
                (source_target_page {["a/flows/f/pages/p2" := "Menu"]}) tr = Ok tr'))
    (sp_transition_routes example_start_page)
    (sp_transition_routes example_start_page_portable) ∧
  start_source_target_page ∅ "a/flows/f/pages/END_SESSION"
  = Raise (KeyError "a/flows/f/pages/END_SESSION") ∧
  ∃ sp',
    destination_start_page {["Order Pizza" := "b/intents/i9"]}
      {["OrderWebhook" := "b/webhooks/w9"]} {["Menu" := "b/flows/g/pages/p7"]}
      "b/flows/g" example_start_page_portable = Ok sp' ∧
    (tr_target_page <$> sp_transition_routes sp')
    = ["b/flows/g/pages/END_FLOW"; "b/flows/g/pages/START_PAGE"; "b/flows/g/pages/p7"] ∧
    sp_event_handlers sp' = sp_event_handlers example_start_page_portable.
Proof.
  assert (source_start_page {["a/intents/i1" := "Order Pizza"]}
            {["a/webhooks/w1" := "OrderWebhook"]} {["a/flows/f/pages/p2" := "Menu"]}
            example_start_page = Ok example_start_page_portable) as Hs
    by (vm_compute; reflexivity).
  split; [exact Hs|]. split.
  { exact (proj2 (proj2 (proj2 (proj1 (proj2 (proj2
             (C8_start_page_rewriter _ _ _ "" example_start_page))) _ Hs)))). }
  split.
  { rewrite (proj1 (C8_start_page_rewriter ∅ ∅ ∅ "" example_start_page)).
    vm_compute. reflexivity. }
  eexists. split; [vm_compute; reflexivity|]. split; [reflexivity|].
  apply (proj2 (proj2 (proj2 (C8_start_page_rewriter
           {["Order Pizza" := "b/intents/i9"]} {["OrderWebhook" := "b/webhooks/w9"]}
           {["Menu" := "b/flows/g/pages/p7"]} "b/flows/g"
           example_start_page_portable)))).
  vm_compute. reflexivity.
Defined.

(** ** Lookup misses *)

Lemma key_errors_mret {A} (a : A) : key_errors (mret a).
Proof. intros e [=]. Qed.

Lemma key_errors_getitem (d : gmap string string) (k : string) :
  key_errors (getitem d k).
Proof. intros e He. apply getitem_Raise in He as [_ ->]. by exists k. Qed.

Lemma key_errors_bind {A B} (m : result A) (f : A → result B) :
  key_errors m → (∀ a, key_errors (f a)) → key_errors (m ≫= f).
Proof.
  intros Hm Hf e He. apply bind_Raise in He as [He|(a & _ & He)].
  - by apply Hm.
  - by apply (Hf a).
Qed.

Lemma key_errors_mapM {A B} (f : A → result B) (l : list A) :
  (∀ x, key_errors (f x)) → key_errors (mapM f l).
Proof.
  intros Hf. induction l as [|x l IH]; simpl.
  - apply key_errors_mret.
  - apply key_errors_bind; [apply Hf|]. intros y.
    apply key_errors_bind; [apply IH|]. intros k. apply key_errors_mret.
Qed.

Create HintDb key_errors.
#[global] Hint Resolve key_errors_mret key_errors_getitem : key_errors.

Ltac key_errors_step :=
  match goal with
  | |- key_errors (_ ≫= _) => apply key_errors_bind; [|intros ?]
  | |- key_errors (mapM _ _) => apply key_errors_mapM; intros ?
  | |- key_errors (if ?b then _ else _) => destruct b
  | |- key_errors (match ?o with Some _ => _ | None => _ end) => destruct o
  | |- key_errors (match ?l with [] => _ | _ :: _ => _ end) => destruct l
  | |- key_errors _ => solve [auto with key_errors]
  end.

Ltac key_errors := repeat key_errors_step.

Section KeyErrors.
Variables intents_map entities_map webhooks_map pages_map rgs_map : gmap string string.
Variable flow_id : string.

Lemma key_errors_convert_webhook (f : option Fulfillment) :
  key_errors (convert_webhook webhooks_map f).
Proof. unfold convert_webhook. key_errors. Qed.

Hint Resolve key_errors_convert_webhook : key_errors.

Lemma key_errors_convert_trigger (tr : TransitionRoute) :
  key_errors (convert_trigger intents_map webhooks_map tr).
Proof. unfold convert_trigger. key_errors. Qed.

Hint Resolve key_errors_convert_trigger : key_errors.

Lemma key_errors_source_target_page (t : string) :
  key_errors (source_target_page pages_map t).
Proof. unfold source_target_page. key_errors. Qed.

Lemma key_errors_destination_target_page (t : string) :
  key_errors (destination_target_page pages_map flow_id t).
Proof. unfold destination_target_page. key_errors. Qed.

Lemma key_errors_start_source_target_page (t : string) :
  key_errors (start_source_target_page pages_map t).
Proof. unfold start_source_target_page. key_errors. Qed.

Lemma key_errors_start_destination_target_page (t : string) :
  key_errors (start_destination_target_page pages_map flow_id t).
Proof. unfold start_destination_target_page. key_errors. Qed.

Section Target.
Variable target : string → result string.
Hypothesis key_errors_target : ∀ t, key_errors (target t).

Hint Resolve key_errors_target : key_errors.

Lemma key_errors_convert_transition_route (tr : TransitionRoute) :
  key_errors (convert_transition_route intents_map webhooks_map target tr).
Proof. unfold convert_transition_route. key_errors. Qed.

Lemma key_errors_convert_event_handler (h : EventHandler) :
  key_errors (convert_event_handler webhooks_map target h).
Proof. unfold convert_event_handler. key_errors. Qed.

Lemma key_errors_convert_reprompt_handler (h : EventHandler) :
  key_errors (convert_reprompt_handler webhooks_map target h).
Proof. unfold convert_reprompt_handler. key_errors. Qed.

Hint Resolve key_errors_convert_reprompt_handler : key_errors.

Lemma key_errors_convert_form (form : option Form) :
  key_errors (convert_form entities_map webhooks_map target form).
Proof.
  unfold convert_form, convert_parameter, convert_fill_behavior, convert_entity_type.
  key_errors.
Qed.

End Target.

Lemma key_errors_source_route_groups_loop (temp_list field trgs : list string) :
  key_errors (source_route_groups_loop rgs_map temp_list field trgs).
Proof.
  revert temp_list field. induction trgs as [|trg rest IH]; intros; simpl.
  - apply key_errors_mret.
  - apply key_errors_bind; [apply key_errors_getitem|]. intros n. apply IH.
Qed.

Lemma key_errors_destination_route_groups_loop (temp_list trgs : list string) :
  key_errors (destination_route_groups_loop rgs_map temp_list trgs).
Proof.
  revert temp_list. induction trgs as [|trg rest IH]; intros; simpl.
  - apply key_errors_mret.
  - apply key_errors_bind; [apply key_errors_getitem|]. intros n. apply IH.
Qed.

Hint Resolve key_errors_convert_transition_route key_errors_convert_event_handler
  key_errors_convert_form key_errors_source_target_page
  key_errors_destination_target_page key_errors_start_source_target_page
  key_errors_start_destination_target_page key_errors_source_route_groups_loop
  key_errors_destination_route_groups_loop : key_errors.

Lemma key_errors_source_page (page : Page) :
  key_errors (source_page intents_map entities_map webhooks_map pages_map rgs_map page).
Proof. unfold source_page, source_route_groups. key_errors. Qed.

Lemma key_errors_destination_page (page : Page) :
  key_errors (destination_page intents_map entities_map webhooks_map pages_map rgs_map
                flow_id page).
Proof. unfold destination_page, destination_route_groups. key_errors. Qed.

Lemma key_errors_source_start_page (sp : StartPage) :
  key_errors (source_start_page intents_map webhooks_map pages_map sp).
Proof. unfold source_start_page. key_errors. Qed.

Lemma key_errors_destination_start_page (sp : StartPage) :
  key_errors (destination_start_page intents_map webhooks_map pages_map flow_id sp).
Proof. unfold destination_start_page. key_errors. Qed.

End KeyErrors.

Lemma not_Ok_key_error {A} (r : result A) :
  key_errors r → (∀ a, r ≠ Ok a) → ∃ k, r = Raise (KeyError k).
Proof.
  intros Hk Hn. destruct r as [a|e]; [by destruct (Hn a)|].
  destruct (Hk e eq_refl) as [k ->]. by exists k.
Qed.

Lemma mapM_Ok_elem {A B} (f : A → result B) (l : list A) (l' : list B) (x : A) :
  mapM f l = Ok l' → x ∈ l → ∃ y, f x = Ok y.
Proof.
  intros Hm Hx. apply mapM_Ok in Hm.
  apply list_elem_of_lookup in Hx as [i Hi].
  destruct (Forall2_lookup_l _ _ _ _ _ Hm Hi) as (y & _ & Hy). by exists y.
Qed.

(** ** C4: a route whose intent misses its index *)

Section MissingIntent.
Variables intents_map webhooks_map : gmap string string.
Variable tr : TransitionRoute.
Hypothesis intent_present : present (tr_intent tr) = true.
Hypothesis intent_missing : intents_map !! tr_intent tr = None.

Lemma convert_trigger_missing_intent (t : string) :
  convert_trigger intents_map webhooks_map (set_tr_target_page t tr)
  = Raise (KeyError (tr_intent tr)).
Proof.
  unfold convert_trigger. simpl. rewrite intent_present.
  by rewrite (getitem_miss _ _ intent_missing).
Qed.

Lemma convert_transition_route_missing_intent (target : string → result string) :
  convert_transition_route intents_map webhooks_map target tr
  = match (if present (tr_target_page tr) then target (tr_target_page tr)
           else Ok (tr_target_page tr)) with
    | Ok _ => Raise (KeyError (tr_intent tr))
    | Raise e => Raise e
    end.
Proof.
  unfold convert_transition_route.
  destruct (present (tr_target_page tr)).
  - destruct (target (tr_target_page tr)) as [t|e]; simpl; [|done].
    apply convert_trigger_missing_intent.
  - simpl. rewrite <- (convert_trigger_missing_intent (tr_target_page tr)).
    by destruct tr.
Qed.

Lemma convert_transition_route_not_Ok (target : string → result string)
    (tr' : TransitionRoute) :
  convert_transition_route intents_map webhooks_map target tr ≠ Ok tr'.
Proof.
  rewrite convert_transition_route_missing_intent.
  by destruct (if present (tr_target_page tr) then _ else _).
Qed.

Lemma mapM_convert_transition_route_not_Ok (target : string → result string)
    (trs trs' : list TransitionRoute) :
  tr ∈ trs →
  mapM (convert_transition_route intents_map webhooks_map target) trs ≠ Ok trs'.
Proof.
  intros Hin Hm. destruct (mapM_Ok_elem _ _ _ _ Hm Hin) as [tr' Htr'].
  by apply convert_transition_route_not_Ok in Htr'.
Qed.

End MissingIntent.

(** ** The route-group paste step stops at the first lookup miss *)

Section PasteStops.
Variables source_intents_map source_webhooks_map source_pages_map : gmap string string.
Variables destination_flows destination_intents_map destination_webhooks_map
  destination_pages_map : gmap string string.
Variable destination_flow : string.

Abbreviation paste_route :=
  (paste_transition_route source_intents_map source_webhooks_map source_pages_map
     destination_flows destination_intents_map destination_webhooks_map
     destination_pages_map destination_flow).
Abbreviation paste_groups :=
  (paste_route_groups source_intents_map source_webhooks_map source_pages_map
     destination_flows destination_intents_map destination_webhooks_map
     destination_pages_map destination_flow).
Abbreviation call_for :=
  (call_for source_intents_map source_webhooks_map source_pages_map
     destination_flows destination_intents_map destination_webhooks_map
     destination_pages_map destination_flow).

Lemma key_errors_paste_transition_route (tr : TransitionRoute) :
  key_errors (paste_route tr).
Proof. unfold paste_transition_route. key_errors. Qed.

Lemma paste_transition_route_missing_intent (tr : TransitionRoute) :
  source_intents_map !! tr_intent tr = None →
  paste_route tr = Raise (KeyError (tr_intent tr)).
Proof.
  intros Hmiss. unfold paste_transition_route.
  by rewrite (getitem_miss _ _ Hmiss).
Qed.

Lemma paste_route_groups_stops (pre post : list RouteGroup) (rg : RouteGroup)
    (calls : list call) :
  (∀ trs, mapM paste_route (rg_transition_routes rg) ≠ Ok trs) →
  ∃ calls' k,
    paste_groups calls (pre ++ rg :: post) = ((calls ++ calls')%list, Raise (KeyError k)) ∧
    Forall (fun c => ∃ rg0, rg0 ∈ pre ∧ call_for rg0 c) calls'.
Proof.
  intros Hrg. revert calls. induction pre as [|rg0 pre IH]; intros calls; simpl.
  - destruct (not_Ok_key_error (mapM paste_route (rg_transition_routes rg)))
      as [k Hk]; [|done|].
    { apply key_errors_mapM, key_errors_paste_transition_route. }
    rewrite Hk. exists [], k. by rewrite app_nil_r.
  - destruct (mapM paste_route (rg_transition_routes rg0)) as [trs|e] eqn:Hrg0.
    + destruct (getitem destination_flows destination_flow) as [f|e] eqn:Hf.
      * apply getitem_Ok in Hf.
        destruct (IH (calls ++ [create_transition_route_group f
                                  (mkRouteGroup (rg_name rg0) (rg_display_name rg0) trs)])%list)
          as (calls' & k & Hp & Hcalls).
        eexists (_ :: calls'), k. rewrite Hp, <- app_assoc. split; [done|].
        constructor.
        -- exists rg0. split; [apply list_elem_of_here|]. by exists f, trs.
        -- eapply Forall_impl; [exact Hcalls|]. intros c (rg1 & Hin & Hc).
           exists rg1. split; [by apply list_elem_of_further|done].
      * destruct (IH calls) as (calls' & k & Hp & Hcalls).
        exists calls', k. split; [done|].
        eapply Forall_impl; [exact Hcalls|]. intros c (rg1 & Hin & Hc).
        exists rg1. split; [by apply list_elem_of_further|done].
    + destruct (key_errors_mapM paste_route (rg_transition_routes rg0)
                  key_errors_paste_transition_route e Hrg0) as [k ->].
      exists [], k. rewrite app_nil_r. split; [done|constructor].
Qed.

Lemma mapM_paste_route_missing_intent (tr : TransitionRoute)
    (trs trs' : list TransitionRoute) :
  source_intents_map !! tr_intent tr = None → tr ∈ trs →
  mapM paste_route trs ≠ Ok trs'.
Proof.
  intros Hmiss Hin Hm. destruct (mapM_Ok_elem _ _ _ _ Hm Hin) as [tr' Htr'].
  by rewrite paste_transition_route_missing_intent in Htr'.
Qed.

End PasteStops.

Lemma C4_named_key_counterexample :
  present (tr_intent double_miss_route) = true ∧
  (∅ : gmap string string) !! tr_intent double_miss_route = None ∧
  convert_transition_route ∅ ∅ (source_target_page ∅) double_miss_route
  = Raise (KeyError "a/flows/f/pages/p1") ∧
  convert_transition_route ∅ ∅ (source_target_page ∅) double_miss_route
  ≠ Raise (KeyError (tr_intent double_miss_route)).
Proof.
  assert (convert_transition_route ∅ ∅ (source_target_page ∅) double_miss_route
          = Raise (KeyError "a/flows/f/pages/p1")) as Hr by (vm_compute; reflexivity).
  split; [reflexivity|]. split; [apply lookup_empty|]. split; [exact Hr|].
  rewrite Hr. simpl. intros [=].
Qed.

(** C4. A transition route that carries an intent identifier
    absent from the intents index is never rewritten: its pass raises a
    [KeyError]. In the page and start-page rewriters the error names the
    intent identifier, unless the route's target page, looked up before the
    intent, raised first, in which case the error is that one; the failure
    reaches the caller of the page or start-page pass. In the route-group
    step of the orchestrator the intent is looked up first and the error
    names it; the step stops with a [KeyError]. *)
Theorem C4_missing_intent_raises
    (intents_map : gmap string string) (tr : TransitionRoute)
    (intent_present : present (tr_intent tr) = true)
    (intent_missing : intents_map !! tr_intent tr = None) :
  (∀ webhooks_map target,
     convert_transition_route intents_map webhooks_map target tr
     = match (if present (tr_target_page tr) then target (tr_target_page tr)
              else Ok (tr_target_page tr)) with
       | Ok _ => Raise (KeyError (tr_intent tr))
       | Raise e => Raise e
       end) ∧
  (∀ entities_map webhooks_map pages_map rgs_map flow_id page,
     tr ∈ pg_transition_routes page →
     (∃ k, source_page intents_map entities_map webhooks_map pages_map rgs_map page
           = Raise (KeyError k)) ∧
     (∃ k, destination_page intents_map entities_map webhooks_map pages_map rgs_map
             flow_id page = Raise (KeyError k))) ∧
  (∀ webhooks_map pages_map flow_id sp,
     tr ∈ sp_transition_routes sp →
     (∃ k, source_start_page intents_map webhooks_map pages_map sp
           = Raise (KeyError k)) ∧
     (∃ k, destination_start_page intents_map webhooks_map pages_map flow_id sp
           = Raise (KeyError k))) ∧
  (∀ source_webhooks_map source_pages_map destination_flows destination_intents_map
     destination_webhooks_map destination_pages_map destination_flow,
     paste_transition_route intents_map source_webhooks_map source_pages_map
       destination_flows destination_intents_map destination_webhooks_map
       destination_pages_map destination_flow tr
     = Raise (KeyError (tr_intent tr)) ∧
     ∀ rg rgs calls,
       tr ∈ rg_transition_routes rg → rg ∈ rgs →
       ∃ calls' k,
         paste_route_groups intents_map source_webhooks_map source_pages_map
           destination_flows destination_intents_map destination_webhooks_map
           destination_pages_map destination_flow calls rgs
         = (calls', Raise (KeyError k))).
Proof.
  split; [|split; [|split]].
  - intros webhooks_map target.
    by apply convert_transition_route_missing_intent.
  - intros entities_map webhooks_map pages_map rgs_map flow_id page Hin. split.
    + apply not_Ok_key_error; [apply key_errors_source_page|].
      intros page' H. unfold source_page in H.
      apply bind_Ok_inv in H as (ef & _ & H).
      apply bind_Ok_inv in H as (trs & Htrs & _).
      by eapply mapM_convert_transition_route_not_Ok in Htrs.
    + apply not_Ok_key_error; [apply key_errors_destination_page|].
      intros page' H. unfold destination_page in H.
      apply bind_Ok_inv in H as (name & _ & H).
      apply bind_Ok_inv in H as (ef & _ & H).
      apply bind_Ok_inv in H as (trs & Htrs & _).
      by eapply mapM_convert_transition_route_not_Ok in Htrs.
  - intros webhooks_map pages_map flow_id sp Hin. split.
    + apply not_Ok_key_error; [apply key_errors_source_start_page|].
      intros sp' H. unfold source_start_page in H.
      apply bind_Ok_inv in H as (trs & Htrs & _).
      by eapply mapM_convert_transition_route_not_Ok in Htrs.
    + apply not_Ok_key_error; [apply key_errors_destination_start_page|].
      intros sp' H. unfold destination_start_page in H.
      apply bind_Ok_inv in H as (trs & Htrs & _).
      by eapply mapM_convert_transition_route_not_Ok in Htrs.
  - intros swm spm dfl dim dwm dpm dflow. split.
    + by apply paste_transition_route_missing_intent.
    + intros rg rgs calls Htr Hrg.
      apply list_elem_of_split in Hrg as (pre & post & ->).
      destruct (paste_route_groups_stops intents_map swm spm dfl dim dwm dpm dflow
                  pre post rg calls) as (calls' & k & Hp & _).
      * intros trs. by eapply mapM_paste_route_missing_intent.
      * by exists (calls ++ calls')%list, k.
Qed.

Lemma C4_missing_intent_raises_witness :
  present (tr_intent missing_intent_route) = true ∧
  ({["a/intents/i2" := "Other"]} : gmap string string)
    !! tr_intent missing_intent_route = None ∧
  convert_transition_route {["a/intents/i2" := "Other"]} ∅ (source_target_page ∅)
    missing_intent_route = Raise (KeyError "a/intents/i1") ∧
  (∃ k, source_page {["a/intents/i2" := "Other"]} ∅ ∅ ∅ ∅
          (mkPage "a/flows/f/pages/p1" "Greeting" None None [] [missing_intent_route] [])
        = Raise (KeyError k)) ∧
  paste_transition_route {["a/intents/i2" := "Other"]} ∅ ∅ ∅ ∅ ∅ ∅ "Default Start Flow"
    missing_intent_route = Raise (KeyError "a/intents/i1").
Proof.
  assert (({["a/intents/i2" := "Other"]} : gmap string string)
            !! tr_intent missing_intent_route = None) as Hmiss
    by (vm_compute; reflexivity).
  destruct (C4_missing_intent_raises {["a/intents/i2" := "Other"]}
              missing_intent_route eq_refl Hmiss) as (Hroute & Hpage & _ & Hpaste).
  split; [reflexivity|]. split; [exact Hmiss|]. split; [|split].
  - rewrite Hroute. vm_compute. reflexivity.
  - apply (Hpage ∅ ∅ ∅ ∅ ""). apply list_elem_of_here.
  - apply (Hpaste ∅ ∅ ∅ ∅ ∅ ∅ "Default Start Flow").
Defined.

(** ** C9: routes without an intent in the route-group paste step *)

Lemma filter_elem_split {A} (P : A → Prop) `{∀ x, Decision (P x)} (l : list A) (x : A) :
  x ∈ l → P x → ∃ pre post, filter P l = (pre ++ x :: post)%list.
Proof.
  intros Hin HP. apply list_elem_of_split.
  by apply list_elem_of_filter.
Qed.

Lemma match_app_cons {A B} (pre post : list A) (x : A) (a b : B) :
  match (pre ++ x :: post)%list with [] => a | _ :: _ => b end = b.
Proof. by destruct pre. Qed.

(** C9. The route-group step looks the intent up on every route, set or
    not. When a selected route group of the source agent's 'Default Start
    Flow' has a route whose intent field is empty and the empty string is no
    key of the source intents map, the step raises a [KeyError]; the looked-up
    key on that route is the empty string; and every creation call made
    before the failure is for a group that precedes this one in the
    selection, none for the group itself. *)
Theorem C9_route_without_intent_raises
    (dfcx : Collaborator) (resource_route_groups : list string)
    (source_agent destination_agent destination_flow source_flow : string)
    (skip_list : list string) (rg : RouteGroup) (tr : TransitionRoute)
    (not_skipped : "route_groups" ∉ skip_list)
    (source_flow_found :
       get_flows_map dfcx source_agent true !! "Default Start Flow" = Some source_flow)
    (listed : rg ∈ list_transition_route_groups dfcx source_flow)
    (selected : rg_name rg ∈ resource_route_groups)
    (route_of_group : tr ∈ rg_transition_routes rg)
    (no_intent : tr_intent tr = "")
    (empty_no_key : get_intents_map dfcx source_agent false !! "" = None) :
  let paste_route f :=
    paste_transition_route (get_intents_map dfcx source_agent false)
      (get_webhooks_map dfcx source_agent false) (get_pages_map dfcx source_flow false)
      (get_flows_map dfcx destination_agent true)
      (get_intents_map dfcx destination_agent true)
      (get_webhooks_map dfcx destination_agent true) (get_pages_map dfcx f true)
      destination_flow in
  (∀ f, paste_route f tr = Raise (KeyError "")) ∧
  ∃ pre post calls k,
    filter (fun rg0 => rg_name rg0 ∈ resource_route_groups)
      (list_transition_route_groups dfcx source_flow) = (pre ++ rg :: post)%list ∧
    copy_paste_route_groups dfcx resource_route_groups source_agent destination_agent
      destination_flow skip_list = (calls, Raise (KeyError k)) ∧
    Forall (fun c => ∃ rg0 f trs,
              rg0 ∈ pre ∧
              mapM (paste_route f) (rg_transition_routes rg0) = Ok trs ∧
              c = create_transition_route_group f
                    (mkRouteGroup (rg_name rg0) (rg_display_name rg0) trs)) calls.
Proof.
  intros paste_route.
  assert (∀ f, paste_route f tr = Raise (KeyError "")) as Htr.
  { intros f. unfold paste_route.
    rewrite paste_transition_route_missing_intent; rewrite no_intent; done. }
  split; [exact Htr|].
  destruct (filter_elem_split (fun rg0 => rg_name rg0 ∈ resource_route_groups)
              _ rg listed selected) as (pre & post & Hsel).
  exists pre, post. unfold copy_paste_route_groups.
  rewrite decide_False by done.
  rewrite (proj2 (getitem_Ok _ _ _) source_flow_found). rewrite Hsel.
  rewrite match_app_cons.
  destruct (getitem (get_flows_map dfcx destination_agent true) destination_flow)
    as [f|e] eqn:Hf.
  - destruct (paste_route_groups_stops
                (get_intents_map dfcx source_agent false)
                (get_webhooks_map dfcx source_agent false)
                (get_pages_map dfcx source_flow false)
                (get_flows_map dfcx destination_agent true)
                (get_intents_map dfcx destination_agent true)
                (get_webhooks_map dfcx destination_agent true)
                (get_pages_map dfcx f true) destination_flow pre post rg [])
      as (calls & k & Hp & Hcalls).
    + intros trs Hm. destruct (mapM_Ok_elem _ _ _ _ Hm route_of_group) as [tr' Htr'].
      generalize (Htr f). unfold paste_route. congruence.
    + exists calls, k. split; [done|]. split; [exact Hp|].
      eapply Forall_impl; [exact Hcalls|].
      apply getitem_Ok in Hf.
      intros c (rg0 & Hin & f0 & trs & Hf0 & Hm & ->).
      rewrite Hf in Hf0. injection Hf0 as <-. by exists rg0, f, trs.
  - apply getitem_Raise in Hf as [_ ->].
    exists [], destination_flow. split; [done|]. split; [done|constructor].
Qed.

Lemma C9_route_without_intent_raises_witness :
  copy_paste_route_groups example_dfcx
    [rg_name example_route_group; rg_name condition_route_group]
    "projects/p/locations/global/agents/a" "projects/p/locations/global/agents/b"
    "Default Start Flow" ["intents"]
  = ([create_transition_route_group "projects/p/locations/global/agents/b/flows/g"
        (mkRouteGroup (rg_name example_route_group) "Common"
           [mkTransitionRoute "projects/p/locations/global/agents/b/intents/i8" ""
              (Some (mkFulfillment ["Bye"]
                       "projects/p/locations/global/agents/b/webhooks/w9" ""))
              "projects/p/locations/global/agents/b/flows/g/pages/END_FLOW"])],
     Raise (KeyError "")) ∧
  ∃ pre post calls k,
    filter (fun rg0 => rg_name rg0 ∈ [rg_name example_route_group;
                                      rg_name condition_route_group])
      (list_transition_route_groups example_dfcx
         "projects/p/locations/global/agents/a/flows/f")
    = (pre ++ condition_route_group :: post)%list ∧
    copy_paste_route_groups example_dfcx
      [rg_name example_route_group; rg_name condition_route_group]
      "projects/p/locations/global/agents/a" "projects/p/locations/global/agents/b"
      "Default Start Flow" ["intents"] = (calls, Raise (KeyError k)) ∧
    Forall (fun c => ∃ rg0 f trs,
              rg0 ∈ pre ∧
              mapM (paste_transition_route
                      (get_intents_map example_dfcx
                         "projects/p/locations/global/agents/a" false)
                      (get_webhooks_map example_dfcx
                         "projects/p/locations/global/agents/a" false)
                      (get_pages_map example_dfcx
                         "projects/p/locations/global/agents/a/flows/f" false)
                      (get_flows_map example_dfcx
                         "projects/p/locations/global/agents/b" true)
                      (get_intents_map example_dfcx
                         "projects/p/locations/global/agents/b" true)
                      (get_webhooks_map example_dfcx
                         "projects/p/locations/global/agents/b" true)
                      (get_pages_map example_dfcx f true) "Default Start Flow")
                (rg_transition_routes rg0) = Ok trs ∧
              c = create_transition_route_group f
                    (mkRouteGroup (rg_name rg0) (rg_display_name rg0) trs)) calls.
Proof.
  split; [vm_compute; reflexivity|].
  assert ("route_groups" ∉ ["intents"]) as Hskip.
  { intros Hin. apply list_elem_of_singleton in Hin. discriminate. }
  refine (proj2 (C9_route_without_intent_raises example_dfcx
              [rg_name example_route_group; rg_name condition_route_group]
              "projects/p/locations/global/agents/a"
              "projects/p/locations/global/agents/b" "Default Start Flow"
              "projects/p/locations/global/agents/a/flows/f" ["intents"]
              condition_route_group
              (mkTransitionRoute "" "$session.params.done = true" None
                 "projects/p/locations/global/agents/a/flows/f/pages/END_FLOW")
              Hskip _ _ _ _ _ _)).
  - vm_compute. reflexivity.
  - change (condition_route_group ∈ [example_route_group; condition_route_group]).
    apply list_elem_of_further, list_elem_of_here.
  - apply list_elem_of_further, list_elem_of_here.
  - apply list_elem_of_here.
  - reflexivity.
  - vm_compute. reflexivity.
Defined.

(** ** The dependency extractor on one page *)

Lemma append_to_lookup (key v : string) (r : gmap string (list string)) :
  append_to key v r !! key = Some (default [] (r !! key) ++ [v])%list.
Proof. unfold append_to. apply lookup_insert_eq. Qed.

Lemma append_to_lookup_ne (key key' v : string) (r : gmap string (list string)) :
  key ≠ key' → append_to key v r !! key' = r !! key'.
Proof. intros Hne. unfold append_to. by apply lookup_insert_ne. Qed.

Lemma extend_lookup (key : string) (vs l : list string)
    (r : gmap string (list string)) :
  r !! key = Some l → extend key vs r !! key = Some (l ++ vs)%list.
Proof.
  unfold extend. revert l r. induction vs as [|v vs IH]; intros l r Hl; simpl.
  - by rewrite app_nil_r.
  - rewrite (IH (l ++ [v])%list).
    + by rewrite <- app_assoc.
    + by rewrite append_to_lookup, Hl.
Qed.

Lemma extend_lookup_ne (key key' : string) (vs : list string)
    (r : gmap string (list string)) :
  key ≠ key' → extend key vs r !! key' = r !! key'.
Proof.
  intros Hne. unfold extend. revert r. induction vs as [|v vs IH]; intros r; simpl.
  - done.
  - by rewrite IH, append_to_lookup_ne.
Qed.

Lemma extend_app (key : string) (vs ws : list string)
    (r : gmap string (list string)) :
  extend key (vs ++ ws) r = extend key ws (extend key vs r).
Proof. unfold extend. apply foldl_app. Qed.

Lemma route_group_intents_extend (trg : string) (r : gmap string (list string))
    (rg : RouteGroup) :
  route_group_intents trg r rg
  = extend "intents"
      (if decide (trg = rg_name rg) then tr_intent <$> rg_transition_routes rg else [])
      r.
Proof.
  unfold route_group_intents, extend. case_decide; [|done].
  generalize (rg_transition_routes rg). intros trs. revert r.
  induction trs as [|tr trs IH]; intros r; simpl; [done|]. apply IH.
Qed.

Lemma route_group_dependencies_extend (route_groups : list RouteGroup)
    (r : gmap string (list string)) (trg : string) :
  route_group_dependencies route_groups r trg
  = extend "intents" (route_group_intent_list route_groups trg)
      (append_to "route_groups" trg r).
Proof.
  unfold route_group_dependencies, route_group_intent_list.
  generalize (append_to "route_groups" trg r). clear r.
  induction route_groups as [|rg rgs IH]; intros r; simpl; [done|].
  rewrite route_group_intents_extend, IH.
  rewrite filter_cons. case_decide; simpl.
  - by rewrite extend_app.
  - done.
Qed.

(** ** C1: what the extractor returns for the page of the spec's scenario *)

(** The dictionary built for a page with entry webhook [W], one route with
    intent [I], one parameter of entity type [E] and one route-group
    reference [R], before the lists are turned into sets. *)
Lemma page_dependencies_scenario (route_groups : list RouteGroup) (page : Page)
    (W I E R : string) (tr : TransitionRoute) (fo : Form) (param : FormParameter) :
  fulfillment_webhook (pg_entry_fulfillment page) = W → W ≠ "" →
  pg_transition_routes page = [tr] → tr_intent tr = I → I ≠ "" →
  pg_form page = Some fo → fo_parameters fo = [param] →
  pa_entity_type param = E → PyStr.contains "sys." E = false →
  pg_transition_route_groups page = [R] →
  page_dependencies route_groups ∅ page
  = extend "intents" (route_group_intent_list route_groups R)
      (append_to "route_groups" R
         (append_to "entities" E
            (append_to "intents" I (append_to "webhooks" W ∅)))).
Proof.
  intros HW HWne Htrs HI HIne Hfo Hps HE Hsys Hrgs.
  unfold page_dependencies.
  rewrite Htrs, Hfo, Hps, Hrgs. simpl.
  unfold has_webhook. rewrite HW.
  rewrite (proj2 (present_true W) HWne).
  unfold route_dependencies at 1. rewrite HI.
  rewrite (proj2 (present_true I) HIne).
  unfold parameter_dependencies at 1. rewrite HE, Hsys.
  apply route_group_dependencies_extend.
Qed.

Lemma page_list_dependencies_scenario (dfcx : Collaborator) (page : Page)
    (W I E R : string) (tr : TransitionRoute) (fo : Form) (param : FormParameter) :
  fulfillment_webhook (pg_entry_fulfillment page) = W → W ≠ "" →
  pg_transition_routes page = [tr] → tr_intent tr = I → I ≠ "" →
  pg_form page = Some fo → fo_parameters fo = [param] →
  pa_entity_type param = E → PyStr.contains "sys." E = false →
  pg_transition_route_groups page = [R] →
  page_list_dependencies dfcx [page]
  = Ok (<["webhooks" := {[W]}]>
          (<["intents" :=
               {[I]} ∪ list_to_set
                         (route_group_intent_list
                            (list_transition_route_groups dfcx
                               (flow_of_page_name (pg_name page))) R)]>
             (<["entities" := {[E]}]> {["route_groups" := {[R]}]}))).
Proof.
  intros HW HWne Htrs HI HIne Hfo Hps HE Hsys Hrgs.
  unfold page_list_dependencies. simpl.
  rewrite (page_dependencies_scenario _ page W I E R tr fo param); try done.
  unfold mret, result_ret. f_equal. apply map_eq. intros key.
  rewrite lookup_fmap.
  destruct (decide (key = "intents")) as [->|Hi].
  { rewrite (extend_lookup "intents" _ [I]).
    - rewrite lookup_insert_ne by done. rewrite lookup_insert_eq. simpl.
      done.
    - rewrite !append_to_lookup_ne by done. rewrite append_to_lookup.
      by rewrite append_to_lookup_ne. }
  rewrite extend_lookup_ne by done.
  destruct (decide (key = "route_groups")) as [->|Hr].
  { rewrite append_to_lookup. rewrite !append_to_lookup_ne by done.
    rewrite lookup_empty. simpl.
    rewrite !lookup_insert_ne by done. rewrite lookup_singleton_eq.
    by rewrite (right_id_L ∅ (∪)). }
  rewrite append_to_lookup_ne by done.
  destruct (decide (key = "entities")) as [->|He].
  { rewrite append_to_lookup. rewrite !append_to_lookup_ne by done.
    rewrite lookup_empty. simpl.
    rewrite !lookup_insert_ne by done. rewrite lookup_insert_eq.
    by rewrite (right_id_L ∅ (∪)). }
  rewrite append_to_lookup_ne by done.
  rewrite append_to_lookup_ne by done.
  destruct (decide (key = "webhooks")) as [->|Hw].
  { rewrite append_to_lookup, lookup_empty. simpl.
    rewrite lookup_insert_eq. by rewrite (right_id_L ∅ (∪)). }
  rewrite append_to_lookup_ne by done. rewrite lookup_empty.
  rewrite !lookup_insert_ne by done. by rewrite lookup_singleton_ne.
Qed.

(** C1. For a page with one entry-fulfillment webhook [W], one
    intent-triggered transition route with intent [I] whose trigger
    fulfillment carries webhook [W2], one form parameter of a non-system
    entity type [E] and one route-group reference [R], the extractor returns
    a mapping with exactly the four categories: entities {E}; route_groups
    {R}; intents made of [I] and of the intent fields of the routes of the
    listed route groups named [R]; and webhooks, a set that holds [W] and
    nothing besides [W] and [W2]. *)
Theorem C1_page_dependencies_scenario (dfcx : Collaborator) (page : Page)
    (W W2 I E R : string) (ef tf : Fulfillment) (tr : TransitionRoute) (fo : Form)
    (param : FormParameter)
    (entry_webhook : pg_entry_fulfillment page = Some ef ∧ ff_webhook ef = W ∧ W ≠ "")
    (one_route : pg_transition_routes page = [tr])
    (route_intent : tr_intent tr = I ∧ I ≠ "")
    (route_webhook : tr_trigger_fulfillment tr = Some tf ∧ ff_webhook tf = W2)
    (one_parameter : pg_form page = Some fo ∧ fo_parameters fo = [param])
    (entity_type : pa_entity_type param = E ∧ PyStr.contains "sys." E = false)
    (one_route_group : pg_transition_route_groups page = [R]) :
  ∃ webhooks : gset string,
    W ∈ webhooks ∧ webhooks ⊆ {[W; W2]} ∧
    page_list_dependencies dfcx [page]
    = Ok (<["webhooks" := webhooks]>
            (<["intents" :=
                 {[I]} ∪ list_to_set
                           (route_group_intent_list
                              (list_transition_route_groups dfcx
                                 (flow_of_page_name (pg_name page))) R)]>
               (<["entities" := {[E]}]> {["route_groups" := {[R]}]}))).
Proof.
  destruct entry_webhook as (Hef & HW & HWne).
  destruct route_intent as [HI HIne].
  destruct one_parameter as [Hfo Hps].
  destruct entity_type as [HE Hsys].
  exists {[W]}. split; [by apply elem_of_singleton|].
  split; [apply union_subseteq_l|].
  apply (page_list_dependencies_scenario dfcx page W I E R tr fo param); try done.
  by rewrite Hef.
Qed.

(** The page of the scenario in agent [a]: the route's webhook w2 is not
    among the webhooks and the route's own intent i1 is among the intents. *)
Lemma C1_exact_mapping_counterexample :
  page_list_dependencies example_dfcx [example_page]
  ≠ Ok (<["webhooks" := {["projects/p/locations/global/agents/a/webhooks/w1";
                          "projects/p/locations/global/agents/a/webhooks/w2"]}]>
          (<["intents" := {["projects/p/locations/global/agents/a/intents/i2"]}]>
             (<["entities" :=
                  {["projects/p/locations/global/agents/a/entityTypes/e1"]}]>
                {["route_groups" :=
                    {["projects/p/locations/global/agents/a/flows/f/transitionRouteGroups/rg1"]}]}))).
Proof.
  rewrite (page_list_dependencies_scenario example_dfcx example_page
             "projects/p/locations/global/agents/a/webhooks/w1"
             "projects/p/locations/global/agents/a/intents/i1"
             "projects/p/locations/global/agents/a/entityTypes/e1"
             "projects/p/locations/global/agents/a/flows/f/transitionRouteGroups/rg1"
             _ _ _ eq_refl) by done.
  intros H.
  pose proof (f_equal (fun r => match r with
                                | Ok m => m !! "webhooks"
                                | Raise _ => None
                                end) H) as Hm.
  simpl in Hm. rewrite !lookup_insert_eq in Hm. apply (inj Some) in Hm.
  assert ("projects/p/locations/global/agents/a/webhooks/w2"
          ∈ ({["projects/p/locations/global/agents/a/webhooks/w1"]} : gset string))
    as Hin.
  { rewrite Hm. apply elem_of_union_r. by apply elem_of_singleton. }
  apply elem_of_singleton in Hin. discriminate.
Qed.

Lemma C1_page_dependencies_scenario_witness :
  ∃ webhooks : gset string,
    "projects/p/locations/global/agents/a/webhooks/w1" ∈ webhooks ∧
    webhooks ⊆ {["projects/p/locations/global/agents/a/webhooks/w1";
                 "projects/p/locations/global/agents/a/webhooks/w2"]} ∧
    page_list_dependencies example_dfcx [example_page]
    = Ok (<["webhooks" := webhooks]>
            (<["intents" :=
                 {["projects/p/locations/global/agents/a/intents/i1"]}
                 ∪ list_to_set
                     (route_group_intent_list
                        (list_transition_route_groups example_dfcx
                           (flow_of_page_name (pg_name example_page)))
                        "projects/p/locations/global/agents/a/flows/f/transitionRouteGroups/rg1")]>
               (<["entities" :=
                    {["projects/p/locations/global/agents/a/entityTypes/e1"]}]>
                  {["route_groups" :=
                      {["projects/p/locations/global/agents/a/flows/f/transitionRouteGroups/rg1"]}]}))).
Proof.
  eapply (C1_page_dependencies_scenario example_dfcx example_page).
  - split; [reflexivity|]. split; [reflexivity|]. discriminate.
  - reflexivity.
  - split; [reflexivity|]. discriminate.
  - split; reflexivity.
  - split; reflexivity.
  - split; [reflexivity|]. vm_compute. reflexivity.
  - reflexivity.
Defined.

(** ** C10: the flow of the first page *)

(** C10. The extractor takes the flow identifier from the name of the first
    page (its first eight path segments) and lists the route groups of that
    flow only: on an empty list it raises [IndexError], on the pages and on
    references alike; and on a non-empty list its outcome depends on the
    collaborator through the route groups listed for the first page's flow
    and through nothing else, whatever flows the later pages belong to. *)
Theorem C10_flow_of_first_page (dfcx : Collaborator) :
  page_list_dependencies dfcx [] = Raise IndexError ∧
  (∀ h, get_page_dependencies dfcx [] h = (h, Raise IndexError)) ∧
  (∀ first rest,
     page_list_dependencies dfcx (first :: rest)
     = Ok (list_to_set <$>
             foldl (page_dependencies
                      (list_transition_route_groups dfcx
                         (PyStr.join (take 8 (PyStr.split "/" (pg_name first))))))
               ∅ (first :: rest))) ∧
  (∀ dfcx' first rest,
     list_transition_route_groups dfcx' (flow_of_page_name (pg_name first))
     = list_transition_route_groups dfcx (flow_of_page_name (pg_name first)) →
     page_list_dependencies dfcx' (first :: rest)
     = page_list_dependencies dfcx (first :: rest)).
Proof.
  split; [reflexivity|]. split; [reflexivity|]. split; [reflexivity|].
  intros dfcx' first rest Hsame. unfold page_list_dependencies.
  by rewrite Hsame.
Qed.

Lemma C10_flow_of_first_page_witness :
  flow_of_page_name (pg_name example_page)
  = "projects/p/locations/global/agents/a/flows/f" ∧
  page_list_dependencies example_dfcx_with_h [example_page; other_flow_page]
  = page_list_dependencies example_dfcx [example_page; other_flow_page] ∧
  page_list_dependencies example_dfcx_with_h [example_page; other_flow_page]
  = Ok (<["webhooks" := {["projects/p/locations/global/agents/a/webhooks/w1"]}]>
          (<["intents" := {["projects/p/locations/global/agents/a/intents/i1";
                            "projects/p/locations/global/agents/a/intents/i2"]}]>
             (<["entities" :=
                  {["projects/p/locations/global/agents/a/entityTypes/e1"]}]>
                {["route_groups" :=
                    {["projects/p/locations/global/agents/a/flows/f/transitionRouteGroups/rg1";
                      "projects/p/locations/global/agents/a/flows/h/transitionRouteGroups/rg5"]}]}))).
Proof.
  split; [vm_compute; reflexivity|]. split.
  - apply (proj2 (proj2 (proj2 (C10_flow_of_first_page example_dfcx)))).
    vm_compute. reflexivity.
  - vm_compute. reflexivity.
Defined.

(** ** C7: the store outside the copies *)

Section Frame.
Context {O : Type} `{Inhabited O}.

Abbreviation touches_only := (@touches_only O _).

Lemma touches_only_mret {A} (locs : list loc) (a : A) : touches_only locs (mret a).
Proof. by intros h l _. Qed.

Lemma touches_only_lift {A} (locs : list loc) (r : result A) :
  touches_only locs (lift r).
Proof. by intros h l _. Qed.

Lemma touches_only_read (locs : list loc) (l : loc) : touches_only locs (read l).
Proof. by intros h l' _. Qed.

Lemma touches_only_write (locs : list loc) (l : loc) (o : O) :
  l ∈ locs → touches_only locs (write l o).
Proof.
  intros Hin h l' Hl'. unfold write. simpl.
  apply lookup_insert_ne. by intros ->.
Qed.

Lemma touches_only_bind {A B} (locs : list loc) (m : M O A) (f : A → M O B) :
  touches_only locs m → (∀ a, touches_only locs (f a)) →
  touches_only locs (m ≫= f).
Proof.
  intros Hm Hf h l Hl. unfold mbind, M_bind.
  specialize (Hm h l Hl). destruct (m h) as [h' [a|e]]; simpl in *.
  - by rewrite (Hf a h' l Hl).
  - done.
Qed.

Lemma touches_only_mutate (locs : list loc) (body : O → result O) (l : loc) :
  l ∈ locs → touches_only locs (mutate body l).
Proof.
  intros Hin. unfold mutate.
  apply touches_only_bind; [apply touches_only_read|]. intros o.
  apply touches_only_bind; [apply touches_only_lift|]. intros o'.
  by apply touches_only_write.
Qed.

Lemma touches_only_for_each (locs ls : list loc) (body : O → result O) :
  ls ⊆ locs → touches_only locs (for_each body ls).
Proof.
  induction ls as [|l ls IH]; intros Hsub; simpl.
  - apply touches_only_mret.
  - apply touches_only_bind.
    + apply touches_only_mutate, Hsub, list_elem_of_here.
    + intros _. apply IH. intros l' Hl'. by apply Hsub, list_elem_of_further.
Qed.

Lemma deepcopy_spec (l : loc) (h : gmap loc O) :
  deepcopy l h = (<[fresh (dom h) := h !!! l]> h, Ok (fresh (dom h))).
Proof. reflexivity. Qed.

Lemma fresh_lookup (h : gmap loc O) : h !! fresh (dom h) = None.
Proof. apply not_elem_of_dom, is_fresh. Qed.

(** The copy of a list: the store only grows, nothing raises, and every
    reference of the copy is either new or taken from the memo. *)
Lemma deepcopy_list_spec (ls : list loc) (memo : gmap loc loc) (h : gmap loc O) :
  ∃ h' ls',
    deepcopy_list memo ls h = (h', Ok ls') ∧ h ⊆ h' ∧
    length ls' = length ls ∧
    Forall (fun l' => h !! l' = None ∨ ∃ l, memo !! l = Some l') ls'.
Proof.
  revert memo h. induction ls as [|l ls IH]; intros memo h; simpl.
  - exists h, []. repeat split; [done|constructor].
  - destruct (memo !! l) as [l'|] eqn:Hmemo.
    + destruct (IH memo h) as (h' & ls' & Hc & Hsub & Hlen & Hfresh).
      exists h', (l' :: ls'). unfold mbind, M_bind. rewrite Hc. simpl.
      repeat split; [done|by rewrite Hlen|].
      constructor; [|done]. right. by exists l.
    + unfold mbind at 1, M_bind at 1. rewrite deepcopy_spec.
      set (l' := fresh (dom h)). set (h1 := <[l' := h !!! l]> h).
      destruct (IH (<[l := l']> memo) h1) as (h' & ls' & Hc & Hsub & Hlen & Hfresh).
      exists h', (l' :: ls'). unfold mbind, M_bind. rewrite Hc. simpl.
      assert (h ⊆ h1) as Hh1 by apply insert_subseteq, fresh_lookup.
      repeat split; [by etrans|by rewrite Hlen|].
      constructor; [left; apply fresh_lookup|].
      eapply Forall_impl; [exact Hfresh|]. intros l2 [Hnew|(l0 & Hl0)].
      * left. destruct (h !! l2) as [o|] eqn:Hl2; [|done].
        apply (lookup_weaken _ _ _ _ Hl2) in Hh1. congruence.
      * destruct (decide (l = l0)) as [->|Hne].
        -- rewrite lookup_insert_eq in Hl0. injection Hl0 as <-.
           left. apply fresh_lookup.
        -- rewrite lookup_insert_ne in Hl0 by done. right. by exists l0.
Qed.

End Frame.

Section CopyThenTouch.
Context {O : Type} `{Inhabited O}.

Abbreviation touches_only := (@touches_only O _).

Lemma copy_list_then_touch {A} (ls : list loc) (k : list loc → M O A)
    (h : gmap loc O) :
  (∀ ls', touches_only ls' (k ls')) →
  ∃ h1 ls',
    (deepcopy_list ∅ ls ≫= k) h = k ls' h1 ∧
    h ⊆ (k ls' h1).1 ∧ length ls' = length ls ∧
    Forall (fun l' => h !! l' = None) ls'.
Proof.
  intros Hk.
  destruct (deepcopy_list_spec ls ∅ h) as (h1 & ls' & Hc & Hsub & Hlen & Hfresh).
  assert (Forall (fun l' => h !! l' = None) ls') as Hnew.
  { eapply Forall_impl; [exact Hfresh|]. intros l' [Hl'|(l & Hl)]; [done|].
    by rewrite lookup_empty in Hl. }
  exists h1, ls'. unfold mbind at 1, M_bind at 1. rewrite Hc.
  repeat split; [|done|done].
  apply map_subseteq_spec. intros l o Hl.
  rewrite (Hk ls' h1 l).
  - by apply (lookup_weaken _ _ _ _ Hl).
  - intros Hin. rewrite Forall_forall in Hnew. apply Hnew in Hin. congruence.
Qed.

Lemma copy_then_touch {A} (l : loc) (k : loc → M O A) (h : gmap loc O) :
  (∀ l', touches_only [l'] (k l')) →
  (deepcopy l ≫= k) h = k (fresh (dom h)) (<[fresh (dom h) := h !!! l]> h) ∧
  h ⊆ (k (fresh (dom h)) (<[fresh (dom h) := h !!! l]> h)).1.
Proof.
  intros Hk. split; [reflexivity|].
  apply map_subseteq_spec. intros l0 o Hl0.
  rewrite (Hk (fresh (dom h)) _ l0).
  - rewrite lookup_insert_ne; [done|]. intros <-.
    by rewrite fresh_lookup in Hl0.
  - intros Hin. apply list_elem_of_singleton in Hin as ->.
    by rewrite fresh_lookup in Hl0.
Qed.

Lemma mapM_read (ls : list loc) (h : gmap loc O) :
  mapM read ls h = (h, Ok ((h !!!.) <$> ls)).
Proof.
  induction ls as [|l ls IH]; [done|]. simpl.
  unfold mbind at 1, M_bind at 1. simpl.
  unfold mbind at 1, M_bind at 1. by rewrite IH.
Qed.

End CopyThenTouch.

Lemma get_page_dependencies_run (dfcx : Collaborator) (obj_list : list loc)
    (h : gmap loc Page) :
  get_page_dependencies dfcx obj_list h
  = (h, page_list_dependencies dfcx ((h !!!.) <$> obj_list)).
Proof.
  unfold get_page_dependencies. unfold mbind at 1, M_bind at 1.
  by rewrite mapM_read.
Qed.

(** C7. The rewriters and the extractor leave every object of the store
    they are called on as it is, returning or raising:
    [convert_page_dependencies] and [convert_start_page_dependencies] write
    to the objects of their deep copy only and return references to that
    copy, objects that did not exist before the call; [get_page_dependencies]
    leaves the whole store as it is. *)
Theorem C7_inputs_unchanged (dfcx : Collaborator) (agent_id agent_type flow : string) :
  (∀ (pages : list loc) (h : gmap loc Page),
     h ⊆ (convert_page_dependencies dfcx agent_id pages agent_type flow h).1 ∧
     ∀ pages_mod,
       (convert_page_dependencies dfcx agent_id pages agent_type flow h).2
       = Ok pages_mod →
       length pages_mod = length pages ∧
       Forall (fun l => h !! l = None) pages_mod) ∧
  (∀ (start_page : loc) (h : gmap loc StartPage),
     h ⊆ (convert_start_page_dependencies dfcx agent_id start_page agent_type flow h).1 ∧
     ∀ page_mod,
       (convert_start_page_dependencies dfcx agent_id start_page agent_type flow h).2
       = Ok page_mod →
       h !! page_mod = None) ∧
  (∀ (obj_list : list loc) (h : gmap loc Page),
     (get_page_dependencies dfcx obj_list h).1 = h).
Proof.
  split; [|split].
  - intros pages h. unfold convert_page_dependencies.
    match goal with
    | |- context [deepcopy_list ∅ pages ≫= ?k] =>
        destruct (copy_list_then_touch pages k h)
          as (h1 & ls' & Hrun & Hsub & Hlen & Hnew)
    end.
    { intros ls'.
      apply touches_only_bind; [|intros _; apply touches_only_bind;
                                           [|intros _; apply touches_only_mret]].
      - case_decide; [|apply touches_only_mret].
        apply touches_only_bind; [apply touches_only_lift|]. intros f.
        by apply touches_only_for_each.
      - case_decide; [|apply touches_only_mret].
        apply touches_only_bind; [apply touches_only_lift|]. intros f.
        by apply touches_only_for_each. }
    rewrite Hrun. split; [exact Hsub|].
    intros pages_mod Hret.
    assert (pages_mod = ls') as ->; [|done].
    unfold mbind, M_bind in Hret.
    repeat match type of Hret with
           | context [match ?m with (_, _) => _ end] =>
               destruct m as [? [?|?]]; simpl in Hret
           end; by simplify_eq.
  - intros start_page h. unfold convert_start_page_dependencies.
    match goal with
    | |- context [deepcopy start_page ≫= ?k] =>
        destruct (copy_then_touch start_page k h) as (Hrun & Hsub)
    end.
    { intros l'.
      apply touches_only_bind; [|intros _; apply touches_only_bind;
                                           [|intros _; apply touches_only_mret]].
      - case_decide; [|apply touches_only_mret].
        apply touches_only_bind; [apply touches_only_lift|]. intros f.
        apply touches_only_mutate, list_elem_of_here.
      - case_decide; [|apply touches_only_mret].
        apply touches_only_bind; [apply touches_only_lift|]. intros f.
        apply touches_only_mutate, list_elem_of_here. }
    rewrite Hrun. split; [exact Hsub|].
    intros page_mod Hret.
    assert (page_mod = fresh (dom h)) as ->; [|apply fresh_lookup].
    unfold mbind, M_bind in Hret.
    repeat match type of Hret with
           | context [match ?m with (_, _) => _ end] =>
               destruct m as [? [?|?]]; simpl in Hret
           end; by simplify_eq.
  - intros obj_list h. by rewrite get_page_dependencies_run.
Qed.

Lemma C7_inputs_unchanged_witness :
  let h : gmap loc Page := {[1%positive := example_page]} in
  let out := convert_page_dependencies example_dfcx
               "projects/p/locations/global/agents/a" [1%positive] "source"
               "Default Start Flow" h in
  out.1 !! 1%positive = Some example_page ∧
  (∃ l', out.2 = Ok [l'] ∧ h !! l' = None ∧ out.1 !! l' = Some example_page_portable) ∧
  (get_page_dependencies example_dfcx [1%positive] h).1 = h.
Proof.
  intros h out.
  destruct (C7_inputs_unchanged example_dfcx "projects/p/locations/global/agents/a"
              "source" "Default Start Flow") as (Hpages & _ & Hdeps).
  destruct (Hpages [1%positive] h) as [Hsub Hret].
  split; [|split].
  - apply (lookup_weaken _ _ _ _ (lookup_singleton_eq 1%positive example_page) Hsub).
  - assert (out.2 = Ok [2%positive]) as Hout by (vm_compute; reflexivity).
    exists 2%positive. split; [exact Hout|]. split.
    + destruct (Hret _ Hout) as [_ Hnew]. by apply Forall_singleton in Hnew.
    + vm_compute. reflexivity.
  - apply Hdeps.
Defined.

(** ** C3: source pass in agent A, then destination pass in agent B *)

Lemma source_route_groups_mapM (rgs_map : gmap string string) (trgs : list string) :
  source_route_groups rgs_map trgs = mapM (getitem rgs_map) trgs.
Proof.
  assert (∀ rest acc,
            source_route_groups_loop rgs_map acc acc rest
            = ns ← mapM (getitem rgs_map) rest; mret (acc ++ ns)%list) as Hloop.
  { induction rest as [|trg rest IH]; intros acc; simpl.
    - by rewrite app_nil_r.
    - destruct (getitem rgs_map trg) as [n|e]; simpl; [|done].
      rewrite IH. destruct (mapM (getitem rgs_map) rest) as [ns|e]; simpl; [|done].
      by rewrite <- app_assoc. }
  destruct trgs as [|trg rest]; [done|]. simpl.
  destruct (getitem rgs_map trg) as [n|e]; simpl; [|done].
  rewrite Hloop. by destruct (mapM (getitem rgs_map) rest).
Qed.

Lemma destination_route_groups_mapM (rgs_map : gmap string string)
    (trgs : list string) :
  destination_route_groups rgs_map trgs = mapM (getitem rgs_map) trgs.
Proof.
  assert (∀ rest acc,
            destination_route_groups_loop rgs_map acc rest
            = ns ← mapM (getitem rgs_map) rest; mret (acc ++ ns)%list) as Hloop.
  { induction rest as [|trg rest IH]; intros acc; simpl.
    - by rewrite app_nil_r.
    - destruct (getitem rgs_map trg) as [n|e]; simpl; [|done].
      rewrite IH. destruct (mapM (getitem rgs_map) rest) as [ns|e]; simpl; [|done].
      by rewrite <- app_assoc. }
  destruct trgs as [|trg rest]; [done|]. simpl.
  destruct (getitem rgs_map trg) as [n|e]; simpl; [|done].
  rewrite Hloop. by destruct (mapM (getitem rgs_map) rest).
Qed.

(** Two passes over a list, element by element. *)
Lemma mapM_two_passes {A B C} (f : A → result B) (g : B → result C)
    (P : A → Prop) (R : A → C → Prop) (l : list A) (l1 : list B) :
  (∀ x x1, P x → f x = Ok x1 → ∃ x2, g x1 = Ok x2 ∧ R x x2) →
  Forall P l → mapM f l = Ok l1 →
  ∃ l2, mapM g l1 = Ok l2 ∧ Forall2 R l l2.
Proof.
  intros Hfg HP Hm. apply mapM_Ok in Hm.
  induction Hm as [|x x1 l l1 Hx _ IH].
  - exists []. split; [done|constructor].
  - apply Forall_cons in HP as [HPx HP].
    destruct (Hfg x x1 HPx Hx) as (x2 & Hx2 & HR).
    destruct (IH HP) as (l2 & Hl2 & HRl).
    exists (x2 :: l2). simpl. rewrite Hx2, Hl2. split; [done|by constructor].
Qed.

Section RoundTrip.
Variables A B : Indexes.
Variable flow_b : string.

Abbreviation intents_a := (ix_intents A).
Abbreviation entities_a := (ix_entities A).
Abbreviation webhooks_a := (ix_webhooks A).
Abbreviation pages_a := (ix_pages A).
Abbreviation rgs_a := (ix_rgs A).
Abbreviation intents_b := (ix_intents B).
Abbreviation entities_b := (ix_entities B).
Abbreviation webhooks_b := (ix_webhooks B).
Abbreviation pages_b := (ix_pages B).
Abbreviation rgs_b := (ix_rgs B).

Hypothesis mirror_intents : mirrors intents_a intents_b.
Hypothesis mirror_entities : mirrors entities_a entities_b.
Hypothesis mirror_webhooks : mirrors webhooks_a webhooks_b.
Hypothesis mirror_pages : mirrors pages_a pages_b.
Hypothesis mirror_rgs : mirrors rgs_a rgs_b.
Hypothesis intent_names : ∀ x n, intents_a !! x = Some n → n ≠ "".
Hypothesis webhook_names : ∀ x n, webhooks_a !! x = Some n → n ≠ "".
Hypothesis page_names : ∀ x n, pages_a !! x = Some n → n ≠ "" ∧ ¬ page_sentinel n.
Hypothesis entity_names :
  ∀ x n, entities_a !! x = Some n → PyStr.contains "sys." n = false.

Lemma fulfillment_translated_refl (f : option Fulfillment) :
  has_webhook f = false → fulfillment_translated A B f f.
Proof.
  unfold has_webhook, fulfillment_translated, webhook_translated.
  destruct f as [ff|]; simpl; intros Hw; constructor.
  by rewrite Hw.
Qed.

Lemma webhook_round_trip (f f1 : option Fulfillment) :
  convert_webhook webhooks_a f = Ok f1 →
  has_webhook f1 = has_webhook f ∧
  ∃ f2, convert_webhook webhooks_b f1 = Ok f2 ∧ fulfillment_translated A B f f2.
Proof.
  unfold convert_webhook. intros H. destruct f as [ff|].
  - destruct (present (ff_webhook ff)) eqn:Hp.
    + apply bind_Ok_inv in H as (n & Hn & H). apply mret_Ok_inv in H as <-.
      apply getitem_Ok in Hn.
      pose proof (webhook_names _ _ Hn) as Hne. apply present_true in Hne.
      destruct (mirror_webhooks _ _ Hn) as [w' Hw'].
      unfold has_webhook. simpl. rewrite Hne, Hp. split; [done|].
      exists (Some (set_ff_webhook w' (set_ff_webhook n ff))).
      rewrite (proj2 (getitem_Ok _ _ _) Hw'). split; [done|].
      constructor. simpl. repeat split.
      unfold webhook_translated. rewrite Hp. by exists n.
    + apply mret_Ok_inv in H as <-. split; [done|].
      exists (Some ff). rewrite Hp. split; [done|].
      by apply fulfillment_translated_refl.
  - apply mret_Ok_inv in H as <-. split; [done|].
    exists None. split; [done|constructor].
Qed.

Lemma target_round_trip (t t1 : string) :
  present t = true → source_target_page pages_a t = Ok t1 →
  present t1 = true ∧
  ∃ t2, destination_target_page pages_b flow_b t1 = Ok t2 ∧ target_translated A B flow_b t t2.
Proof.
  intros Hp H. unfold target_translated. rewrite Hp.
  destruct (decide (page_sentinel (PyStr.last_segment t))) as [Hs|Hs].
  - rewrite source_target_page_sentinel in H by done. injection H as <-.
    split; [by destruct Hs as [->|[->| ->]]|].
    exists (flow_b +:+ "/pages/" +:+ PyStr.last_segment t).
    split; [by apply destination_target_page_sentinel|done].
  - assert (source_target_page pages_a t = getitem pages_a t) as Hg.
    { unfold source_target_page, page_sentinel in *.
      repeat case_decide; try done; tauto. }
    rewrite Hg in H. apply getitem_Ok in H.
    destruct (page_names _ _ H) as [Hne Hns].
    destruct (mirror_pages _ _ H) as [t2 Ht2].
    split; [by apply present_true|]. exists t2. split; [|by exists t1].
    unfold destination_target_page, page_sentinel in *.
    repeat case_decide; try tauto. by apply getitem_Ok.
Qed.

Lemma trigger_round_trip (tr tr1 : TransitionRoute) :
  triggered tr →
  convert_trigger intents_a webhooks_a tr = Ok tr1 →
  ∃ tr2,
    convert_trigger intents_b webhooks_b tr1 = Ok tr2 ∧
    tr_target_page tr1 = tr_target_page tr ∧
    tr_target_page tr2 = tr_target_page tr ∧
    tr_condition tr2 = tr_condition tr ∧
    intent_translated A B (tr_intent tr) (tr_intent tr2) ∧
    fulfillment_translated A B (tr_trigger_fulfillment tr) (tr_trigger_fulfillment tr2).
Proof.
  unfold triggered, convert_trigger, intent_translated. intros Htrig H.
  destruct (present (tr_intent tr)) eqn:Hi.
  - apply bind_Ok_inv in H as (n & Hn & H).
    apply bind_Ok_inv in H as (f1 & Hf1 & H).
    apply mret_Ok_inv in H as <-. simpl.
    apply getitem_Ok in Hn.
    pose proof (intent_names _ _ Hn) as Hne. apply present_true in Hne.
    destruct (mirror_intents _ _ Hn) as [i' Hi'].
    destruct (webhook_round_trip _ _ Hf1) as (_ & f2 & Hf2 & Hrel).
    rewrite Hne, (proj2 (getitem_Ok _ _ _) Hi'), Hf2. simpl.
    eexists. split; [done|]. simpl. repeat split; [|done]. by exists n.
  - destruct (present (tr_condition tr) && has_webhook (tr_trigger_fulfillment tr))
      eqn:Hc.
    + apply bind_Ok_inv in H as (f1 & Hf1 & H).
      apply mret_Ok_inv in H as <-. simpl.
      destruct (webhook_round_trip _ _ Hf1) as (Hhas & f2 & Hf2 & Hrel).
      rewrite Hi, Hhas, Hc, Hf2. simpl.
      eexists. split; [done|]. simpl. by repeat split.
    + apply mret_Ok_inv in H as <-. rewrite Hi, Hc.
      exists tr. split; [done|]. repeat split.
      apply fulfillment_translated_refl.
      destruct (has_webhook (tr_trigger_fulfillment tr)) eqn:Hw; [|done].
      destruct (Htrig eq_refl) as [Hi'|Hc']; [congruence|].
      rewrite Hc' in Hc. discriminate.
Qed.

Lemma route_round_trip (tr tr1 : TransitionRoute) :
  triggered tr →
  convert_transition_route intents_a webhooks_a (source_target_page pages_a) tr
    = Ok tr1 →
  ∃ tr2,
    convert_transition_route intents_b webhooks_b
      (destination_target_page pages_b flow_b) tr1 = Ok tr2 ∧
    route_translated A B flow_b tr tr2.
Proof.
  unfold convert_transition_route, route_translated. intros Htrig H.
  apply bind_Ok_inv in H as (tr0 & Htr0 & H).
  destruct (present (tr_target_page tr)) eqn:Hp.
  - apply bind_Ok_inv in Htr0 as (t1 & Ht1 & Htr0).
    apply mret_Ok_inv in Htr0 as <-.
    destruct (target_round_trip _ _ Hp Ht1) as (Hp1 & t2 & Ht2 & Htrel).
    destruct (trigger_round_trip (set_tr_target_page t1 tr) tr1 Htrig H)
      as (tr2 & H2 & Ht & _ & Hcond & Hint & Hful).
    simpl in Ht. rewrite Ht, Hp1, Ht2. simpl.
    assert (∃ tr4, convert_trigger intents_b webhooks_b (set_tr_target_page t2 tr1)
                   = Ok tr4 ∧
                   tr_target_page tr4 = t2 ∧ tr_condition tr4 = tr_condition tr2 ∧
                   tr_intent tr4 = tr_intent tr2 ∧
                   tr_trigger_fulfillment tr4 = tr_trigger_fulfillment tr2)
      as (tr4 & H4 & Ht4 & Hc4 & Hi4 & Hf4).
    { clear -H2. unfold convert_trigger in *. simpl.
      destruct (present (tr_intent tr1)).
      - apply bind_Ok_inv in H2 as (i & Hi & H2).
        apply bind_Ok_inv in H2 as (f & Hf & H2).
        apply mret_Ok_inv in H2 as <-. rewrite Hi, Hf. simpl.
        eexists. split; [done|]. by simpl.
      - destruct (_ && _).
        + apply bind_Ok_inv in H2 as (f & Hf & H2).
          apply mret_Ok_inv in H2 as <-. rewrite Hf. simpl.
          eexists. split; [done|]. by simpl.
        + apply mret_Ok_inv in H2 as <-. eexists. split; [done|]. by simpl. }
    exists tr4. split; [exact H4|].
    rewrite Ht4, Hc4, Hi4, Hf4. by repeat split.
  - apply mret_Ok_inv in Htr0 as <-.
    destruct (trigger_round_trip tr tr1 Htrig H)
      as (tr2 & H2 & Ht & Ht' & Hcond & Hint & Hful).
    rewrite Ht, Hp. simpl. exists tr2. split; [exact H2|].
    repeat split; try done.
    unfold target_translated. by rewrite Hp.
Qed.

Lemma handler_round_trip (h h1 : EventHandler) :
  convert_event_handler webhooks_a (source_target_page pages_a) h = Ok h1 →
  ∃ h2,
    convert_event_handler webhooks_b (destination_target_page pages_b flow_b) h1
      = Ok h2 ∧
    handler_translated A B flow_b h h2.
Proof.
  unfold convert_event_handler, handler_translated. intros H.
  apply bind_Ok_inv in H as (h0 & Hh0 & H).
  apply bind_Ok_inv in H as (f1 & Hf1 & H).
  apply mret_Ok_inv in H as <-. simpl.
  destruct (webhook_round_trip _ _ Hf1) as (_ & f2 & Hf2 & Hrel).
  destruct (present (eh_target_page h)) eqn:Hp.
  - apply bind_Ok_inv in Hh0 as (t1 & Ht1 & Hh0).
    apply mret_Ok_inv in Hh0 as <-. simpl in *.
    destruct (target_round_trip _ _ Hp Ht1) as (Hp1 & t2 & Ht2 & Htrel).
    rewrite Hp1, Ht2. simpl. rewrite Hf2. simpl.
    eexists. split; [done|]. by simpl.
  - apply mret_Ok_inv in Hh0 as <-. rewrite Hp. simpl. rewrite Hf2. simpl.
    eexists. split; [done|]. simpl. repeat split; [done|].
    unfold target_translated. by rewrite Hp.
Qed.

Lemma reprompt_handler_round_trip (h h1 : EventHandler) :
  convert_reprompt_handler webhooks_a (source_target_page pages_a) h = Ok h1 →
  ∃ h2,
    convert_reprompt_handler webhooks_b (destination_target_page pages_b flow_b) h1
      = Ok h2 ∧
    handler_translated A B flow_b h h2.
Proof.
  unfold convert_reprompt_handler, handler_translated. intros H.
  apply bind_Ok_inv in H as (f1 & Hf1 & H). simpl in H.
  destruct (webhook_round_trip _ _ Hf1) as (_ & f2 & Hf2 & Hrel).
  destruct (present (eh_target_page h)) eqn:Hp.
  - apply bind_Ok_inv in H as (t1 & Ht1 & H).
    apply mret_Ok_inv in H as <-. simpl.
    destruct (target_round_trip _ _ Hp Ht1) as (Hp1 & t2 & Ht2 & Htrel).
    rewrite Hf2. simpl. rewrite Hp1, Ht2. simpl.
    eexists. split; [done|]. by simpl.
  - apply mret_Ok_inv in H as <-. simpl.
    rewrite Hf2. simpl. rewrite Hp.
    eexists. split; [done|]. simpl. repeat split; [done|].
    unfold target_translated. by rewrite Hp.
Qed.

Lemma parameter_round_trip (p p1 : FormParameter) :
  convert_parameter entities_a webhooks_a (source_target_page pages_a) p = Ok p1 →
  ∃ p2,
    convert_parameter entities_b webhooks_b (destination_target_page pages_b flow_b) p1
      = Ok p2 ∧
    parameter_translated A B flow_b p p2.
Proof.
  unfold convert_parameter, parameter_translated. intros H.
  apply bind_Ok_inv in H as (fb1 & Hfb1 & H).
  apply bind_Ok_inv in H as (e1 & He1 & H).
  apply mret_Ok_inv in H as <-. simpl.
  assert (∃ e2, convert_entity_type entities_b e1 = Ok e2 ∧
                entity_type_translated A B (pa_entity_type p) e2) as (e2 & He2 & Herel).
  { unfold convert_entity_type, entity_type_translated in *.
    destruct (PyStr.contains "sys." (pa_entity_type p)) eqn:Hsys.
    - apply mret_Ok_inv in He1 as <-. rewrite Hsys. by exists (pa_entity_type p).
    - apply getitem_Ok in He1. rewrite (entity_names _ _ He1).
      destruct (mirror_entities _ _ He1) as [e2 He2].
      exists e2. split; [by apply getitem_Ok|by exists e1]. }
  assert (∃ fb2,
            match fb1 with
            | Some fb =>
                fb' ← convert_fill_behavior webhooks_b
                        (destination_target_page pages_b flow_b) fb;
                mret (Some fb')
            | None => mret None
            end = Ok fb2 ∧
            option_Forall2 (fill_behavior_translated A B flow_b) (pa_fill_behavior p) fb2)
    as (fb2 & Hfb2 & Hfbrel).
  { destruct (pa_fill_behavior p) as [fb|].
    - apply bind_Ok_inv in Hfb1 as (fb' & Hfb' & Hfb1).
      apply mret_Ok_inv in Hfb1 as <-.
      unfold convert_fill_behavior in *.
      apply bind_Ok_inv in Hfb' as (f1 & Hf1 & Hfb').
      apply bind_Ok_inv in Hfb' as (hs1 & Hhs1 & Hfb').
      apply mret_Ok_inv in Hfb' as <-. simpl.
      destruct (webhook_round_trip _ _ Hf1) as (_ & f2 & Hf2 & Hfrel).
      destruct (mapM_two_passes _
                  (convert_reprompt_handler webhooks_b
                     (destination_target_page pages_b flow_b))
                  (fun _ => True) (handler_translated A B flow_b) _ _
                  (fun h h1 _ Hh => reprompt_handler_round_trip h h1 Hh)
                  (Forall_true _ _ (fun _ => I)) Hhs1) as (hs2 & Hhs2 & Hhrel).
      rewrite Hf2. simpl. rewrite Hhs2. simpl.
      eexists. split; [done|]. constructor. by split.
    - apply mret_Ok_inv in Hfb1 as <-. exists None. split; [done|constructor]. }
  rewrite Hfb2. simpl. rewrite He2. simpl.
  eexists. split; [done|]. by simpl.
Qed.

Lemma form_round_trip (form form1 : option Form) :
  convert_form entities_a webhooks_a (source_target_page pages_a) form = Ok form1 →
  ∃ form2,
    convert_form entities_b webhooks_b (destination_target_page pages_b flow_b) form1
      = Ok form2 ∧
    option_Forall2
      (fun fo fo' => Forall2 (parameter_translated A B flow_b) (fo_parameters fo) (fo_parameters fo'))
      form form2.
Proof.
  unfold convert_form. intros H. destruct form as [fo|].
  - apply bind_Ok_inv in H as (ps1 & Hps1 & H). apply mret_Ok_inv in H as <-.
    destruct (mapM_two_passes _
                (convert_parameter entities_b webhooks_b
                   (destination_target_page pages_b flow_b))
                (fun _ => True) (parameter_translated A B flow_b) _ _
                (fun p p1 _ Hp => parameter_round_trip p p1 Hp)
                (Forall_true _ _ (fun _ => I)) Hps1) as (ps2 & Hps2 & Hrel).
    simpl. rewrite Hps2. simpl. eexists. split; [done|]. by constructor.
  - apply mret_Ok_inv in H as <-. exists None. split; [done|constructor].
Qed.

Lemma route_groups_round_trip (trgs trgs1 : list string) :
  source_route_groups rgs_a trgs = Ok trgs1 →
  ∃ trgs2,
    destination_route_groups rgs_b trgs1 = Ok trgs2 ∧
    Forall2 (two_hop rgs_a rgs_b) trgs trgs2.
Proof.
  rewrite source_route_groups_mapM. intros H.
  setoid_rewrite destination_route_groups_mapM.
  apply (mapM_two_passes (getitem rgs_a) (getitem rgs_b) (fun _ => True)
           (two_hop rgs_a rgs_b) trgs trgs1); [|by apply Forall_true|done].
  intros x n _ Hn. apply getitem_Ok in Hn.
  destruct (mirror_rgs _ _ Hn) as [y Hy].
  exists y. split; [by apply getitem_Ok|by exists n].
Qed.

Lemma round_trip_page (page portable : Page)
    (listed : pages_a !! pg_name page = Some (pg_display_name page))
    (routes_triggered : Forall triggered (pg_transition_routes page))
    (source_pass :
       source_page intents_a entities_a webhooks_a pages_a rgs_a page = Ok portable) :
  ∃ page',
    destination_page intents_b entities_b webhooks_b pages_b rgs_b flow_b portable
      = Ok page' ∧
    page_translated A B flow_b page page'.
Proof.
  unfold source_page in source_pass. rename source_pass into H.
  apply bind_Ok_inv in H as (ef1 & Hef1 & H).
  apply bind_Ok_inv in H as (trs1 & Htrs1 & H).
  apply bind_Ok_inv in H as (ehs1 & Hehs1 & H).
  apply bind_Ok_inv in H as (fo1 & Hfo1 & H).
  apply bind_Ok_inv in H as (rgs1 & Hrgs1 & H).
  apply mret_Ok_inv in H as <-.
  destruct (mirror_pages _ _ listed) as [name' Hname'].
  destruct (webhook_round_trip _ _ Hef1) as (_ & ef2 & Hef2 & Hefrel).
  destruct (mapM_two_passes _
              (convert_transition_route intents_b webhooks_b
                 (destination_target_page pages_b flow_b))
              triggered (route_translated A B flow_b) _ _ route_round_trip routes_triggered Htrs1)
    as (trs2 & Htrs2 & Htrsrel).
  destruct (mapM_two_passes _
              (convert_event_handler webhooks_b (destination_target_page pages_b flow_b))
              (fun _ => True) (handler_translated A B flow_b) _ _
              (fun h h1 _ Hh => handler_round_trip h h1 Hh)
              (Forall_true _ _ (fun _ => I)) Hehs1) as (ehs2 & Hehs2 & Hehsrel).
  destruct (form_round_trip _ _ Hfo1) as (fo2 & Hfo2 & Hforel).
  destruct (route_groups_round_trip _ _ Hrgs1) as (rgs2 & Hrgs2 & Hrgsrel).
  exists (mkPage name' (pg_display_name page) ef2 fo2 rgs2 trs2 ehs2).
  unfold destination_page. simpl.
  rewrite (proj2 (getitem_Ok _ _ _) Hname'). simpl.
  rewrite Hef2. simpl. rewrite Htrs2. simpl. rewrite Hehs2. simpl.
  rewrite Hfo2. simpl. rewrite Hrgs2. simpl.
  split; [done|]. by repeat split.
Qed.

End RoundTrip.

(** C3. Let P be a page of agent A that the source pass, run with
    A's maps, turns into a portable page. Let B's display names mirror A's,
    and let A have no empty intent, webhook or page display name, no page
    display name that is one of the tokens END_FLOW, END_SESSION,
    CURRENT_PAGE, and no entity-type display name that holds 'sys.'; let
    every route of P that carries a webhook have an intent or a condition.
    Then the destination pass, run on the portable page with B's maps,
    returns a page of the same shape (same routes, handlers, parameters and
    route-group references, in order) whose identifier is B's for P's display
    name and in which every reference is B's identifier for the display name
    that A's identifier had in P, a target that ends a flow, a session or
    stays on the page being B's flow followed by '/pages/' and the token, and
    a built-in entity type being itself. *)
Theorem C3_round_trip (A B : Indexes) (flow_b : string) (page portable : Page)
    (names_mirrored : mirror A B)
    (names_told_apart : well_named A)
    (listed : ix_pages A !! pg_name page = Some (pg_display_name page))
    (routes_triggered : Forall triggered (pg_transition_routes page))
    (source_returns : source_pass A page = Ok portable) :
  ∃ page',
    destination_pass B flow_b portable = Ok page' ∧
    page_translated A B flow_b page page'.
Proof.
  destruct names_mirrored as (Hi & He & Hw & Hp & Hr).
  destruct names_told_apart as (Hin & Hwn & Hpn & Hen).
  by apply (round_trip_page A B flow_b Hi He Hw Hp Hr Hin Hwn Hpn Hen page portable).
Qed.


(** An index holds only what was listed. *)
Lemma dict_of_lookup (kvs : list (string * string)) (x n : string) :
  dict_of kvs !! x = Some n → (x, n) ∈ kvs.
Proof.
  unfold dict_of.
  assert (∀ acc : gmap string string,
            foldl (fun d kv => <[kv.1 := kv.2]> d) acc kvs !! x = Some n →
                 (x, n) ∈ kvs ∨ acc !! x = Some n) as Hgen.
  { induction kvs as [|[k v] kvs IH]; intros acc Hl; simpl in *; [by right|].
    destruct (IH _ Hl) as [Hin|Hacc]; [left; by apply list_elem_of_further|].
    destruct (decide (k = x)) as [->|Hne].
    - rewrite lookup_insert_eq in Hacc. injection Hacc as ->.
      left. apply list_elem_of_here.
    - rewrite lookup_insert_ne in Hacc by done. by right. }
  intros Hl. destruct (Hgen ∅ Hl) as [Hin|Hacc]; [done|].
  by rewrite lookup_empty in Hacc.
Qed.

Lemma index_of_lookup {A} (name display_name : A → string) (l : list A)
    (x n : string) :
  index_of name display_name false l !! x = Some n →
  ∃ r, r ∈ l ∧ name r = x ∧ display_name r = n.
Proof.
  unfold index_of. intros Hl. apply dict_of_lookup in Hl.
  apply list_elem_of_fmap in Hl as (r & [= -> ->] & Hr). by exists r.
Qed.

(** Membership in a listed index, one entry at a time. *)
Ltac index_cases H :=
  apply index_of_lookup in H as (? & H & <- & <-);
  repeat (apply elem_of_cons in H as [->|H]);
  [..|by apply elem_of_nil in H].

Lemma C3_round_trip_witness :
  source_pass example_indexes_a example_page = Ok example_page_portable ∧
  destination_pass example_indexes_b "projects/p/locations/global/agents/b/flows/g"
    example_page_portable = Ok example_page_in_b ∧
  ∃ page',
    destination_pass example_indexes_b "projects/p/locations/global/agents/b/flows/g"
      example_page_portable = Ok page' ∧
    page_translated example_indexes_a example_indexes_b
      "projects/p/locations/global/agents/b/flows/g" example_page page'.
Proof.
  assert (source_pass example_indexes_a example_page = Ok example_page_portable)
    as Hs by (vm_compute; reflexivity).
  split; [exact Hs|]. split; [vm_compute; reflexivity|].
  apply (C3_round_trip example_indexes_a example_indexes_b
           "projects/p/locations/global/agents/b/flows/g" example_page
           example_page_portable).
  - split; [|split; [|split; [|split]]];
      intros x n Hx; index_cases Hx; vm_compute; eauto.
  - split; [|split; [|split]].
    + intros x n Hx. index_cases Hx; cbn; discriminate.
    + intros x n Hx. index_cases Hx; cbn; discriminate.
    + intros x n Hx. index_cases Hx. cbn. split; [discriminate|].
      by intros [?|[?|?]].
    + intros x n Hx. index_cases Hx; vm_compute; reflexivity.
  - vm_compute. reflexivity.
  - apply Forall_singleton. intros _. by left.
  - exact Hs.
Defined.

Lemma C3_round_trip_counterexample :
  mirror (mkIndexes ∅ ∅ ∅ token_named_pages_a ∅) (mkIndexes ∅ ∅ ∅ token_named_pages_b ∅) ∧
  token_named_pages_a !! pg_name token_named_page
  = Some (pg_display_name token_named_page) ∧
  ∃ portable page',
    source_pass (mkIndexes ∅ ∅ ∅ token_named_pages_a ∅) token_named_page
    = Ok portable ∧
    destination_pass (mkIndexes ∅ ∅ ∅ token_named_pages_b ∅)
      "projects/p/locations/global/agents/b/flows/g" portable = Ok page' ∧
    (tr_target_page <$> pg_transition_routes page')
    = ["projects/p/locations/global/agents/b/flows/g/pages/END_FLOW"] ∧
    two_hop token_named_pages_a token_named_pages_b
      "projects/p/locations/global/agents/a/flows/f/pages/p2"
      "projects/p/locations/global/agents/b/flows/g/pages/p7" ∧
    ¬ page_translated (mkIndexes ∅ ∅ ∅ token_named_pages_a ∅)
        (mkIndexes ∅ ∅ ∅ token_named_pages_b ∅)
        "projects/p/locations/global/agents/b/flows/g" token_named_page page'.
Proof.
  split.
  { split; [|split; [|split; [|split]]];
      try (by intros x n Hx; simpl in Hx; rewrite lookup_empty in Hx).
    intros x n Hx. simpl in Hx. unfold token_named_pages_a in Hx.
    apply lookup_insert_Some in Hx as [[_ <-]|[_ Hx]]; [vm_compute; eauto|].
    apply lookup_singleton_Some in Hx as [_ <-]. vm_compute. eauto. }
  split; [vm_compute; reflexivity|].
  eexists _, _. split; [vm_compute; reflexivity|].
  split; [vm_compute; reflexivity|]. split; [reflexivity|]. split.
  { exists "END_FLOW". split; vm_compute; reflexivity. }
  intros (_ & _ & _ & Hroutes & _). simpl in Hroutes.
  apply Forall2_cons_1 in Hroutes as [(_ & _ & _ & Htarget) _].
  unfold target_translated in Htarget. simpl in Htarget.
  destruct Htarget as (n & Hn & Hb).
  vm_compute in Hn. injection Hn as <-. vm_compute in Hb. discriminate.
Qed.

(** * Further properties *)

(** ** The index builders *)

Lemma dict_of_snoc (kvs : list (string * string)) (k v : string) :
  dict_of (kvs ++ [(k, v)]) = <[k := v]> (dict_of kvs).
Proof. unfold dict_of. by rewrite foldl_app. Qed.

Lemma dict_of_lookup_None (kvs : list (string * string)) (k : string) :
  dict_of kvs !! k = None ↔ k ∉ kvs.*1.
Proof.
  induction kvs as [|[k' v'] kvs IH] using rev_ind.
  - split; [intros _ Hin; by apply elem_of_nil in Hin|done].
  - rewrite dict_of_snoc, fmap_app, lookup_insert_None, IH. simpl.
    rewrite elem_of_app, list_elem_of_singleton. split.
    + intros [Hn Hne] [Hin|Heq]; [done|]. by subst.
    + intros Hn. split; [intros Hin|intros ->]; apply Hn; auto.
Qed.

Lemma dict_of_last (l1 l2 : list (string * string)) (k v : string) :
  k ∉ l2.*1 → dict_of (l1 ++ (k, v) :: l2) !! k = Some v.
Proof.
  induction l2 as [|[k' v'] l2 IH] using rev_ind; intros Hk.
  - rewrite dict_of_snoc. apply lookup_insert_eq.
  - rewrite fmap_app, not_elem_of_app in Hk. destruct Hk as [Hk Hk'].
    simpl in Hk'. apply not_elem_of_cons in Hk' as [Hne _].
    rewrite app_comm_cons, app_assoc, dict_of_snoc.
    rewrite lookup_insert_ne by done. by apply IH.
Qed.

Lemma index_of_dict {A} (name display_name : A → string) (reverse : bool) (l : list A) :
  index_of name display_name reverse l
  = dict_of ((fun x => (index_key name display_name reverse x,
                        index_value name display_name reverse x)) <$> l).
Proof. by destruct reverse. Qed.

Lemma index_of_last {A} (name display_name : A → string) (reverse : bool)
    (l1 l2 : list A) (x : A) :
  Forall (fun y => index_key name display_name reverse y
                   ≠ index_key name display_name reverse x) l2 →
  index_of name display_name reverse (l1 ++ x :: l2)
    !! index_key name display_name reverse x
  = Some (index_value name display_name reverse x).
Proof.
  intros Hl2. rewrite index_of_dict, fmap_app, fmap_cons.
  apply dict_of_last. rewrite <- list_fmap_compose.
  intros Hin. apply list_elem_of_fmap in Hin as (y & Hy & Hin).
  rewrite Forall_forall in Hl2. by apply (Hl2 y Hin).
Qed.

Lemma index_of_listed {A} (name display_name : A → string)
    (reverse : bool) (l : list A) (k : string) :
  (is_Some (index_of name display_name reverse l !! k) ↔
   ∃ x, x ∈ l ∧ index_key name display_name reverse x = k) ∧
  (∀ v, index_of name display_name reverse l !! k = Some v →
        ∃ x, x ∈ l ∧ index_key name display_name reverse x = k ∧
             index_value name display_name reverse x = v).
Proof.
  rewrite index_of_dict. split.
  - rewrite <- not_eq_None_Some, dict_of_lookup_None, <- list_fmap_compose.
    split.
    + intros Hin. apply dec_stable in Hin.
      apply list_elem_of_fmap in Hin as (x & -> & Hx). by exists x.
    + intros (x & Hx & <-) Hn. apply Hn.
      apply list_elem_of_fmap. by exists x.
  - intros v Hv. apply dict_of_lookup in Hv.
    apply list_elem_of_fmap in Hv as (x & [= -> ->] & Hx). by exists x.
Qed.

(** X1. An index built from a listing (flows, intents, entity types,
    webhooks, pages or route groups, in either direction) has exactly the
    listed keys, and the value under a key is the one of a listed resource
    with that key. *)
Theorem X1_index_keys_are_listed {A} (name display_name : A → string)
    (reverse : bool) (l : list A) (k : string) :
  (is_Some (index_of name display_name reverse l !! k) ↔
   ∃ x, x ∈ l ∧ index_key name display_name reverse x = k) ∧
  (∀ v, index_of name display_name reverse l !! k = Some v →
        ∃ x, x ∈ l ∧ index_key name display_name reverse x = k ∧
             index_value name display_name reverse x = v).
Proof. apply index_of_listed. Qed.

(** X2. When several listed resources have the same key (two intents with
    one display name, in a reverse index), the index holds the value of the
    one listed last. *)
Theorem X2_index_last_listed_wins {A} (name display_name : A → string)
    (reverse : bool) (l1 l2 : list A) (x : A)
    (last_with_key :
       Forall (fun y => index_key name display_name reverse y
                        ≠ index_key name display_name reverse x) l2) :
  index_of name display_name reverse (l1 ++ x :: l2)
    !! index_key name display_name reverse x
  = Some (index_value name display_name reverse x).
Proof. by apply index_of_last. Qed.

Lemma X2_index_last_listed_wins_witness :
  get_intents_map
    (mkCollaborator (fun _ => [])
       (fun _ => [mkResource "a/intents/i1" "Order"; mkResource "a/intents/i2" "Order";
                  mkResource "a/intents/i3" "Cancel"])
       (fun _ => []) (fun _ => []) (fun _ => []) (fun _ => []))
    "a" true !! "Order" = Some "a/intents/i2".
Proof.
  apply (X2_index_last_listed_wins rs_name rs_display_name true
           [mkResource "a/intents/i1" "Order"] [mkResource "a/intents/i3" "Cancel"]
           (mkResource "a/intents/i2" "Order")).
  apply Forall_singleton. simpl. discriminate.
Defined.

(** X3. When the listed display names are all different, the reverse index
    undoes the forward index: the identifier that the forward index maps to
    a display name is the one the reverse index gives back for it. When the
    listed identifiers are all different, the forward index undoes the
    reverse index. *)
Theorem X3_index_round_trip {A} (name display_name : A → string) (l : list A) :
  (NoDup (display_name <$> l) →
   ∀ k n, index_of name display_name false l !! k = Some n →
          index_of name display_name true l !! n = Some k) ∧
  (NoDup (name <$> l) →
   ∀ n k, index_of name display_name true l !! n = Some k →
          index_of name display_name false l !! k = Some n).
Proof.
  assert (∀ (key val : A → string) (rev : bool),
            key = index_key name display_name rev →
            val = index_value name display_name rev →
            NoDup (val <$> l) →
            ∀ k n, index_of name display_name rev l !! k = Some n →
                   index_of name display_name (negb rev) l !! n = Some k) as Hgen.
  { intros key val rev -> -> Hnd k n Hk.
    apply index_of_listed in Hk as (x & Hx & <- & <-).
    apply list_elem_of_split in Hx as (l1 & l2 & ->).
    assert (index_value name display_name rev x
            = index_key name display_name (negb rev) x) as -> by by destruct rev.
    assert (index_key name display_name rev x
            = index_value name display_name (negb rev) x) as -> by by destruct rev.
    apply index_of_last. apply Forall_forall. intros y Hy Heq.
    rewrite fmap_app, fmap_cons in Hnd. apply NoDup_app in Hnd as (_ & _ & Hnd).
    apply NoDup_cons in Hnd as [Hnd _]. apply Hnd.
    apply list_elem_of_fmap. exists y. split; [|done].
    by destruct rev. }
  split.
  - intros Hnd. by apply (Hgen name display_name false).
  - intros Hnd. by apply (Hgen display_name name true).
Qed.

Lemma X3_index_round_trip_witness :
  get_webhooks_map example_dfcx "projects/p/locations/global/agents/a" false
    !! "projects/p/locations/global/agents/a/webhooks/w1" = Some "OrderWebhook" ∧
  get_webhooks_map example_dfcx "projects/p/locations/global/agents/a" true
    !! "OrderWebhook" = Some "projects/p/locations/global/agents/a/webhooks/w1".
Proof.
  assert (get_webhooks_map example_dfcx "projects/p/locations/global/agents/a" false
            !! "projects/p/locations/global/agents/a/webhooks/w1"
          = Some "OrderWebhook") as Hf by (vm_compute; reflexivity).
  split; [exact Hf|].
  apply (proj1 (X3_index_round_trip rs_name rs_display_name
                  (list_webhooks example_dfcx "projects/p/locations/global/agents/a")));
    [|exact Hf].
  simpl. apply NoDup_cons. split.
  - intros Hin. apply list_elem_of_singleton in Hin. discriminate.
  - apply NoDup_singleton.
Defined.

(** ** Intent parameters *)

Lemma convert_intent_parameter_Ok (sem dem : gmap string string)
    (param param' : IntentParameter) :
  convert_intent_parameter sem dem param = Ok param' ↔
  intent_parameter_translated sem dem param param'.
Proof.
  unfold convert_intent_parameter, intent_parameter_translated, two_hop.
  destruct param as [id et il], param' as [id' et' il']. simpl.
  destruct (PyStr.contains "sys." et).
  - split; [by intros [= <- <- <-]|by intros (-> & -> & ->)].
  - split.
    + intros H. apply bind_Ok_inv in H as (n & Hn & H).
      apply bind_Ok_inv in H as (d & Hd & H). apply mret_Ok_inv in H.
      injection H as <- <- <-. apply getitem_Ok in Hn, Hd.
      repeat split. by exists n.
    + intros (-> & -> & n & Hn & Hd).
      apply getitem_Ok in Hn, Hd. by rewrite Hn; simpl; rewrite Hd.
Qed.

(** X4. Copying an intent rewrites the entity type of each of its
    parameters and nothing else: the intent keeps its names, its training
    phrases and its parameters in number and order; a parameter whose entity
    type holds 'sys.' is kept as it is, any other gets the destination
    agent's identifier for the display name its entity type has in the
    source agent. An intent whose parameters are all built-in (or that has
    none) is returned as it is, whatever the maps hold. *)
Theorem X4_intent_parameters_two_hop (sem dem : gmap string string) (intent : Intent) :
  (∀ intent',
     convert_intent sem dem intent = Ok intent' ↔
     in_name intent' = in_name intent ∧
     in_display_name intent' = in_display_name intent ∧
     in_training_phrases intent' = in_training_phrases intent ∧
     Forall2 (intent_parameter_translated sem dem)
       (in_parameters intent) (in_parameters intent')) ∧
  (Forall (fun param => PyStr.contains "sys." (ip_entity_type param) = true)
     (in_parameters intent) →
   convert_intent sem dem intent = Ok intent).
Proof.
  split.
  - intros intent'. unfold convert_intent. split.
    + intros H. apply bind_Ok_inv in H as (ps & Hps & H).
      apply mret_Ok_inv in H as <-. simpl. repeat split.
      eapply mapM_Ok_rel; [|exact Hps]. intros p p'.
      by rewrite convert_intent_parameter_Ok.
    + destruct intent' as [n d t ps]. simpl. intros (-> & -> & -> & Hps).
      assert (mapM (convert_intent_parameter sem dem) (in_parameters intent) = Ok ps)
        as ->; [|done].
      apply mapM_Ok. eapply Forall2_impl; [exact Hps|].
      intros p p'. by rewrite convert_intent_parameter_Ok.
  - intros Hsys. unfold convert_intent.
    assert (mapM (convert_intent_parameter sem dem) (in_parameters intent)
            = Ok (in_parameters intent)) as ->; [|by destruct intent].
    apply mapM_Ok. apply Forall_Forall2_diag.
    eapply Forall_impl; [exact Hsys|]. intros p Hp.
    unfold convert_intent_parameter. by rewrite Hp.
Qed.

Lemma X4_intent_parameters_two_hop_witness :
  convert_intent {["a/entityTypes/e1" := "Size"]} {["Size" := "b/entityTypes/e9"]}
    (mkIntent "a/intents/i1" "Order Pizza" ["a large pizza"]
       [mkIntentParameter "size" "a/entityTypes/e1" false;
        mkIntentParameter "count" "projects/-/locations/-/agents/-/entityTypes/sys.number"
          false])
  = Ok (mkIntent "a/intents/i1" "Order Pizza" ["a large pizza"]
          [mkIntentParameter "size" "b/entityTypes/e9" false;
           mkIntentParameter "count"
             "projects/-/locations/-/agents/-/entityTypes/sys.number" false]) ∧
  convert_intent ∅ ∅
    (mkIntent "a/intents/i2" "Count" []
       [mkIntentParameter "count" "projects/-/locations/-/agents/-/entityTypes/sys.number"
          false])
  = Ok (mkIntent "a/intents/i2" "Count" []
          [mkIntentParameter "count"
             "projects/-/locations/-/agents/-/entityTypes/sys.number" false]).
Proof.
  split.
  - apply (proj1 (X4_intent_parameters_two_hop _ _ _)). simpl.
    repeat split. constructor; [|constructor; [|constructor]].
    + repeat split. exists "Size". split; vm_compute; reflexivity.
    + by repeat split.
  - apply (proj2 (X4_intent_parameters_two_hop ∅ ∅ _)). by constructor.
Defined.

(** X5. Copying an intent stops at the first parameter whose entity type
    cannot be translated: when the parameters before it go through, a
    parameter that is not built-in and whose entity type is no key of the
    source map raises a [KeyError] naming that identifier; when the source
    map has it but the destination map lacks its display name, the
    [KeyError] names the display name. *)
Theorem X5_intent_parameter_miss (sem dem : gmap string string) (intent : Intent)
    (before after : list IntentParameter) (param : IntentParameter)
    (before' : list IntentParameter)
    (parameters : in_parameters intent = (before ++ param :: after)%list)
    (before_pass : mapM (convert_intent_parameter sem dem) before = Ok before')
    (not_builtin : PyStr.contains "sys." (ip_entity_type param) = false) :
  (sem !! ip_entity_type param = None →
   convert_intent sem dem intent = Raise (KeyError (ip_entity_type param))) ∧
  (∀ n, sem !! ip_entity_type param = Some n → dem !! n = None →
        convert_intent sem dem intent = Raise (KeyError n)).
Proof.
  assert (∀ e, convert_intent_parameter sem dem param = Raise e →
               convert_intent sem dem intent = Raise e) as Hstop.
  { intros e He. unfold convert_intent. rewrite parameters.
    clear parameters. revert before' before_pass.
    induction before as [|p ps IH]; intros before' Hb; simpl.
    - by rewrite He.
    - simpl in Hb. apply bind_Ok_inv in Hb as (p' & Hp' & Hb).
      apply bind_Ok_inv in Hb as (ps' & Hps' & _). rewrite Hp'. simpl.
      specialize (IH ps' Hps').
      destruct (mapM _ (ps ++ param :: after)) as [?|e']; [discriminate|].
      simpl in *. congruence. }
  split.
  - intros Hs. apply Hstop. unfold convert_intent_parameter.
    by rewrite not_builtin, (getitem_miss _ _ Hs).
  - intros n Hs Hd. apply Hstop. unfold convert_intent_parameter.
    rewrite not_builtin, (proj2 (getitem_Ok _ _ _) Hs). simpl.
    by rewrite (getitem_miss _ _ Hd).
Qed.

Lemma X5_intent_parameter_miss_witness :
  convert_intent {["a/entityTypes/e1" := "Size"]} ∅
    (mkIntent "a/intents/i1" "Order Pizza" []
       [mkIntentParameter "count" "projects/-/locations/-/agents/-/entityTypes/sys.number"
          false;
        mkIntentParameter "size" "a/entityTypes/e1" false])
  = Raise (KeyError "Size").
Proof.
  apply (proj2 (X5_intent_parameter_miss {["a/entityTypes/e1" := "Size"]} ∅
                  (mkIntent "a/intents/i1" "Order Pizza" []
                     [mkIntentParameter "count"
                        "projects/-/locations/-/agents/-/entityTypes/sys.number" false;
                      mkIntentParameter "size" "a/entityTypes/e1" false])
                  [mkIntentParameter "count"
                     "projects/-/locations/-/agents/-/entityTypes/sys.number" false]
                  [] (mkIntentParameter "size" "a/entityTypes/e1" false)
                  _ eq_refl eq_refl eq_refl) "Size").
  - vm_compute. reflexivity.
  - apply lookup_empty.
Defined.

(** ** Copies of one resource and page shells *)

(** X6. [copy_intent_to_agent] sends at most one request, a creation of the
    translated intent in the destination agent, and sends none when it
    raises. It raises a [KeyError] naming the display name when no listed
    intent of the source agent has it; otherwise it fetches the intent
    listed last under that display name, and raises only a [KeyError] of the
    parameter translation. *)
Theorem X6_copy_intent_to_agent (sv : Service)
    (intent_display_name source_agent destination_agent : string)
    (h : list request) :
  let out := copy_intent_to_agent sv intent_display_name source_agent
               destination_agent h in
  let source_entities_map := get_entities_map (dfcx_at sv h) source_agent false in
  let destination_entities_map :=
    get_entities_map (dfcx_at sv h) destination_agent true in
  ((∀ intent, intent ∈ sv_list_intents sv h source_agent →
              in_display_name intent ≠ intent_display_name) →
   out = (h, Raise (KeyError intent_display_name))) ∧
  (∀ l1 l2 intent,
     sv_list_intents sv h source_agent = (l1 ++ intent :: l2)%list →
     in_display_name intent = intent_display_name →
     Forall (fun other => in_display_name other ≠ intent_display_name) l2 →
     out = match convert_intent source_entities_map destination_entities_map
                   (sv_get_intent sv h (in_name intent)) with
           | Ok intent' => ((h ++ [create_intent destination_agent intent'])%list, Ok tt)
           | Raise e => (h, Raise e)
           end) ∧
  (∀ e, out.2 = Raise e → out.1 = h ∧ ∃ k, e = KeyError k).
Proof.
  intros out sem dem. subst out. unfold copy_intent_to_agent.
  fold sem dem. split; [|split].
  - intros Hnone.
    assert (get_intents_map (dfcx_at sv h) source_agent true !! intent_display_name
            = None) as Hmiss.
    { apply eq_None_not_Some. intros Hs.
      apply (index_of_listed rs_name rs_display_name true) in Hs
        as (x & Hx & Hk).
      simpl in Hx. apply list_elem_of_fmap in Hx as (intent & -> & Hin).
      by apply (Hnone intent Hin). }
    by rewrite (getitem_miss _ _ Hmiss).
  - intros l1 l2 intent Hl Hname Hl2.
    assert (get_intents_map (dfcx_at sv h) source_agent true !! intent_display_name
            = Some (in_name intent)) as Hid.
    { unfold get_intents_map. simpl. rewrite Hl, fmap_app, fmap_cons, <- Hname.
      apply (index_of_last rs_name rs_display_name true _ _ (intent_resource intent)).
      apply Forall_fmap. eapply Forall_impl; [exact Hl2|].
      intros other Ho. simpl. congruence. }
    by rewrite (proj2 (getitem_Ok _ _ _) Hid).
  - intros e. destruct (getitem _ intent_display_name) as [id|e'] eqn:Hid; simpl.
    + destruct (convert_intent sem dem (sv_get_intent sv h id)) as [i'|e'] eqn:Hc;
        simpl; [discriminate|].
      intros [= ->]. split; [done|].
      eapply key_errors_bind; [| |exact Hc].
      * apply key_errors_mapM. intros p. unfold convert_intent_parameter.
        key_errors.
      * intros ps. apply key_errors_mret.
    + intros [= ->]. split; [done|]. by apply key_errors_getitem in Hid.
Qed.

(** X7. [copy_entity_type_to_agent] raises a [KeyError] naming the display
    name, and sends no request, when no listed entity type of the source
    agent has it; otherwise it sends one request: the creation, in the
    destination agent, of the entity type fetched under the identifier of
    the one listed last with that display name. *)
Theorem X7_copy_entity_type_to_agent (sv : Service)
    (entity_type_display_name source_agent destination_agent : string)
    (h : list request) :
  let out := copy_entity_type_to_agent sv entity_type_display_name source_agent
               destination_agent h in
  ((∀ entity, entity ∈ sv_list_entity_types sv h source_agent →
              rs_display_name entity ≠ entity_type_display_name) →
   out = (h, Raise (KeyError entity_type_display_name))) ∧
  (∀ l1 l2 entity,
     sv_list_entity_types sv h source_agent = (l1 ++ entity :: l2)%list →
     rs_display_name entity = entity_type_display_name →
     Forall (fun other => rs_display_name other ≠ entity_type_display_name) l2 →
     out = ((h ++ [create_entity_type destination_agent
                     (sv_get_entity_type sv h (rs_name entity))])%list, Ok tt)).
Proof.
  intros out. subst out. unfold copy_entity_type_to_agent. split.
  - intros Hnone.
    assert (get_entities_map (dfcx_at sv h) source_agent true
              !! entity_type_display_name = None) as Hmiss.
    { apply eq_None_not_Some. intros Hs.
      apply (index_of_listed rs_name rs_display_name true) in Hs
        as (x & Hx & Hk).
      by apply (Hnone x Hx). }
    by rewrite (getitem_miss _ _ Hmiss).
  - intros l1 l2 entity Hl Hname Hl2.
    assert (get_entities_map (dfcx_at sv h) source_agent true
              !! entity_type_display_name = Some (rs_name entity)) as Hid.
    { unfold get_entities_map. simpl. rewrite Hl, <- Hname.
      apply (index_of_last rs_name rs_display_name true).
      eapply Forall_impl; [exact Hl2|]. intros other Ho. simpl. congruence. }
    by rewrite (proj2 (getitem_Ok _ _ _) Hid).
Qed.

Lemma foldl_create_page_shell (destination_flows : gmap string string)
    (destination_flow : string) (pages_list : list Page) (h : list request) :
  foldl (create_page_shell destination_flows destination_flow) h pages_list
  = match destination_flows !! destination_flow with
    | Some flow_id =>
        (h ++ ((fun page => create_page flow_id (pg_display_name page))
                 <$> pages_list))%list
    | None => h
    end.
Proof.
  revert h. induction pages_list as [|page pages IH]; intros h; simpl.
  - destruct (_ !! _); [by rewrite app_nil_r|done].
  - rewrite IH. unfold create_page_shell, getitem.
    destruct (destination_flows !! destination_flow); [|done].
    by rewrite <- app_assoc.
Qed.

(** X8. [create_page_shells] never raises. When the destination agent lists
    a flow with the display name asked for, it sends one page creation per
    page of the list, in order, repetitions included, each carrying nothing
    but the page's display name and the identifier of the flow listed last
    under that name. When no flow has that display name it sends nothing,
    and still returns. *)
Theorem X8_create_page_shells (sv : Service) (pages_list : list Page)
    (destination_agent destination_flow : string) (h : list request) :
  let out := create_page_shells sv pages_list destination_agent destination_flow h in
  out.2 = Ok tt ∧
  ((∀ flow, flow ∈ sv_list_flows sv h destination_agent →
            rs_display_name flow ≠ destination_flow) →
   out.1 = h) ∧
  (∀ l1 l2 flow,
     sv_list_flows sv h destination_agent = (l1 ++ flow :: l2)%list →
     rs_display_name flow = destination_flow →
     Forall (fun other => rs_display_name other ≠ destination_flow) l2 →
     out.1 = (h ++ ((fun page => create_page (rs_name flow) (pg_display_name page))
                      <$> pages_list))%list).
Proof.
  intros out. subst out. unfold create_page_shells. cbn [fst snd].
  rewrite foldl_create_page_shell. split; [done|]. split.
  - intros Hnone.
    assert (get_flows_map (dfcx_at sv h) destination_agent true !! destination_flow
            = None) as ->; [|done].
    apply eq_None_not_Some. intros Hs.
    apply (index_of_listed rs_name rs_display_name true) in Hs
      as (x & Hx & Hk).
    by apply (Hnone x Hx).
  - intros l1 l2 flow Hl Hname Hl2.
    assert (get_flows_map (dfcx_at sv h) destination_agent true !! destination_flow
            = Some (rs_name flow)) as ->; [|done].
    unfold get_flows_map. simpl. rewrite Hl, <- Hname.
    apply (index_of_last rs_name rs_display_name true).
    eapply Forall_impl; [exact Hl2|]. intros other Ho. simpl. congruence.
Qed.

Lemma X6_copy_intent_to_agent_witness :
  copy_intent_to_agent example_service "Cancel" "projects/p/locations/global/agents/a"
    "projects/p/locations/global/agents/b" []
  = ([create_intent "projects/p/locations/global/agents/b"
        (mkIntent "projects/p/locations/global/agents/a/intents/i2" "Cancel" ["stop"] [])],
     Ok tt) ∧
  copy_intent_to_agent example_service "Order Pizza"
    "projects/p/locations/global/agents/a" "projects/p/locations/global/agents/b" []
  = ([], Raise (KeyError "Size")) ∧
  copy_intent_to_agent example_service "Refund" "projects/p/locations/global/agents/a"
    "projects/p/locations/global/agents/b" []
  = ([], Raise (KeyError "Refund")).
Proof.
  pose proof (X6_copy_intent_to_agent example_service "Cancel"
                "projects/p/locations/global/agents/a"
                "projects/p/locations/global/agents/b" []) as (_ & Hlast & _).
  pose proof (X6_copy_intent_to_agent example_service "Refund"
                "projects/p/locations/global/agents/a"
                "projects/p/locations/global/agents/b" []) as (Hnone & _ & _).
  split; [|split].
  - rewrite (Hlast [mkIntent "projects/p/locations/global/agents/a/intents/i1"
                      "Order Pizza" ["a large pizza"]
                      [mkIntentParameter "size"
                         "projects/p/locations/global/agents/a/entityTypes/e1" false;
                       mkIntentParameter "count"
                         "projects/-/locations/-/agents/-/entityTypes/sys.number" false]]
               []
               (mkIntent "projects/p/locations/global/agents/a/intents/i2" "Cancel"
                  ["stop"] [])); [|reflexivity|reflexivity|constructor].
    vm_compute. reflexivity.
  - vm_compute. reflexivity.
  - apply Hnone. intros intent Hin.
    change (intent ∈ example_intents) in Hin. unfold example_intents in Hin.
    repeat (apply elem_of_cons in Hin as [->|Hin]); [discriminate..|].
    by apply elem_of_nil in Hin.
Defined.

Lemma X7_copy_entity_type_to_agent_witness :
  copy_entity_type_to_agent example_service "Size"
    "projects/p/locations/global/agents/a" "projects/p/locations/global/agents/b" []
  = ([create_entity_type "projects/p/locations/global/agents/b"
        (mkResource "projects/p/locations/global/agents/a/entityTypes/e1" "Size")],
     Ok tt) ∧
  copy_entity_type_to_agent example_service "Colour"
    "projects/p/locations/global/agents/a" "projects/p/locations/global/agents/b" []
  = ([], Raise (KeyError "Colour")).
Proof.
  pose proof (X7_copy_entity_type_to_agent example_service "Size"
                "projects/p/locations/global/agents/a"
                "projects/p/locations/global/agents/b" []) as [_ Hlast].
  pose proof (X7_copy_entity_type_to_agent example_service "Colour"
                "projects/p/locations/global/agents/a"
                "projects/p/locations/global/agents/b" []) as [Hnone _].
  split.
  - rewrite (Hlast [] []
               (mkResource "projects/p/locations/global/agents/a/entityTypes/e1" "Size"));
      [|reflexivity|reflexivity|constructor].
    vm_compute. reflexivity.
  - apply Hnone. intros entity Hin.
    change (entity ∈ [mkResource "projects/p/locations/global/agents/a/entityTypes/e1"
                        "Size"]) in Hin.
    apply list_elem_of_singleton in Hin as ->. discriminate.
Defined.

Lemma X8_create_page_shells_witness :
  (create_page_shells example_service [example_page; other_flow_page; example_page]
     "projects/p/locations/global/agents/b" "Default Start Flow" []).1
  = [create_page "projects/p/locations/global/agents/b/flows/g" "Greeting";
     create_page "projects/p/locations/global/agents/b/flows/g" "Survey";
     create_page "projects/p/locations/global/agents/b/flows/g" "Greeting"] ∧
  create_page_shells example_service [example_page; other_flow_page]
    "projects/p/locations/global/agents/b" "No Such Flow" []
  = ([], Ok tt).
Proof.
  pose proof (X8_create_page_shells example_service
                [example_page; other_flow_page; example_page]
                "projects/p/locations/global/agents/b" "Default Start Flow" [])
    as (_ & _ & Hlast).
  pose proof (X8_create_page_shells example_service [example_page; other_flow_page]
                "projects/p/locations/global/agents/b" "No Such Flow" [])
    as (Hok & Hnone & _).
  split.
  - rewrite (Hlast []
               [] (mkResource "projects/p/locations/global/agents/b/flows/g"
                     "Default Start Flow")); [reflexivity|reflexivity|reflexivity|constructor].
  - apply injective_projections; [|exact Hok].
    apply Hnone. intros flow Hin.
    change (flow ∈ [mkResource "projects/p/locations/global/agents/b/flows/g"
                      "Default Start Flow"]) in Hin.
    apply list_elem_of_singleton in Hin as ->. discriminate.
Defined.

(** ** The whole of [copy_paste_agent_resources] *)

Lemma category_answers (resource_dict : ResourceDict) (key : string) :
  answers resource_dict key →
  category resource_dict key = Ok (default ∅ (rd_items resource_dict !! key)).
Proof.
  unfold answers, category. intros [Hd|[ids Hids]].
  - rewrite Hd. by destruct (rd_items resource_dict !! key).
  - by rewrite Hids.
Qed.

Lemma category_plain (resource_dict : ResourceDict) (key : string) :
  rd_default resource_dict = false → rd_items resource_dict !! key = None →
  category resource_dict key = Raise (KeyError key).
Proof. unfold category. by intros -> ->. Qed.

Lemma select_answers {A} (name : A → string) (resource_dict : ResourceDict)
    (key : string) (listed : list A) :
  answers resource_dict key →
  select name resource_dict key listed
  = Ok (filter (fun x => name x ∈ default ∅ (rd_items resource_dict !! key)) listed).
Proof.
  intros Ha. induction listed as [|x rest IH]; [done|].
  simpl. rewrite (category_answers _ _ Ha), IH. simpl.
  rewrite filter_cons. by destruct (decide _).
Qed.

Lemma select_plain {A} (name : A → string) (resource_dict : ResourceDict)
    (key : string) (listed : list A) :
  rd_default resource_dict = false → rd_items resource_dict !! key = None →
  listed ≠ [] →
  select name resource_dict key listed = Raise (KeyError key).
Proof.
  intros Hd Hk Hl. destruct listed as [|x rest]; [done|].
  simpl. by rewrite (category_plain _ _ Hd Hk).
Qed.

Lemma select_key_error {A} (name : A → string) (resource_dict : ResourceDict)
    (key : string) (listed : list A) (e : exn) :
  select name resource_dict key listed = Raise e →
  e = KeyError key ∧ rd_items resource_dict !! key = None.
Proof.
  induction listed as [|x rest IH]; [discriminate|].
  simpl. unfold category at 1.
  destruct (rd_items resource_dict !! key) as [ids|] eqn:Hk.
  - simpl. intros He. destruct (select name resource_dict key rest); [discriminate|].
    apply IH. simpl in He. by injection He as ->.
  - destruct (rd_default resource_dict); simpl.
    + intros He. destruct (select name resource_dict key rest); [discriminate|].
      apply IH. simpl in He. by injection He as ->.
    + by intros [= <-].
Qed.

Lemma paste_intents_run (sem dem : gmap string string) (destination_agent : string)
    (intents : list Intent) (h : list request) :
  ∃ intents',
    (paste_intents sem dem destination_agent h intents).1
    = (h ++ (create_intent destination_agent <$> intents'))%list ∧
    mapM (convert_intent sem dem) (take (List.length intents') intents) = Ok intents' ∧
    ((paste_intents sem dem destination_agent h intents).2 = Ok tt →
     List.length intents' = List.length intents) ∧
    (∀ e, (paste_intents sem dem destination_agent h intents).2 = Raise e →
          ∃ intent, intents !! List.length intents' = Some intent ∧
                    convert_intent sem dem intent = Raise e).
Proof.
  revert h. induction intents as [|intent rest IH]; intros h; simpl.
  - exists []. rewrite app_nil_r. split; [done|]. split; [done|]. split; [done|].
    discriminate.
  - destruct (convert_intent sem dem intent) as [intent'|e] eqn:Hi.
    + destruct (IH (h ++ [create_intent destination_agent intent'])%list)
        as (intents' & Hh & Hm & Hok & Hraise).
      exists (intent' :: intents'). rewrite Hh, <- app_assoc. split; [done|].
      split; [|split].
      * simpl. by rewrite Hi, Hm.
      * intros Hr. simpl. by rewrite (Hok Hr).
      * intros e He. simpl. by apply Hraise.
    + exists []. rewrite app_nil_r. split; [done|]. split; [done|].
      split; [discriminate|].
      intros e' [= <-]. by exists intent.
Qed.

Lemma paste_intents_all (sem dem : gmap string string) (destination_agent : string)
    (intents : list Intent) (intents' : list Intent) (h : list request) :
  mapM (convert_intent sem dem) intents = Ok intents' →
  paste_intents sem dem destination_agent h intents
  = ((h ++ (create_intent destination_agent <$> intents'))%list, Ok tt).
Proof.
  revert h intents'. induction intents as [|intent rest IH]; intros h intents'; simpl.
  - intros [= <-]. by rewrite app_nil_r.
  - intros Hm. apply bind_Ok in Hm as (intent' & Hi & Hm).
    apply bind_Ok in Hm as (rest' & Hrest & [= <-]).
    rewrite Hi, (IH _ _ Hrest). by rewrite <- app_assoc.
Qed.

Lemma paste_intents_stops (sem dem : gmap string string) (destination_agent : string)
    (before after : list Intent) (intent : Intent) (before' : list Intent) (e : exn)
    (h : list request) :
  mapM (convert_intent sem dem) before = Ok before' →
  convert_intent sem dem intent = Raise e →
  paste_intents sem dem destination_agent h (before ++ intent :: after)
  = ((h ++ (create_intent destination_agent <$> before'))%list, Raise e).
Proof.
  revert h before'. induction before as [|i rest IH]; intros h before'; simpl.
  - intros [= <-] ->. by rewrite app_nil_r.
  - intros Hm He. apply bind_Ok in Hm as (i' & Hi & Hm).
    apply bind_Ok in Hm as (rest' & Hrest & [= <-]).
    rewrite Hi, (IH _ _ Hrest He). by rewrite <- app_assoc.
Qed.

Lemma paste_selected_route_groups_sends (sv : Service)
    (source_agent destination_agent destination_flow source_flow : string)
    (rgs : list RouteGroup) (h : list request) :
  ∃ calls,
    (paste_selected_route_groups sv source_agent destination_agent destination_flow
       source_flow rgs h).1 = (h ++ (create_route_group <$> calls))%list ∧
    (rgs = [] → calls = []).
Proof.
  unfold paste_selected_route_groups. destruct rgs as [|rg rgs].
  - exists []. by rewrite app_nil_r.
  - destruct (getitem _ destination_flow) as [f|e].
    + eexists. split; [reflexivity|done].
    + exists []. by rewrite app_nil_r.
Qed.

Lemma copy_resources_answers (sv : Service) (resource_dict : ResourceDict)
    (source_agent : string) (skip_list : list string) (h : list request) :
  (∀ key, key ∈ ["entities"; "intents"; "webhooks"; "route_groups"] →
          answers resource_dict key) →
  copy_resources sv resource_dict source_agent skip_list h
  = (route_groups ←
       (if decide ("route_groups" ∈ skip_list) then mret None
        else
          source_flow ← getitem (get_flows_map (dfcx_at sv h) source_agent true)
                          "Default Start Flow";
          mret (Some (source_flow,
                      selected rg_name resource_dict "route_groups" skip_list
                        (sv_list_transition_route_groups sv h source_flow))));
     mret (selected rs_name resource_dict "entities" skip_list
             (sv_list_entity_types sv h source_agent),
           selected in_name resource_dict "intents" skip_list
             (sv_list_intents sv h source_agent),
           selected rs_name resource_dict "webhooks" skip_list
             (sv_list_webhooks sv h source_agent),
           route_groups)).
Proof.
  intros Ha. unfold copy_resources, selected.
  assert (answers resource_dict "entities") as He by (apply Ha; repeat constructor).
  assert (answers resource_dict "intents") as Hi by (apply Ha; repeat constructor).
  assert (answers resource_dict "webhooks") as Hw by (apply Ha; repeat constructor).
  assert (answers resource_dict "route_groups") as Hr by (apply Ha; repeat constructor).
  rewrite !select_answers by done.
  destruct (decide ("entities" ∈ skip_list)), (decide ("intents" ∈ skip_list)),
    (decide ("webhooks" ∈ skip_list)), (decide ("route_groups" ∈ skip_list)); simpl;
    try done;
    by destruct (getitem _ "Default Start Flow"); simpl; rewrite ?select_answers.
Qed.

Lemma copy_resources_skips (sv : Service) (resource_dict : ResourceDict)
    (source_agent : string) (skip_list : list string) (h : list request)
    (entities : list Resource) (intents : list Intent) (webhooks : list Resource)
    (route_groups : option (string * list RouteGroup)) :
  copy_resources sv resource_dict source_agent skip_list h
  = Ok (entities, intents, webhooks, route_groups) →
  ("entities" ∈ skip_list → entities = []) ∧
  ("intents" ∈ skip_list → intents = []) ∧
  ("webhooks" ∈ skip_list → webhooks = []) ∧
  ("route_groups" ∈ skip_list → route_groups = None).
Proof.
  unfold copy_resources. intros Hc.
  apply bind_Ok_inv in Hc as (es0 & He & Hc).
  apply bind_Ok_inv in Hc as (is0 & Hi & Hc).
  apply bind_Ok_inv in Hc as (ws0 & Hw & Hc).
  apply bind_Ok_inv in Hc as (rs0 & Hr & Hc).
  apply mret_Ok_inv in Hc. injection Hc as <- <- <- <-.
  split; [|split; [|split]]; intros Hs.
  - rewrite decide_True in He by done. by apply mret_Ok_inv in He.
  - rewrite decide_True in Hi by done. by apply mret_Ok_inv in Hi.
  - rewrite decide_True in Hw by done. by apply mret_Ok_inv in Hw.
  - rewrite decide_True in Hr by done. by apply mret_Ok_inv in Hr.
Qed.

(** X9. [copy_paste_agent_resources] never creates a page, and it creates
    nothing of a category named in [skip_list]: every request it sends is a
    creation of a webhook, an entity type, an intent or a route group, of a
    category that is not skipped. This holds whether the call returns or
    raises. *)
Theorem X9_skip_list_is_honoured (sv : Service) (resource_dict : ResourceDict)
    (source_agent destination_agent destination_flow : string)
    (skip_list : list string) (h : list request) :
  ∃ sent,
    (copy_paste_agent_resources sv resource_dict source_agent destination_agent
       destination_flow skip_list h).1 = (h ++ sent)%list ∧
    Forall (fun r => request_kind r ∈ ["webhooks"; "entities"; "intents"; "route_groups"] ∧
                     request_kind r ∉ skip_list) sent.
Proof.
  unfold copy_paste_agent_resources.
  destruct (copy_resources sv resource_dict source_agent skip_list h)
    as [[[[entities intents] webhooks] route_groups]|e] eqn:Hc.
  2:{ exists []. by rewrite app_nil_r. }
  apply copy_resources_skips in Hc as (He & Hi & Hw & Hr).
  set (h2 := ((h ++ (create_webhook destination_agent <$> webhooks))
              ++ (create_entity_type destination_agent <$> entities))%list).
  set (sem := get_entities_map (dfcx_at sv h2) source_agent false).
  set (dem := get_entities_map (dfcx_at sv h2) destination_agent true).
  assert (∃ intents',
            match intents with
            | [] => (h2, Ok tt)
            | _ :: _ => paste_intents sem dem destination_agent h2 intents
            end.1 = (h2 ++ (create_intent destination_agent <$> intents'))%list ∧
            (intents = [] → intents' = [])) as (intents' & Hp & Hnil).
  { destruct intents as [|intent rest].
    - exists []. by rewrite app_nil_r.
    - destruct (paste_intents_run sem dem destination_agent (intent :: rest) h2)
        as (intents' & Hh & _). by exists intents'. }
  destruct (match intents with
            | [] => (h2, Ok tt)
            | _ :: _ => paste_intents sem dem destination_agent h2 intents
            end) as [h3 r]. simpl in Hp. subst h3.
  assert (Forall (fun r => request_kind r ∈ ["webhooks"; "entities"; "intents";
                                             "route_groups"] ∧
                           request_kind r ∉ skip_list)
            ((create_webhook destination_agent <$> webhooks)
             ++ (create_entity_type destination_agent <$> entities)
             ++ (create_intent destination_agent <$> intents'))%list) as Hsent.
  { rewrite !Forall_app, !Forall_fmap. split; [|split].
    - apply Forall_forall. intros w Hin. simpl. split; [repeat constructor|].
      intros Hs. rewrite (Hw Hs) in Hin. by apply elem_of_nil in Hin.
    - apply Forall_forall. intros x Hin. simpl. split; [repeat constructor|].
      intros Hs. rewrite (He Hs) in Hin. by apply elem_of_nil in Hin.
    - apply Forall_forall. intros i Hin. simpl. split; [repeat constructor|].
      intros Hs. rewrite (Hnil (Hi Hs)) in Hin. by apply elem_of_nil in Hin. }
  destruct r as [[]|e].
  2:{ eexists. split; [|exact Hsent]. unfold h2. simpl. by rewrite <- !app_assoc. }
  destruct route_groups as [[source_flow rgs]|].
  2:{ eexists. split; [|exact Hsent]. unfold h2. simpl. by rewrite <- !app_assoc. }
  destruct (paste_selected_route_groups_sends sv source_agent destination_agent
              destination_flow source_flow rgs
              (h2 ++ (create_intent destination_agent <$> intents'))%list)
    as (calls & -> & _).
  exists ((create_webhook destination_agent <$> webhooks)
          ++ (create_entity_type destination_agent <$> entities)
          ++ (create_intent destination_agent <$> intents')
          ++ (create_route_group <$> calls))%list.
  split; [unfold h2; by rewrite <- !app_assoc|].
  rewrite !app_assoc, Forall_app, <- !app_assoc. split; [exact Hsent|].
  rewrite Forall_fmap. apply Forall_forall. intros c Hin. simpl.
  split; [repeat constructor|].
  intros Hs. by specialize (Hr Hs).
Qed.

(** X10. When [resource_dict] answers for the four categories (it has the
    keys or is a [defaultdict]) and the source agent has a 'Default Start
    Flow' (or route groups are skipped), the requests are sent in this
    order: the selected webhooks, the selected entity types, the translated
    intents, then route groups only. Webhooks and entity types are the
    listed ones whose identifier is in the dictionary, in listing order and
    unchanged. The intents sent are the translations of the first selected
    intents, made with the entity types that the two agents list after the
    entity types of this call were created; when the call returns, all the
    selected intents were sent. *)
Theorem X10_requests_in_order (sv : Service) (resource_dict : ResourceDict)
    (source_agent destination_agent destination_flow : string)
    (skip_list : list string) (h : list request)
    (dict_answers :
       ∀ key, key ∈ ["entities"; "intents"; "webhooks"; "route_groups"] →
              answers resource_dict key)
    (start_flow :
       "route_groups" ∈ skip_list ∨
       is_Some (get_flows_map (dfcx_at sv h) source_agent true !! "Default Start Flow")) :
  let webhooks :=
    selected rs_name resource_dict "webhooks" skip_list
      (sv_list_webhooks sv h source_agent) in
  let entities :=
    selected rs_name resource_dict "entities" skip_list
      (sv_list_entity_types sv h source_agent) in
  let intents :=
    selected in_name resource_dict "intents" skip_list
      (sv_list_intents sv h source_agent) in
  let h2 := (h ++ (create_webhook destination_agent <$> webhooks)
               ++ (create_entity_type destination_agent <$> entities))%list in
  let out :=
    copy_paste_agent_resources sv resource_dict source_agent destination_agent
      destination_flow skip_list h in
  ∃ intents' calls,
    out.1 = (h2 ++ (create_intent destination_agent <$> intents')
               ++ (create_route_group <$> calls))%list ∧
    mapM (convert_intent (get_entities_map (dfcx_at sv h2) source_agent false)
            (get_entities_map (dfcx_at sv h2) destination_agent true))
      (take (List.length intents') intents) = Ok intents' ∧
    (out.2 = Ok tt → List.length intents' = List.length intents).
Proof.
  intros webhooks entities intents h2 out. subst out.
  unfold copy_paste_agent_resources.
  rewrite (copy_resources_answers _ _ _ _ _ dict_answers).
  fold webhooks entities intents.
  assert (∃ route_groups,
            (if decide ("route_groups" ∈ skip_list) then mret None
             else
               source_flow ← getitem (get_flows_map (dfcx_at sv h) source_agent true)
                               "Default Start Flow";
               mret (Some (source_flow,
                           selected rg_name resource_dict "route_groups" skip_list
                             (sv_list_transition_route_groups sv h source_flow))))
            = Ok route_groups) as [route_groups ->].
  { destruct (decide ("route_groups" ∈ skip_list)) as [|Hn]; [by eexists|].
    destruct start_flow as [|[source_flow Hf]]; [done|].
    apply getitem_Ok in Hf. rewrite Hf. by eexists. }
  unfold mbind, result_bind, mret, result_ret. cbn beta iota.
  rewrite <- app_assoc. fold h2.
  set (sem := get_entities_map (dfcx_at sv h2) source_agent false).
  set (dem := get_entities_map (dfcx_at sv h2) destination_agent true).
  assert (∃ intents',
            match intents with
            | [] => (h2, Ok tt)
            | _ :: _ => paste_intents sem dem destination_agent h2 intents
            end.1 = (h2 ++ (create_intent destination_agent <$> intents'))%list ∧
            mapM (convert_intent sem dem) (take (List.length intents') intents)
            = Ok intents' ∧
            (match intents with
             | [] => (h2, Ok tt)
             | _ :: _ => paste_intents sem dem destination_agent h2 intents
             end.2 = Ok tt → List.length intents' = List.length intents))
    as (intents' & Hp & Hm & Hok).
  { destruct intents as [|intent rest].
    - exists []. by rewrite app_nil_r.
    - destruct (paste_intents_run sem dem destination_agent (intent :: rest) h2)
        as (intents' & Hh & Hm & Hok & _). by exists intents'. }
  destruct (match intents with
            | [] => (h2, Ok tt)
            | _ :: _ => paste_intents sem dem destination_agent h2 intents
            end) as [h3 r]. simpl in Hp, Hok. subst h3.
  exists intents'.
  destruct r as [[]|e].
  2:{ exists []. simpl. rewrite app_nil_r. by split; [|split]. }
  destruct route_groups as [[source_flow rgs]|].
  2:{ exists []. simpl. rewrite app_nil_r. split; [done|]. split; [done|]. by intros _; apply Hok. }
  destruct (paste_selected_route_groups_sends sv source_agent destination_agent
              destination_flow source_flow rgs
              (h2 ++ (create_intent destination_agent <$> intents'))%list)
    as (calls & Hcalls & _).
  exists calls. rewrite Hcalls, <- app_assoc. split; [done|]. split; [done|].
  intros _. by apply Hok.
Qed.

Lemma phase_key_error {A} (name : A → string) (resource_dict : ResourceDict)
    (key : string) (skip_list : list string) (listed : list A) (e : exn) :
  (if decide (key ∈ skip_list) then mret []
   else select name resource_dict key listed) = Raise e →
  e = KeyError key ∧ (key ∉ skip_list) ∧ rd_items resource_dict !! key = None.
Proof.
  destruct (decide (key ∈ skip_list)) as [|Hn]; [discriminate|].
  intros Hs. by apply select_key_error in Hs as [-> Hs].
Qed.

Lemma phase_plain {A B} (name : A → string) (f : A → B) (resource_dict : ResourceDict)
    (key : string) (skip_list : list string) (listed : list A) :
  rd_default resource_dict = false → key ∉ skip_list →
  rd_items resource_dict !! key = None → f <$> listed ≠ [] →
  (if decide (key ∈ skip_list) then mret []
   else select name resource_dict key listed) = Raise (KeyError key).
Proof.
  intros Hd Hn Hk Hl. rewrite decide_False by done.
  apply select_plain; [done..|]. by intros ->.
Qed.

(** X11. With a plain dictionary, a category of agent level resources that
    is not skipped, has no key in [resource_dict] and has something listed
    in the source agent makes the call raise a [KeyError] for a missing
    category before anything is created. *)
Theorem X11_plain_dict_missing_key (sv : Service) (resource_dict : ResourceDict)
    (source_agent destination_agent destination_flow : string)
    (skip_list : list string) (h : list request) (key : string)
    (plain : rd_default resource_dict = false)
    (agent_level : key ∈ ["entities"; "intents"; "webhooks"])
    (not_skipped : key ∉ skip_list)
    (no_key : rd_items resource_dict !! key = None)
    (something_listed : listed_names sv h source_agent key ≠ []) :
  ∃ missing,
    (missing ∈ ["entities"; "intents"; "webhooks"]) ∧
    (missing ∉ skip_list) ∧
    rd_items resource_dict !! missing = None ∧
    copy_paste_agent_resources sv resource_dict source_agent destination_agent
      destination_flow skip_list h = (h, Raise (KeyError missing)).
Proof.
  unfold copy_paste_agent_resources, copy_resources.
  destruct (if decide ("entities" ∈ skip_list) then mret []
            else select rs_name resource_dict "entities"
                   (sv_list_entity_types sv h source_agent)) as [entities|e] eqn:He.
  2:{ apply phase_key_error in He as (-> & Hn & Hk). exists "entities".
      split; [repeat constructor|done]. }
  destruct (if decide ("intents" ∈ skip_list) then mret []
            else select in_name resource_dict "intents"
                   (sv_list_intents sv h source_agent)) as [intents|e] eqn:Hi.
  2:{ apply phase_key_error in Hi as (-> & Hn & Hk). exists "intents".
      split; [repeat constructor|done]. }
  destruct (if decide ("webhooks" ∈ skip_list) then mret []
            else select rs_name resource_dict "webhooks"
                   (sv_list_webhooks sv h source_agent)) as [webhooks|e] eqn:Hw.
  2:{ apply phase_key_error in Hw as (-> & Hn & Hk). exists "webhooks".
      split; [repeat constructor|done]. }
  exfalso.
  apply elem_of_cons in agent_level as [->|agent_level].
  { by rewrite (phase_plain rs_name rs_name) in He. }
  apply elem_of_cons in agent_level as [->|agent_level].
  { by rewrite (phase_plain in_name in_name) in Hi. }
  apply list_elem_of_singleton in agent_level as ->.
  by rewrite (phase_plain rs_name rs_name) in Hw.
Qed.

(** X12. A selected intent that cannot be translated (a parameter's entity
    type is not listed in the source agent, or its display name is not
    listed in the destination agent) stops the call with the [KeyError] of
    that lookup and leaves a partial copy: the selected webhooks, the
    selected entity types and the intents selected before it were sent, and
    no route group was. *)
Theorem X12_failed_intent_leaves_partial_copy (sv : Service)
    (resource_dict : ResourceDict)
    (source_agent destination_agent destination_flow : string)
    (skip_list : list string) (h : list request)
    (before after before' : list Intent) (intent : Intent) (e : exn)
    (dict_answers :
       ∀ key, key ∈ ["entities"; "intents"; "webhooks"; "route_groups"] →
              answers resource_dict key)
    (start_flow :
       "route_groups" ∈ skip_list ∨
       is_Some (get_flows_map (dfcx_at sv h) source_agent true !! "Default Start Flow")) :
  let webhooks :=
    selected rs_name resource_dict "webhooks" skip_list
      (sv_list_webhooks sv h source_agent) in
  let entities :=
    selected rs_name resource_dict "entities" skip_list
      (sv_list_entity_types sv h source_agent) in
  let h2 := (h ++ (create_webhook destination_agent <$> webhooks)
               ++ (create_entity_type destination_agent <$> entities))%list in
  let source_entities_map := get_entities_map (dfcx_at sv h2) source_agent false in
  let destination_entities_map :=
    get_entities_map (dfcx_at sv h2) destination_agent true in
  selected in_name resource_dict "intents" skip_list (sv_list_intents sv h source_agent)
  = (before ++ intent :: after)%list →
  mapM (convert_intent source_entities_map destination_entities_map) before
  = Ok before' →
  convert_intent source_entities_map destination_entities_map intent = Raise e →
  copy_paste_agent_resources sv resource_dict source_agent destination_agent
    destination_flow skip_list h
  = ((h2 ++ (create_intent destination_agent <$> before'))%list, Raise e).
Proof.
  intros webhooks entities h2 sem dem Hsel Hbefore Hintent.
  unfold copy_paste_agent_resources.
  rewrite (copy_resources_answers _ _ _ _ _ dict_answers).
  fold webhooks entities. rewrite Hsel.
  assert (∃ route_groups,
            (if decide ("route_groups" ∈ skip_list) then mret None
             else
               source_flow ← getitem (get_flows_map (dfcx_at sv h) source_agent true)
                               "Default Start Flow";
               mret (Some (source_flow,
                           selected rg_name resource_dict "route_groups" skip_list
                             (sv_list_transition_route_groups sv h source_flow))))
            = Ok route_groups) as [route_groups ->].
  { destruct (decide ("route_groups" ∈ skip_list)) as [|Hn]; [by eexists|].
    destruct start_flow as [|[source_flow Hf]]; [done|].
    apply getitem_Ok in Hf. rewrite Hf. by eexists. }
  unfold mbind, result_bind, mret, result_ret. cbn beta iota.
  rewrite <- app_assoc. fold h2. fold sem dem.
  rewrite match_app_cons.
  by rewrite (paste_intents_stops _ _ _ _ _ _ _ _ _ Hbefore Hintent).
Qed.

(** X13. With entity types, intents and webhooks skipped, the call is the
    route group step alone: it sends, as requests, the creation calls of
    [copy_paste_route_groups] run on what the service lists when the call
    is entered, and ends as that step ends. *)
Theorem X13_route_groups_alone (sv : Service) (resource_dict : ResourceDict)
    (source_agent destination_agent destination_flow : string)
    (skip_list : list string) (h : list request) (ids : gset string)
    (skip_entities : "entities" ∈ skip_list)
    (skip_intents : "intents" ∈ skip_list)
    (skip_webhooks : "webhooks" ∈ skip_list)
    (route_groups_key : rd_items resource_dict !! "route_groups" = Some ids) :
  let out :=
    copy_paste_route_groups (dfcx_at sv h) (elements ids) source_agent
      destination_agent destination_flow skip_list in
  copy_paste_agent_resources sv resource_dict source_agent destination_agent
    destination_flow skip_list h
  = ((h ++ (create_route_group <$> out.1))%list, out.2).
Proof.
  intros out. subst out.
  unfold copy_paste_agent_resources, copy_resources, copy_paste_route_groups.
  destruct (decide ("entities" ∈ skip_list)) as [_|]; [|done].
  destruct (decide ("intents" ∈ skip_list)) as [_|]; [|done].
  destruct (decide ("webhooks" ∈ skip_list)) as [_|]; [|done].
  unfold mbind at 1 2 3, result_bind, mret at 1 2 3, result_ret. cbn beta iota.
  destruct (decide ("route_groups" ∈ skip_list)) as [Hs|Hs].
  { simpl. by rewrite !app_nil_r. }
  destruct (getitem (get_flows_map (dfcx_at sv h) source_agent true)
              "Default Start Flow") as [source_flow|e] eqn:Hf.
  2:{ simpl. by rewrite !app_nil_r. }
  unfold mbind, result_bind. cbn beta iota.
  rewrite select_answers by (right; by rewrite route_groups_key).
  rewrite route_groups_key. cbn [default from_option id].
  assert (filter (fun x => rg_name x ∈ ids)
            (sv_list_transition_route_groups sv h source_flow)
          = filter (fun rg => rg_name rg ∈ elements ids)
              (list_transition_route_groups (dfcx_at sv h) source_flow)) as ->.
  { apply list_filter_iff. intros rg. by rewrite elem_of_elements. }
  unfold mret, result_ret. cbn beta iota.
  cbn [fmap list_fmap app]. rewrite !app_nil_r.
  unfold paste_selected_route_groups.
  destruct (filter _ _) as [|rg rgs]; [by rewrite app_nil_r|].
  destruct (getitem (get_flows_map (dfcx_at sv h) destination_agent true)
              destination_flow) as [f|e]; [done|].
  by rewrite app_nil_r.
Qed.

Lemma X10_requests_in_order_witness :
  ∃ intents' calls,
    (copy_paste_agent_resources example_service example_resource_dict
       "projects/p/locations/global/agents/a" "projects/p/locations/global/agents/b"
       "Default Start Flow" [] []).1
    = ([create_webhook "projects/p/locations/global/agents/b"
          (mkResource "projects/p/locations/global/agents/a/webhooks/w1" "OrderWebhook");
        create_entity_type "projects/p/locations/global/agents/b"
          (mkResource "projects/p/locations/global/agents/a/entityTypes/e1" "Size")]
         ++ (create_intent "projects/p/locations/global/agents/b" <$> intents')
         ++ (create_route_group <$> calls))%list ∧
    mapM (convert_intent
            (<["projects/p/locations/global/agents/a/entityTypes/e1" := "Size"]> ∅)
            (<["Size" := "projects/p/locations/global/agents/b/entityTypes/Size"]> ∅))
      (take (List.length intents') example_intents) = Ok intents' ∧
    ((copy_paste_agent_resources example_service example_resource_dict
        "projects/p/locations/global/agents/a" "projects/p/locations/global/agents/b"
        "Default Start Flow" [] []).2 = Ok tt →
     List.length intents' = 2).
Proof.
  apply (X10_requests_in_order example_service example_resource_dict
           "projects/p/locations/global/agents/a" "projects/p/locations/global/agents/b"
           "Default Start Flow" [] []).
  - intros key _. left. reflexivity.
  - right. vm_compute. eexists. reflexivity.
Defined.

Lemma X11_plain_dict_missing_key_witness :
  ∃ missing,
    (missing ∈ ["entities"; "intents"; "webhooks"]) ∧
    (missing ∉ []) ∧
    rd_items plain_resource_dict !! missing = None ∧
    copy_paste_agent_resources example_service plain_resource_dict
      "projects/p/locations/global/agents/a" "projects/p/locations/global/agents/b"
      "Default Start Flow" [] [] = ([], Raise (KeyError missing)).
Proof.
  apply (X11_plain_dict_missing_key example_service plain_resource_dict
           "projects/p/locations/global/agents/a" "projects/p/locations/global/agents/b"
           "Default Start Flow" [] [] "webhooks").
  - reflexivity.
  - repeat constructor.
  - apply not_elem_of_nil.
  - vm_compute. reflexivity.
  - vm_compute. discriminate.
Defined.

Lemma X12_failed_intent_leaves_partial_copy_witness :
  copy_paste_agent_resources example_service example_resource_dict
    "projects/p/locations/global/agents/a" "projects/p/locations/global/agents/b"
    "Default Start Flow" ["entities"] []
  = ([create_webhook "projects/p/locations/global/agents/b"
        (mkResource "projects/p/locations/global/agents/a/webhooks/w1" "OrderWebhook")],
     Raise (KeyError "Size")).
Proof.
  apply (X12_failed_intent_leaves_partial_copy example_service example_resource_dict
           "projects/p/locations/global/agents/a" "projects/p/locations/global/agents/b"
           "Default Start Flow" ["entities"] []
           []
           [mkIntent "projects/p/locations/global/agents/a/intents/i2" "Cancel" ["stop"] []]
           []
           (mkIntent "projects/p/locations/global/agents/a/intents/i1" "Order Pizza"
              ["a large pizza"]
              [mkIntentParameter "size"
                 "projects/p/locations/global/agents/a/entityTypes/e1" false;
               mkIntentParameter "count"
                 "projects/-/locations/-/agents/-/entityTypes/sys.number" false])
           (KeyError "Size")).
  - intros key _. left. reflexivity.
  - right. vm_compute. eexists. reflexivity.
  - vm_compute. reflexivity.
  - reflexivity.
  - vm_compute. reflexivity.
Defined.

Lemma X13_route_groups_alone_witness :
  copy_paste_agent_resources example_service
    (mkResourceDict
       (<["route_groups" :=
            {["projects/p/locations/global/agents/a/flows/f/transitionRouteGroups/rg1"]}]>
          ∅) false)
    "projects/p/locations/global/agents/a" "projects/p/locations/global/agents/b"
    "Default Start Flow" ["entities"; "intents"; "webhooks"]
    [create_webhook "projects/p/locations/global/agents/b"
       (mkResource "projects/p/locations/global/agents/a/webhooks/w1" "OrderWebhook");
     create_intent "projects/p/locations/global/agents/b"
       (mkIntent "projects/p/locations/global/agents/a/intents/i2" "Cancel" ["stop"] [])]
  = ([create_webhook "projects/p/locations/global/agents/b"
        (mkResource "projects/p/locations/global/agents/a/webhooks/w1" "OrderWebhook");
      create_intent "projects/p/locations/global/agents/b"
        (mkIntent "projects/p/locations/global/agents/a/intents/i2" "Cancel" ["stop"] []);
      create_route_group
        (create_transition_route_group "projects/p/locations/global/agents/b/flows/g"
           (mkRouteGroup
              "projects/p/locations/global/agents/a/flows/f/transitionRouteGroups/rg1"
              "Common"
              [mkTransitionRoute "projects/p/locations/global/agents/b/intents/Cancel" ""
                 (Some (mkFulfillment ["Bye"]
                          "projects/p/locations/global/agents/b/webhooks/OrderWebhook" ""))
                 "projects/p/locations/global/agents/b/flows/g/pages/END_FLOW"]))],
     Ok tt).
Proof.
  rewrite (X13_route_groups_alone example_service _
             "projects/p/locations/global/agents/a"
             "projects/p/locations/global/agents/b" "Default Start Flow"
             ["entities"; "intents"; "webhooks"] _
             {["projects/p/locations/global/agents/a/flows/f/transitionRouteGroups/rg1"]}).
  - vm_compute. reflexivity.
  - repeat constructor.
  - repeat constructor.
  - repeat constructor.
  - reflexivity.
Defined.

(** ** Dictionaries that are iterated *)

Lemma odict_set_keys {V} (k : string) (v : V) (d : list (string * V)) :
  (odict_set k v d).*1 = if decide (k ∈ d.*1) then d.*1 else (d.*1 ++ [k])%list.
Proof.
  induction d as [|[k' v'] d IH]; [done|]. cbn [odict_set].
  rewrite (fmap_cons fst (k', v') d). cbn [fst].
  destruct (decide (k' = k)) as [->|Hne].
  - by rewrite decide_True by apply list_elem_of_here.
  - rewrite fmap_cons, IH. cbn [fst]. destruct (decide (k ∈ d.*1)) as [Hin|Hin].
    + by rewrite decide_True by by apply list_elem_of_further.
    + rewrite decide_False; [done|].
      intros Hc. apply elem_of_cons in Hc as [->|Hc]; done.
Qed.

Lemma odict_set_NoDup {V} (k : string) (v : V) (d : list (string * V)) :
  NoDup d.*1 → NoDup (odict_set k v d).*1.
Proof.
  intros Hd. rewrite odict_set_keys. destruct (decide (k ∈ d.*1)); [done|].
  apply NoDup_app. split; [done|]. split; [|apply NoDup_singleton].
  intros x Hx Hk. apply list_elem_of_singleton in Hk as ->. done.
Qed.

Lemma odict_set_elem {V} (k : string) (v : V) (d : list (string * V))
    (k' : string) (v' : V) :
  NoDup d.*1 →
  (k', v') ∈ odict_set k v d ↔ (k' = k ∧ v' = v) ∨ (k' ≠ k ∧ (k', v') ∈ d).
Proof.
  induction d as [|[k0 v0] d IH]; intros Hd; simpl.
  - rewrite list_elem_of_singleton. split.
    + intros [= -> ->]. by left.
    + intros [[-> ->]|[_ Hin]]; [done|]. by apply elem_of_nil in Hin.
  - apply NoDup_cons in Hd as [Hk0 Hd].
    destruct (decide (k0 = k)) as [->|Hne].
    + rewrite !elem_of_cons. split.
      * intros [[= -> ->]|Hin]; [by left|].
        right. split; [|by right]. intros ->. apply Hk0.
        apply list_elem_of_fmap. by exists (k, v').
      * intros [[-> ->]|[Hn [[= -> ->]|Hin]]]; [by left|done|by right].
    + rewrite !elem_of_cons, (IH Hd). split.
      * intros [[= -> ->]|[[-> ->]|[Hn Hin]]].
        -- right. split; [done|by left].
        -- by left.
        -- right. split; [done|by right].
      * intros [[-> ->]|[Hn [[= -> ->]|Hin]]].
        -- right. by left.
        -- by left.
        -- right. right. by split.
Qed.

Lemma odict_of_snoc {V} (kvs : list (string * V)) (k : string) (v : V) :
  odict_of (kvs ++ [(k, v)]) = odict_set k v (odict_of kvs).
Proof. unfold odict_of. by rewrite foldl_app. Qed.

Lemma odict_of_NoDup {V} (kvs : list (string * V)) : NoDup (odict_of kvs).*1.
Proof.
  induction kvs as [|[k v] kvs IH] using rev_ind; [apply NoDup_nil_2|].
  rewrite odict_of_snoc. by apply odict_set_NoDup.
Qed.

(** An iterated dictionary holds the pairs of the dictionary. *)
Lemma odict_of_elem (kvs : list (string * string)) (k v : string) :
  (k, v) ∈ odict_of kvs ↔ dict_of kvs !! k = Some v.
Proof.
  induction kvs as [|[k0 v0] kvs IH] using rev_ind.
  - split; [intros Hin; by apply elem_of_nil in Hin|done].
  - rewrite odict_of_snoc, dict_of_snoc, odict_set_elem by apply odict_of_NoDup.
    rewrite IH. destruct (decide (k = k0)) as [->|Hne].
    + rewrite lookup_insert_eq. split.
      * by intros [[_ ->]|[Hn _]].
      * intros [= ->]. by left.
    + rewrite lookup_insert_ne by done. split.
      * by intros [[-> _]|[_ Hk]].
      * intros Hk. by right.
Qed.

Lemma odict_of_listed {V} (kvs : list (string * V)) (kv : string * V) :
  kv ∈ odict_of kvs → kv ∈ kvs.
Proof.
  revert kv. induction kvs as [|[k0 v0] kvs IH] using rev_ind; intros [k v].
  - intros Hin. by apply elem_of_nil in Hin.
  - rewrite odict_of_snoc, odict_set_elem by apply odict_of_NoDup.
    rewrite elem_of_app, list_elem_of_singleton.
    intros [[-> ->]|[_ Hin]]; [by right|]. left. by apply IH.
Qed.

(** ** The rows of [route_groups_to_dataframe] *)

Lemma key_errors_route_row (text_of : string → list string)
    (intent_dict webhooks_dict : gmap string string) (flow : string)
    (route_group : RouteGroup) (route : TransitionRoute) :
  key_errors (route_row text_of intent_dict webhooks_dict flow route_group route).
Proof. unfold route_row. key_errors. Qed.

(** X14. [route_groups_to_dataframe] looks every route's intent up. When a
    route group listed under a flow of the agent has a route whose intent
    is not a listed one (for a route triggered by a condition the field is
    empty), no rows are built: the call raises a [KeyError]. *)
Theorem X14_rows_need_listed_intents (dfcx : Collaborator)
    (text_of : string → list string) (self_agent_id agent_id : string)
    (flow flow_id : string) (route_group : RouteGroup) (route : TransitionRoute) :
  let agent := if present agent_id then agent_id else self_agent_id in
  get_flows_map dfcx agent true !! flow = Some flow_id →
  route_group ∈ list_transition_route_groups dfcx flow_id →
  route ∈ rg_transition_routes route_group →
  (∀ intent, intent ∈ list_intents dfcx agent →
             PyStr.last_segment (rs_name intent) ≠ PyStr.last_segment (tr_intent route)) →
  ∃ k, route_groups_rows dfcx text_of self_agent_id agent_id = Raise (KeyError k).
Proof.
  intros agent Hflow Hrg Hroute Hintent. unfold route_groups_rows. fold agent.
  apply not_Ok_key_error.
  { apply key_errors_mapM. intros x. apply key_errors_route_row. }
  intros rows Hrows.
  apply (mapM_Ok_elem _ _ _ (flow, route_group, route)) in Hrows as [row Hrow].
  - unfold route_row in Hrow. cbn [fst snd] in Hrow.
    apply bind_Ok_inv in Hrow as (intent & Hi & _).
    apply getitem_Ok, dict_of_lookup in Hi.
    apply list_elem_of_fmap in Hi as (listed & [= Hseg _] & Hin).
    by apply (Hintent listed Hin).
  - apply list_elem_of_bind.
    exists (flow, list_transition_route_groups dfcx flow_id). split.
    + apply list_elem_of_bind. exists route_group. split; [|done].
      apply list_elem_of_bind. exists route. split; [|done].
      apply list_elem_of_here.
    + apply list_elem_of_fmap. exists (flow, flow_id). split; [done|].
      by apply odict_of_elem.
Qed.

(** X15. When [route_groups_to_dataframe] builds its rows, every row names
    listed resources of the agent: its flow is the display name of a listed
    flow, its intent the display name of a listed intent whose identifier
    ends like the route's, and its webhook, when the row has one, the
    display name of a listed webhook. *)
Theorem X15_rows_hold_display_names (dfcx : Collaborator)
    (text_of : string → list string) (self_agent_id agent_id : string)
    (rows : list Row) :
  let agent := if present agent_id then agent_id else self_agent_id in
  route_groups_rows dfcx text_of self_agent_id agent_id = Ok rows →
  Forall (fun row =>
            (∃ flow, flow ∈ list_flows dfcx agent ∧
                     rs_display_name flow = row_flow row) ∧
            (∃ intent, intent ∈ list_intents dfcx agent ∧
                       rs_display_name intent = row_intent row) ∧
            (∀ w, row_webhook row = Some w →
                  ∃ webhook, webhook ∈ list_webhooks dfcx agent ∧
                             rs_display_name webhook = w)) rows.
Proof.
  intros agent Hrows. unfold route_groups_rows in Hrows. fold agent in Hrows.
  apply mapM_Ok in Hrows. apply Forall_forall. intros row Hin.
  apply list_elem_of_lookup in Hin as [i Hi].
  destruct (Forall2_lookup_r _ _ _ _ _ Hrows Hi) as ([[flow rg] route] & Hx & Hrow).
  apply list_elem_of_lookup_2 in Hx.
  apply list_elem_of_bind in Hx as ([flow' rgs] & Hx & Hkv).
  apply list_elem_of_bind in Hx as (rg' & Hx & _).
  apply list_elem_of_bind in Hx as (route' & Hx & _).
  apply list_elem_of_singleton in Hx. injection Hx as -> _ _.
  apply list_elem_of_fmap in Hkv as ([flow'' flow_id] & [= -> _] & Hkv).
  apply odict_of_listed, list_elem_of_fmap in Hkv as (listed & [= -> _] & Hflow).
  unfold route_row in Hrow. cbn [fst snd] in Hrow.
  apply bind_Ok_inv in Hrow as (intent & Hintent & Hrow).
  apply bind_Ok_inv in Hrow as (webhook & Hwebhook & Hrow).
  apply mret_Ok_inv in Hrow. subst row. cbn [row_flow row_intent row_webhook].
  split; [by exists listed|]. split.
  - apply getitem_Ok, dict_of_lookup in Hintent.
    apply list_elem_of_fmap in Hintent as (x & [= _ ->] & Hx). by exists x.
  - intros w ->.
    destruct (present (fulfillment_webhook (tr_trigger_fulfillment route)));
      [|by apply mret_Ok_inv in Hwebhook].
    apply bind_Ok_inv in Hwebhook as (w' & Hw & Hwebhook).
    apply mret_Ok_inv in Hwebhook. injection Hwebhook as ->.
    apply getitem_Ok, dict_of_lookup in Hw.
    apply list_elem_of_fmap in Hw as (x & [= _ ->] & Hx). by exists x.
Qed.

(** ** [find_list_parameters] *)

Lemma list_bind_nil {A B} (f : A → list B) (l : list A) :
  (∀ x, x ∈ l → f x = []) → l ≫= f = [].
Proof.
  induction l as [|x l IH]; intros Hf; [done|].
  rewrite bind_cons, (Hf x) by apply list_elem_of_here.
  apply IH. intros y Hy. apply Hf. by apply list_elem_of_further.
Qed.

Lemma key_errors_list_parameter (entities_map : gmap string string)
    (param : FormParameter) :
  key_errors (list_parameter entities_map param).
Proof. unfold list_parameter. key_errors. Qed.

(** X16. [find_list_parameters] asks for the pages of a flow under the
    flow's display name, not under its identifier. When nothing is listed
    under the display names of the agent's flows, it returns the empty
    list, whatever the pages of the flows hold. *)
Theorem X16_pages_asked_by_display_name (dfcx : Collaborator)
    (self_agent_id agent_id : string) :
  let agent := if present agent_id then agent_id else self_agent_id in
  (∀ flow, flow ∈ list_flows dfcx agent →
           list_pages dfcx (rs_display_name flow) = []) →
  find_list_parameters dfcx self_agent_id agent_id = Ok [].
Proof.
  intros agent Hpages. unfold find_list_parameters. fold agent.
  rewrite list_bind_nil; [done|].
  intros [flow_id flow] Hin.
  apply odict_of_listed, list_elem_of_fmap in Hin as (listed & [= -> ->] & Hin).
  cbn [snd]. by rewrite (Hpages listed Hin).
Qed.

Lemma elem_of_concat {A} (x : A) (ls : list (list A)) :
  x ∈ concat ls ↔ ∃ l, x ∈ l ∧ l ∈ ls.
Proof.
  induction ls as [|l ls IH]; simpl.
  - split; [intros Hin; by apply elem_of_nil in Hin|].
    intros (l & _ & Hin). by apply elem_of_nil in Hin.
  - rewrite elem_of_app, IH. split.
    + intros [Hin|(l' & Hin & Hl')].
      * exists l. split; [done|apply list_elem_of_here].
      * exists l'. split; [done|by apply list_elem_of_further].
    + intros (l' & Hin & Hl'). apply elem_of_cons in Hl' as [->|Hl']; [by left|].
      right. by exists l'.
Qed.

(** The list parameters that the function meets: those of the pages listed
    under the display name that the flows map holds for a flow. *)
Lemma find_list_parameters_traversal (dfcx : Collaborator) (agent : string)
    (param : FormParameter) :
  param ∈ (kv ← odict_of ((fun flow => (rs_name flow, rs_display_name flow))
                            <$> list_flows dfcx agent);
           page ← list_pages dfcx kv.2;
           page_parameters page)
  ↔ ∃ flow_id flow page,
      get_flows_map dfcx agent false !! flow_id = Some flow ∧
      page ∈ list_pages dfcx flow ∧ param ∈ page_parameters page.
Proof.
  rewrite list_elem_of_bind. split.
  - intros ([flow_id flow] & Hin & Hkv).
    apply list_elem_of_bind in Hin as (page & Hparam & Hpage).
    exists flow_id, flow, page. split; [|done]. by apply odict_of_elem.
  - intros (flow_id & flow & page & Hflow & Hpage & Hparam).
    exists (flow_id, flow). split; [|by apply odict_of_elem].
    apply list_elem_of_bind. by exists page.
Qed.

(** X17. When [find_list_parameters] returns, it returns display names of
    list parameters, and the display name of every list parameter it met:
    a name is returned exactly when a parameter with [is_list] set and
    that display name sits on a page listed under the display name that
    the flows map holds for a flow of the agent. *)
Theorem X17_list_parameters_found (dfcx : Collaborator)
    (self_agent_id agent_id : string) (found : list string) (name : string) :
  let agent := if present agent_id then agent_id else self_agent_id in
  find_list_parameters dfcx self_agent_id agent_id = Ok found →
  name ∈ found ↔
  ∃ flow_id flow page param,
    get_flows_map dfcx agent false !! flow_id = Some flow ∧
    page ∈ list_pages dfcx flow ∧ param ∈ page_parameters page ∧
    pa_is_list param = true ∧ pa_display_name param = name.
Proof.
  intros agent Hfound. unfold find_list_parameters in Hfound. fold agent in Hfound.
  apply bind_Ok_inv in Hfound as (each & Heach & Hfound).
  apply mret_Ok_inv in Hfound as <-. apply mapM_Ok in Heach.
  rewrite elem_of_concat. split.
  - intros (names & Hname & Hnames).
    apply list_elem_of_lookup in Hnames as [i Hi].
    destruct (Forall2_lookup_r _ _ _ _ _ Heach Hi) as (param & Hparam & Hrow).
    apply list_elem_of_lookup_2, find_list_parameters_traversal in Hparam
      as (flow_id & flow & page & Hflow & Hpage & Hparam).
    exists flow_id, flow, page, param. split; [done|]. split; [done|]. split; [done|].
    unfold list_parameter in Hrow. destruct (pa_is_list param).
    + split; [done|]. destruct (PyStr.contains _ _).
      * apply mret_Ok_inv in Hrow as <-. by apply list_elem_of_singleton in Hname.
      * apply bind_Ok_inv in Hrow as (_ & _ & Hrow).
        apply mret_Ok_inv in Hrow as <-. by apply list_elem_of_singleton in Hname.
    + apply mret_Ok_inv in Hrow as <-. by apply elem_of_nil in Hname.
  - intros (flow_id & flow & page & param & Hflow & Hpage & Hparam & Hlist & <-).
    assert (param ∈ (kv ← odict_of ((fun flow => (rs_name flow, rs_display_name flow))
                                      <$> list_flows dfcx agent);
                     page ← list_pages dfcx kv.2;
                     page_parameters page)) as Hin.
    { apply find_list_parameters_traversal. by exists flow_id, flow, page. }
    apply list_elem_of_lookup in Hin as [i Hi].
    destruct (Forall2_lookup_l _ _ _ _ _ Heach Hi) as (names & Hnames & Hrow).
    exists names. split; [|by apply list_elem_of_lookup_2 in Hnames].
    unfold list_parameter in Hrow. rewrite Hlist in Hrow.
    destruct (PyStr.contains _ _).
    + apply mret_Ok_inv in Hrow as <-. apply list_elem_of_here.
    + apply bind_Ok_inv in Hrow as (_ & _ & Hrow).
      apply mret_Ok_inv in Hrow as <-. apply list_elem_of_here.
Qed.

(** X18. A list parameter with an entity type of the agent's own stops
    [find_list_parameters]: the entity type is looked up under the last
    segment of its identifier in a map whose keys are the listed
    identifiers. When the parameter's page is among those met, the last
    segment holds no 'sys' and is not itself a listed identifier, the call
    raises a [KeyError]. *)
Theorem X18_custom_list_parameter_raises (dfcx : Collaborator)
    (self_agent_id agent_id : string) (flow_id flow : string) (page : Page)
    (param : FormParameter) :
  let agent := if present agent_id then agent_id else self_agent_id in
  get_flows_map dfcx agent false !! flow_id = Some flow →
  page ∈ list_pages dfcx flow →
  param ∈ page_parameters page →
  pa_is_list param = true →
  PyStr.contains "sys" (PyStr.last_segment (pa_entity_type param)) = false →
  (∀ entity, entity ∈ list_entity_types dfcx agent →
             rs_name entity ≠ PyStr.last_segment (pa_entity_type param)) →
  ∃ k, find_list_parameters dfcx self_agent_id agent_id = Raise (KeyError k).
Proof.
  intros agent Hflow Hpage Hparam Hlist Hsys Hentity.
  unfold find_list_parameters. fold agent.
  assert (∃ k, mapM (list_parameter (get_entities_map dfcx agent false))
                 (kv ← odict_of ((fun flow => (rs_name flow, rs_display_name flow))
                                   <$> list_flows dfcx agent);
                  page ← list_pages dfcx kv.2;
                  page_parameters page) = Raise (KeyError k)) as [k ->];
    [|by exists k].
  apply not_Ok_key_error.
  { apply key_errors_mapM. intros x. apply key_errors_list_parameter. }
  intros each Heach.
  apply (mapM_Ok_elem _ _ _ param) in Heach as [names Hnames].
  - unfold list_parameter in Hnames. rewrite Hlist, Hsys in Hnames.
    apply bind_Ok_inv in Hnames as (display & Hd & _).
    apply getitem_Ok, index_of_lookup in Hd as (entity & Hin & Hname & _).
    by apply (Hentity entity Hin).
  - apply find_list_parameters_traversal. by exists flow_id, flow, page.
Qed.

Lemma X14_rows_need_listed_intents_witness :
  ∃ k, route_groups_rows example_dfcx (fun message => [message]) "self"
         "projects/p/locations/global/agents/a" = Raise (KeyError k).
Proof.
  apply (X14_rows_need_listed_intents example_dfcx (fun message => [message]) "self"
           "projects/p/locations/global/agents/a" "Default Start Flow"
           "projects/p/locations/global/agents/a/flows/f" condition_route_group
           (mkTransitionRoute "" "$session.params.done = true" None
              "projects/p/locations/global/agents/a/flows/f/pages/END_FLOW")).
  - vm_compute. reflexivity.
  - apply list_elem_of_further, list_elem_of_here.
  - apply list_elem_of_here.
  - intros intent Hin.
    change (intent ∈ [mkResource "projects/p/locations/global/agents/a/intents/i1"
                        "Order Pizza";
                      mkResource "projects/p/locations/global/agents/a/intents/i2"
                        "Cancel"]) in Hin.
    repeat (apply elem_of_cons in Hin as [->|Hin]); [vm_compute; discriminate..|].
    by apply elem_of_nil in Hin.
Defined.

Lemma X15_rows_hold_display_names_witness :
  route_groups_rows intent_routes_dfcx (fun message => [message])
    "projects/p/locations/global/agents/a" ""
  = Ok [mkRow "Default Start Flow" "Common" "Cancel" (Some "OrderWebhook") ""
          (Some "Bye")] ∧
  Forall (fun row =>
            (∃ flow, flow ∈ list_flows intent_routes_dfcx
                              "projects/p/locations/global/agents/a" ∧
                     rs_display_name flow = row_flow row) ∧
            (∃ intent, intent ∈ list_intents intent_routes_dfcx
                                  "projects/p/locations/global/agents/a" ∧
                       rs_display_name intent = row_intent row) ∧
            (∀ w, row_webhook row = Some w →
                  ∃ webhook, webhook ∈ list_webhooks intent_routes_dfcx
                                         "projects/p/locations/global/agents/a" ∧
                             rs_display_name webhook = w))
    [mkRow "Default Start Flow" "Common" "Cancel" (Some "OrderWebhook") ""
       (Some "Bye")].
Proof.
  assert (route_groups_rows intent_routes_dfcx (fun message => [message])
            "projects/p/locations/global/agents/a" ""
          = Ok [mkRow "Default Start Flow" "Common" "Cancel" (Some "OrderWebhook") ""
                  (Some "Bye")]) as Hrows by (vm_compute; reflexivity).
  split; [exact Hrows|].
  exact (X15_rows_hold_display_names intent_routes_dfcx (fun message => [message])
           "projects/p/locations/global/agents/a" "" _ Hrows).
Defined.

Lemma X16_pages_asked_by_display_name_witness :
  find_list_parameters example_dfcx "self" "projects/p/locations/global/agents/a"
  = Ok [].
Proof.
  apply (X16_pages_asked_by_display_name example_dfcx "self"
           "projects/p/locations/global/agents/a").
  intros flow Hin.
  change (flow ∈ [mkResource "projects/p/locations/global/agents/a/flows/f"
                    "Default Start Flow"]) in Hin.
  apply list_elem_of_singleton in Hin as ->. reflexivity.
Defined.

Lemma X17_list_parameters_found_witness :
  find_list_parameters (pages_by_name_dfcx [builtin_list_page]) "self"
    "projects/p/locations/global/agents/a" = Ok ["toppings"] ∧
  ("toppings" ∈ ["toppings"] ↔
   ∃ flow_id flow page param,
     get_flows_map (pages_by_name_dfcx [builtin_list_page])
       "projects/p/locations/global/agents/a" false !! flow_id = Some flow ∧
     page ∈ list_pages (pages_by_name_dfcx [builtin_list_page]) flow ∧
     param ∈ page_parameters page ∧
     pa_is_list param = true ∧ pa_display_name param = "toppings").
Proof.
  assert (find_list_parameters (pages_by_name_dfcx [builtin_list_page]) "self"
            "projects/p/locations/global/agents/a" = Ok ["toppings"]) as Hfound
    by (vm_compute; reflexivity).
  split; [exact Hfound|].
  exact (X17_list_parameters_found (pages_by_name_dfcx [builtin_list_page]) "self"
           "projects/p/locations/global/agents/a" ["toppings"] "toppings" Hfound).
Defined.

Lemma X18_custom_list_parameter_raises_witness :
  ∃ k, find_list_parameters (pages_by_name_dfcx [custom_list_page]) "self"
         "projects/p/locations/global/agents/a" = Raise (KeyError k).
Proof.
  apply (X18_custom_list_parameter_raises (pages_by_name_dfcx [custom_list_page])
           "self" "projects/p/locations/global/agents/a"
           "projects/p/locations/global/agents/a/flows/f" "Main" custom_list_page
           (mkFormParameter "sizes"
              "projects/p/locations/global/agents/a/entityTypes/e1" true None)).
  - vm_compute. reflexivity.
  - apply list_elem_of_here.
  - apply list_elem_of_here.
  - reflexivity.
  - vm_compute. reflexivity.
  - intros entity Hin.
    change (entity ∈ [mkResource "projects/p/locations/global/agents/a/entityTypes/e1"
                        "Size"]) in Hin.
    apply list_elem_of_singleton in Hin as ->. vm_compute. discriminate.
Defined.

(** ** [GitlabFunctions] *)

(** X19. For the actions 'create' and 'update', [gl_build_actions_list]
    opens every file of the list under [content_path]: it raises exactly
    when one of them cannot be read, and otherwise returns one action per
    file, in the order of the list, for the path '/' followed by the file's
    name, with the content read. *)
Theorem X19_actions_read_every_file (read_file : string → option string)
    (action : string) (file_list : list string) (content_path : string) :
  action ∈ ["create"; "update"] →
  (gl_build_actions_list read_file action file_list content_path = None ↔
   ∃ file, file ∈ file_list ∧ read_file (content_path +:+ file) = None) ∧
  (∀ actions_list,
     gl_build_actions_list read_file action file_list content_path = Some actions_list →
     Forall2 (fun file a =>
                ac_action a = action ∧ ac_file_path a = "/" +:+ file ∧
                is_Some (ac_content a) ∧
                ac_content a = read_file (content_path +:+ file))
       file_list actions_list).
Proof.
  intros Haction. unfold gl_build_actions_list. rewrite decide_True by done. split.
  - rewrite eq_None_not_Some, mapM_is_Some. split.
    + intros Hn. apply not_Forall_Exists in Hn; [|intros file; apply _].
      apply Exists_exists in Hn as (file & Hin & Hfile). exists file. split; [done|].
      simpl in Hfile. destruct (read_file (content_path +:+ file)); [|done].
      destruct Hfile. by eexists.
    + intros (file & Hin & Hfile) Hall. rewrite Forall_forall in Hall.
      specialize (Hall file Hin). simpl in Hall. rewrite Hfile in Hall.
      by destruct Hall.
  - intros actions_list Hm. apply mapM_Some in Hm.
    eapply Forall2_impl; [exact Hm|]. intros file a Ha. simpl in Ha.
    destruct (read_file (content_path +:+ file)) as [content|]; [|done].
    injection Ha as <-. simpl. split; [done|]. split; [done|]. split; [by eexists|done].
Qed.

Lemma X19_actions_read_every_file_witness :
  gl_build_actions_list
    (fun path => if decide (path = "repo/a.json") then Some "{}" else None)
    "update" ["a.json"; "b.json"] "repo/" = None ∧
  gl_build_actions_list
    (fun path => if decide (path = "repo/a.json") then Some "{}" else None)
    "create" ["a.json"] "repo/" = Some [mkAction "create" "/a.json" (Some "{}")].
Proof.
  split.
  - apply (X19_actions_read_every_file
             (fun path => if decide (path = "repo/a.json") then Some "{}" else None)
             "update" ["a.json"; "b.json"] "repo/").
    + apply list_elem_of_further, list_elem_of_here.
    + exists "b.json". split; [apply list_elem_of_further, list_elem_of_here|].
      reflexivity.
  - destruct (gl_build_actions_list
                (fun path => if decide (path = "repo/a.json") then Some "{}" else None)
                "create" ["a.json"] "repo/") as [actions_list|] eqn:Hb.
    + pose proof (proj2 (X19_actions_read_every_file
                           (fun path => if decide (path = "repo/a.json")
                                        then Some "{}" else None)
                           "create" ["a.json"] "repo/" (list_elem_of_here _ _))
                    actions_list Hb) as Hall.
      apply Forall2_cons_inv_l in Hall as ([a p c] & rest & (Ha & Hp & _ & Hc) & Hrest & ->).
      apply Forall2_nil_inv_l in Hrest as ->. simpl in Ha, Hp, Hc. by subst.
    + discriminate Hb.
Defined.

(** ** The dependency extractor on any list of pages *)

Lemma append_to_elem (k v : string) (r : gmap string (list string)) (key x : string) :
  x ∈ default [] (append_to k v r !! key) ↔
  x ∈ default [] (r !! key) ∨ (key = k ∧ x = v).
Proof.
  destruct (decide (k = key)) as [->|Hne].
  - rewrite append_to_lookup. simpl. rewrite elem_of_app, list_elem_of_singleton.
    split; intros [Hin|Hin]; auto. by destruct Hin as [_ ->]; right.
  - rewrite append_to_lookup_ne by done. split; [by left|].
    intros [Hin|[-> _]]; done.
Qed.

Lemma foldl_elem {X} (g : gmap string (list string) → X → gmap string (list string))
    (C : X → string → string → Prop) (l : list X) :
  (∀ r a key x, x ∈ default [] (g r a !! key) ↔ x ∈ default [] (r !! key) ∨ C a key x) →
  ∀ r key x, x ∈ default [] (foldl g r l !! key) ↔
             x ∈ default [] (r !! key) ∨ ∃ a, a ∈ l ∧ C a key x.
Proof.
  intros Hg. induction l as [|a l IH]; intros r key x; simpl.
  - split; [by left|]. intros [Hin|(a & Hin & _)]; [done|].
    by apply elem_of_nil in Hin.
  - rewrite IH, Hg. split.
    + intros [[Hin|Hc]|(a' & Hin & Hc)].
      * by left.
      * right. exists a. split; [apply list_elem_of_here|done].
      * right. exists a'. split; [by apply list_elem_of_further|done].
    + intros [Hin|(a' & Hin & Hc)]; [by left; left|].
      apply elem_of_cons in Hin as [->|Hin]; [by left; right|].
      right. by exists a'.
Qed.

Lemma route_dependencies_elem (r : gmap string (list string)) (tr : TransitionRoute)
    (key x : string) :
  x ∈ default [] (route_dependencies r tr !! key) ↔
  x ∈ default [] (r !! key) ∨
  ((key = "intents" ∧ x ≠ "" ∧ tr_intent tr = x) ∨
   (key = "webhooks" ∧ x ≠ "" ∧ tr_intent tr = "" ∧ tr_condition tr ≠ "" ∧
    fulfillment_webhook (tr_trigger_fulfillment tr) = x)).
Proof.
  unfold route_dependencies, has_webhook.
  destruct (present (tr_intent tr)) eqn:Hi.
  { apply present_true in Hi. rewrite append_to_elem. split.
    - intros [Hin|[-> ->]]; [by left|]. right. by left.
    - intros [Hin|[(-> & _ & <-)|(_ & _ & He & _)]]; [by left|by right|done]. }
  apply present_false in Hi.
  destruct (present (tr_condition tr)) eqn:Hc; simpl.
  2:{ apply present_false in Hc. split; [by left|].
      intros [Hin|[(_ & Hx & He)|(_ & _ & _ & Hn & _)]]; [done|congruence|done]. }
  apply present_true in Hc.
  destruct (present (fulfillment_webhook (tr_trigger_fulfillment tr))) eqn:Hw.
  - apply present_true in Hw. rewrite append_to_elem. split.
    + intros [Hin|[-> ->]]; [by left|]. right. by right.
    + intros [Hin|[(_ & Hx & He)|(-> & _ & _ & _ & <-)]];
        [by left|congruence|by right].
  - apply present_false in Hw. split; [by left|].
    intros [Hin|[(_ & Hx & He)|(_ & Hx & _ & _ & He)]]; [done|congruence..].
Qed.

Lemma parameter_dependencies_elem (r : gmap string (list string))
    (param : FormParameter) (key x : string) :
  x ∈ default [] (parameter_dependencies r param !! key) ↔
  x ∈ default [] (r !! key) ∨
  (key = "entities" ∧ PyStr.contains "sys." x = false ∧ pa_entity_type param = x).
Proof.
  unfold parameter_dependencies.
  destruct (PyStr.contains "sys." (pa_entity_type param)) eqn:Hs.
  - split; [by left|]. intros [Hin|(_ & Hx & He)]; [done|congruence].
  - rewrite append_to_elem. split.
    + intros [Hin|[-> ->]]; [by left|by right].
    + intros [Hin|(-> & _ & <-)]; [by left|by right].
Qed.

Lemma route_group_intents_elem (trg : string) (r : gmap string (list string))
    (rg : RouteGroup) (key x : string) :
  x ∈ default [] (route_group_intents trg r rg !! key) ↔
  x ∈ default [] (r !! key) ∨
  (key = "intents" ∧ rg_name rg = trg ∧
   ∃ tr, tr ∈ rg_transition_routes rg ∧ tr_intent tr = x).
Proof.
  unfold route_group_intents. destruct (decide (trg = rg_name rg)) as [->|Hne].
  - rewrite (foldl_elem (fun r tr => append_to "intents" (tr_intent tr) r)
               (fun tr key x => key = "intents" ∧ x = tr_intent tr)).
    + split.
      * intros [Hin|(tr & Hin & -> & ->)]; [by left|]. right.
        split; [done|]. split; [done|]. by exists tr.
      * intros [Hin|(-> & _ & tr & Hin & <-)]; [by left|]. right. by exists tr.
    + intros r' tr key' x'. apply append_to_elem.
  - split; [by left|]. intros [Hin|(_ & He & _)]; [done|congruence].
Qed.

Lemma route_group_dependencies_elem (route_groups : list RouteGroup)
    (r : gmap string (list string)) (trg key x : string) :
  x ∈ default [] (route_group_dependencies route_groups r trg !! key) ↔
  x ∈ default [] (r !! key) ∨
  ((key = "route_groups" ∧ x = trg) ∨
   (key = "intents" ∧
    ∃ rg tr, rg_name rg = trg ∧ rg ∈ route_groups ∧
             tr ∈ rg_transition_routes rg ∧ tr_intent tr = x)).
Proof.
  unfold route_group_dependencies.
  rewrite (foldl_elem (route_group_intents trg)
             (fun rg key x => key = "intents" ∧ rg_name rg = trg ∧
                              ∃ tr, tr ∈ rg_transition_routes rg ∧ tr_intent tr = x)).
  2:{ intros r' rg key' x'. apply route_group_intents_elem. }
  rewrite append_to_elem. split.
  - intros [[Hin|[-> ->]]|(rg & Hin & -> & Hn & tr & Htr & Hx)].
    + by left.
    + right. by left.
    + right. right. split; [done|]. by exists rg, tr.
  - intros [Hin|[[-> ->]|(-> & rg & tr & Hn & Hin & Htr & Hx)]].
    + left. by left.
    + left. by right.
    + right. exists rg. split; [done|]. split; [done|]. split; [done|]. by exists tr.
Qed.

Lemma page_dependencies_elem (route_groups : list RouteGroup)
    (r : gmap string (list string)) (page : Page) (key x : string) :
  x ∈ default [] (page_dependencies route_groups r page !! key) ↔
  x ∈ default [] (r !! key) ∨ page_gives route_groups page key x.
Proof.
  unfold page_dependencies.
  rewrite (foldl_elem (route_group_dependencies route_groups)
             (fun trg key x =>
                (key = "route_groups" ∧ x = trg) ∨
                (key = "intents" ∧
                 ∃ rg tr, rg_name rg = trg ∧ rg ∈ route_groups ∧
                          tr ∈ rg_transition_routes rg ∧ tr_intent tr = x))).
  2:{ intros r' trg key' x'. apply route_group_dependencies_elem. }
  assert (x ∈ default []
                (match pg_form page with
                 | Some fo =>
                     foldl parameter_dependencies
                       (foldl route_dependencies
                          (if has_webhook (pg_entry_fulfillment page)
                           then append_to "webhooks"
                                  (fulfillment_webhook (pg_entry_fulfillment page)) r
                           else r) (pg_transition_routes page)) (fo_parameters fo)
                 | None =>
                     foldl route_dependencies
                       (if has_webhook (pg_entry_fulfillment page)
                        then append_to "webhooks"
                               (fulfillment_webhook (pg_entry_fulfillment page)) r
                        else r) (pg_transition_routes page)
                 end !! key) ↔
          (x ∈ default [] (r !! key) ∨
           (key = "webhooks" ∧ x ≠ "" ∧
            fulfillment_webhook (pg_entry_fulfillment page) = x)) ∨
          (∃ tr, tr ∈ pg_transition_routes page ∧
                 ((key = "intents" ∧ x ≠ "" ∧ tr_intent tr = x) ∨
                  (key = "webhooks" ∧ x ≠ "" ∧ tr_intent tr = "" ∧
                   tr_condition tr ≠ "" ∧
                   fulfillment_webhook (tr_trigger_fulfillment tr) = x))) ∨
          (∃ param, param ∈ page_parameters page ∧
                    key = "entities" ∧ PyStr.contains "sys." x = false ∧
                    pa_entity_type param = x)) as ->.
  { assert (∀ r0, x ∈ default []
                        (foldl route_dependencies r0 (pg_transition_routes page) !! key) ↔
                  x ∈ default [] (r0 !! key) ∨
                  ∃ tr, tr ∈ pg_transition_routes page ∧
                        ((key = "intents" ∧ x ≠ "" ∧ tr_intent tr = x) ∨
                         (key = "webhooks" ∧ x ≠ "" ∧ tr_intent tr = "" ∧
                          tr_condition tr ≠ "" ∧
                          fulfillment_webhook (tr_trigger_fulfillment tr) = x)))
      as Hroutes.
    { intros r0.
      apply (foldl_elem route_dependencies
               (fun tr key x =>
                  (key = "intents" ∧ x ≠ "" ∧ tr_intent tr = x) ∨
                  (key = "webhooks" ∧ x ≠ "" ∧ tr_intent tr = "" ∧
                   tr_condition tr ≠ "" ∧
                   fulfillment_webhook (tr_trigger_fulfillment tr) = x))).
      intros r' tr key' x'. apply route_dependencies_elem. }
    assert (x ∈ default []
                  ((if has_webhook (pg_entry_fulfillment page)
                    then append_to "webhooks"
                           (fulfillment_webhook (pg_entry_fulfillment page)) r
                    else r) !! key) ↔
            x ∈ default [] (r !! key) ∨
            (key = "webhooks" ∧ x ≠ "" ∧
             fulfillment_webhook (pg_entry_fulfillment page) = x)) as Hentry.
    { unfold has_webhook.
      destruct (present (fulfillment_webhook (pg_entry_fulfillment page))) eqn:Hw.
      - apply present_true in Hw. rewrite append_to_elem. split.
        + intros [Hin|[-> ->]]; [by left|by right].
        + intros [Hin|(-> & _ & <-)]; [by left|by right].
      - apply present_false in Hw. split; [by left|].
        intros [Hin|(_ & Hx & He)]; [done|congruence]. }
    unfold page_parameters. destruct (pg_form page) as [fo|].
    - rewrite (foldl_elem parameter_dependencies
                 (fun param key x =>
                    key = "entities" ∧ PyStr.contains "sys." x = false ∧
                    pa_entity_type param = x)).
      2:{ intros r' param key' x'. apply parameter_dependencies_elem. }
      rewrite Hroutes, Hentry. tauto.
    - rewrite Hroutes, Hentry. split; [tauto|].
      intros [H|[H|(param & Hin & _)]]; [tauto..|]. by apply elem_of_nil in Hin. }
  unfold page_gives. split.
  - intros [[[Hin|(-> & Hx & He)]|[(tr & Hin & [(-> & Hx & He)|(-> & Hx & Hi & Hc & He)])
                                  |(param & Hin & -> & Hs & He)]]
           |(trg & Hin & [[-> ->]|(-> & rg & tr & Hn & Hrg & Htr & He)])].
    + by left.
    + right. left. split; [done|]. split; [done|]. by left.
    + right. right. left. split; [done|]. left. split; [done|]. by exists tr.
    + right. left. split; [done|]. split; [done|]. right. by exists tr.
    + right. right. right. left. split; [done|]. split; [done|]. by exists param.
    + right. right. right. right. done.
    + right. right. left. split; [done|]. right. exists rg, tr. by rewrite Hn.
  - intros [Hin|[(-> & Hx & [He|(tr & Hin & Hi & Hc & He)])
                |[(-> & [(Hx & tr & Hin & He)|(rg & tr & Hn & Hrg & Htr & He)])
                 |[(-> & Hs & param & Hin & He)|(-> & Hin)]]]].
    + left. left. by left.
    + left. left. right. done.
    + left. right. left. exists tr. split; [done|]. right. done.
    + left. right. left. exists tr. split; [done|]. left. done.
    + right. exists (rg_name rg). split; [done|]. right. split; [done|].
      by exists rg, tr.
    + left. right. right. by exists param.
    + right. exists x. split; [done|]. by left.
Qed.

Lemma categories_only_append_to (k v : string) (r : gmap string (list string)) :
  k ∈ ["webhooks"; "intents"; "entities"; "route_groups"] →
  categories_only r → categories_only (append_to k v r).
Proof.
  intros Hk Hr key l. destruct (decide (k = key)) as [->|Hne].
  - rewrite append_to_lookup. intros [= <-]. split; [done|].
    by destruct (default [] (r !! key)).
  - rewrite append_to_lookup_ne by done. apply Hr.
Qed.

Lemma categories_only_foldl {X}
    (g : gmap string (list string) → X → gmap string (list string)) (l : list X) :
  (∀ r a, categories_only r → categories_only (g r a)) →
  ∀ r, categories_only r → categories_only (foldl g r l).
Proof.
  intros Hg. induction l as [|a l IH]; intros r Hr; simpl; [done|].
  by apply IH, Hg.
Qed.

Lemma categories_only_page_dependencies (route_groups : list RouteGroup)
    (r : gmap string (list string)) (page : Page) :
  categories_only r → categories_only (page_dependencies route_groups r page).
Proof.
  intros Hr. unfold page_dependencies.
  apply categories_only_foldl.
  { intros r' trg Hr'. unfold route_group_dependencies.
    apply categories_only_foldl.
    - intros r'' rg Hr''. unfold route_group_intents. destruct (decide _); [|done].
      apply categories_only_foldl; [|done].
      intros r3 tr Hr3. apply categories_only_append_to; [|done].
      apply list_elem_of_further, list_elem_of_here.
    - apply categories_only_append_to; [|done]. repeat constructor. }
  assert (categories_only
            (foldl route_dependencies
               (if has_webhook (pg_entry_fulfillment page)
                then append_to "webhooks"
                       (fulfillment_webhook (pg_entry_fulfillment page)) r
                else r) (pg_transition_routes page))) as Hroutes.
  { apply categories_only_foldl.
    - intros r' tr Hr'. unfold route_dependencies.
      destruct (present (tr_intent tr)).
      + apply categories_only_append_to; [|done].
        apply list_elem_of_further, list_elem_of_here.
      + destruct (_ && _); [|done].
        apply categories_only_append_to; [|done]. apply list_elem_of_here.
    - destruct (has_webhook _); [|done].
      apply categories_only_append_to; [|done]. apply list_elem_of_here. }
  destruct (pg_form page) as [fo|]; [|done].
  apply categories_only_foldl; [|done].
  intros r' param Hr'. unfold parameter_dependencies.
  destruct (PyStr.contains _ _); [done|].
  apply categories_only_append_to; [|done]. repeat constructor.
Qed.

(** X20. What [get_page_dependencies] collects, for any pages: a value is
    in the set of a category exactly when one of the pages gives it. The
    webhooks are those of the entry fulfillments and of the routes that
    have a condition and no intent; the intents are those of the pages'
    routes and of all routes, with or without an intent, of the listed
    route groups that a page refers to; the entities are the entity types
    of the form parameters that do not hold 'sys.'; the route groups are
    the ones the pages refer to. Webhooks of intent routes, of event
    handlers and of reprompt handlers are not collected. *)
Theorem X20_dependencies_collected (dfcx : Collaborator) (first : Page)
    (rest : list Page) :
  ∃ deps,
    page_list_dependencies dfcx (first :: rest) = Ok deps ∧
    ∀ key x,
      x ∈ default ∅ (deps !! key) ↔
      ∃ page, page ∈ first :: rest ∧
              page_gives (list_transition_route_groups dfcx
                            (flow_of_page_name (pg_name first))) page key x.
Proof.
  eexists. split; [reflexivity|]. intros key x.
  rewrite lookup_fmap.
  pose proof (foldl_elem
                (page_dependencies (list_transition_route_groups dfcx
                                      (flow_of_page_name (pg_name first))))
                (fun page key x =>
                   page_gives (list_transition_route_groups dfcx
                                 (flow_of_page_name (pg_name first))) page key x)
                (first :: rest)) as Hall.
  specialize (Hall (fun r page key x => page_dependencies_elem _ r page key x) ∅ key x).
  rewrite lookup_empty in Hall. simpl in Hall.
  assert (x ∈ default ∅ (list_to_set (C := gset string) <$>
                           foldl (page_dependencies
                                    (list_transition_route_groups dfcx
                                       (flow_of_page_name (pg_name first))))
                             ∅ (first :: rest) !! key) ↔
          x ∈ default [] (foldl (page_dependencies
                                   (list_transition_route_groups dfcx
                                      (flow_of_page_name (pg_name first))))
                            ∅ (first :: rest) !! key)) as ->.
  { destruct (foldl _ _ _ !! key) as [l|]; simpl.
    - apply elem_of_list_to_set.
    - split; intros Hin; [by apply elem_of_empty in Hin|by apply elem_of_nil in Hin]. }
  rewrite Hall. split.
  - intros [Hin|Hgives]; [by apply elem_of_nil in Hin|done].
  - intros Hgives. by right.
Qed.

(** X21. The dictionary that [get_page_dependencies] returns has no key
    besides 'webhooks', 'intents', 'entities' and 'route_groups', and a
    category that nothing was collected for has no key: no key holds an
    empty set. *)
Theorem X21_only_collected_categories (dfcx : Collaborator) (obj_list : list Page)
    (deps : gmap string (gset string)) (key : string) (ids : gset string) :
  page_list_dependencies dfcx obj_list = Ok deps →
  deps !! key = Some ids →
  key ∈ ["webhooks"; "intents"; "entities"; "route_groups"] ∧ ids ≠ ∅.
Proof.
  unfold page_list_dependencies. destruct obj_list as [|first rest]; [discriminate|].
  intros Hdeps. apply mret_Ok_inv in Hdeps as <-.
  rewrite lookup_fmap. intros Hkey.
  apply fmap_Some in Hkey as (l & Hl & ->).
  assert (categories_only
            (foldl (page_dependencies
                      (list_transition_route_groups dfcx
                         (flow_of_page_name (pg_name first)))) ∅ (first :: rest)))
    as Hcat.
  { apply categories_only_foldl.
    - intros r page. apply categories_only_page_dependencies.
    - intros key' l'. by rewrite lookup_empty. }
  destruct (Hcat key l Hl) as [Hk Hne]. split; [done|].
  destruct l as [|x l]; [done|]. intros Hempty.
  assert (x ∈ (list_to_set (x :: l) : gset string)) as Hin.
  { apply elem_of_list_to_set, list_elem_of_here. }
  rewrite Hempty in Hin. by apply elem_of_empty in Hin.
Qed.

Lemma X20_dependencies_collected_witness :
  ∃ deps,
    page_list_dependencies example_dfcx [example_page] = Ok deps ∧
    "projects/p/locations/global/agents/a/webhooks/w1"
      ∈ default ∅ (deps !! "webhooks") ∧
    "projects/p/locations/global/agents/a/webhooks/w2"
      ∉ default ∅ (deps !! "webhooks").
Proof.
  destruct (X20_dependencies_collected example_dfcx example_page [])
    as (deps & Hdeps & Hiff).
  exists deps. split; [exact Hdeps|]. split.
  - apply Hiff. exists example_page. split; [apply list_elem_of_here|].
    left. split; [reflexivity|]. split; [discriminate|]. left. reflexivity.
  - intros Hin. apply Hiff in Hin as (page & Hpage & Hgives).
    apply list_elem_of_singleton in Hpage as ->.
    destruct Hgives as [(_ & _ & [He|(tr & Hin & Hi & _)])
                       |[(Hk & _)|[(Hk & _)|(Hk & _)]]]; try discriminate.
    apply list_elem_of_singleton in Hin as ->. discriminate.
Defined.

Lemma X21_only_collected_categories_witness :
  page_list_dependencies example_dfcx [sentinel_page] = Ok ∅ ∧
  "entities" ∈ ["webhooks"; "intents"; "entities"; "route_groups"] ∧
  ({["projects/p/locations/global/agents/a/entityTypes/e1"]} : gset string) ≠ ∅.
Proof.
  split; [vm_compute; reflexivity|].
  apply (X21_only_collected_categories example_dfcx [example_page]
           (<["webhooks" := {["projects/p/locations/global/agents/a/webhooks/w1"]}]>
              (<["intents" := {["projects/p/locations/global/agents/a/intents/i1";
                                "projects/p/locations/global/agents/a/intents/i2"]}]>
                 (<["entities" :=
                      {["projects/p/locations/global/agents/a/entityTypes/e1"]}]>
                    {["route_groups" :=
                        {["projects/p/locations/global/agents/a/flows/f/transitionRouteGroups/rg1"]}]})))
           "entities").
  - vm_compute. reflexivity.
  - vm_compute. reflexivity.
Defined.

(** ** The rewriter as a whole *)

Section Runs.
Context {O : Type} `{Inhabited O}.

Lemma mutate_run (body : O → result O) (l : loc) (p : O) (h : gmap loc O) :
  h !! l = Some p →
  mutate body l h
  = match body p with
    | Ok p' => (<[l := p']> h, Ok tt)
    | Raise e => (h, Raise e)
    end.
Proof.
  intros Hl. unfold mutate, mbind, M_bind, read, lift, write.
  rewrite (lookup_total_correct _ _ _ Hl). by destruct (body p).
Qed.

Lemma for_each_cons (body : O → result O) (l : loc) (ls : list loc) (p : O)
    (h : gmap loc O) :
  h !! l = Some p →
  for_each body (l :: ls) h
  = match body p with
    | Ok p' => for_each body ls (<[l := p']> h)
    | Raise e => (h, Raise e)
    end.
Proof.
  intros Hl. cbn [for_each]. unfold mbind, M_bind. rewrite (mutate_run _ _ _ _ Hl).
  by destruct (body p).
Qed.

Lemma for_each_run (body : O → result O) (ls : list loc) (ps : list O)
    (h : gmap loc O) :
  NoDup ls → Forall2 (fun l p => h !! l = Some p) ls ps →
  match mapM body ps with
  | Ok ps' =>
      ∃ h', for_each body ls h = (h', Ok tt) ∧
            Forall2 (fun l p' => h' !! l = Some p') ls ps' ∧
            ∀ l, l ∉ ls → h' !! l = h !! l
  | Raise e => (for_each body ls h).2 = Raise e
  end.
Proof.
  revert ps h. induction ls as [|l ls IH]; intros ps h Hnd Hps.
  - apply Forall2_nil_inv_l in Hps as ->. simpl. exists h. by repeat split.
  - apply Forall2_cons_inv_l in Hps as (p & ps0 & Hl & Hps & ->).
    apply NoDup_cons in Hnd as [Hnin Hnd].
    rewrite (for_each_cons _ _ _ _ _ Hl).
    cbn [mapM]. destruct (body p) as [p'|e]; [|done].
    assert (Forall2 (fun l0 p0 => <[l := p']> h !! l0 = Some p0) ls ps0) as Hps'.
    { apply Forall2_same_length_lookup. split; [by eapply Forall2_length|].
      intros i l0 p0 Hl0 Hp0. rewrite lookup_insert_ne.
      - by apply (Forall2_lookup_lr _ _ _ _ _ _ Hps Hl0 Hp0).
      - intros ->. by apply list_elem_of_lookup_2 in Hl0. }
    specialize (IH ps0 (<[l := p']> h) Hnd Hps').
    unfold mbind at 1, result_bind at 1.
    destruct (mapM body ps0) as [ps0'|e]; [|done].
    destruct IH as (h' & Hrun & Hall & Hframe).
    exists h'. split; [done|]. split.
    + constructor; [|done]. rewrite (Hframe l Hnin). apply lookup_insert_eq.
    + intros l0 Hl0. apply not_elem_of_cons in Hl0 as [Hne Hl0].
      rewrite (Hframe l0 Hl0). by apply lookup_insert_ne.
Qed.

Lemma deepcopy_list_NoDup (ls : list loc) (memo : gmap loc loc) (h : gmap loc O) :
  NoDup ls → (∀ l, l ∈ ls → memo !! l = None) → (∀ l, l ∈ ls → is_Some (h !! l)) →
  ∃ h' ls',
    deepcopy_list memo ls h = (h', Ok ls') ∧ h ⊆ h' ∧ NoDup ls' ∧
    Forall (fun l' => h !! l' = None) ls' ∧
    Forall2 (fun l l' => h' !! l' = Some (h !!! l)) ls ls'.
Proof.
  revert memo h. induction ls as [|l ls IH]; intros memo h Hnd Hmemo Hin.
  - exists h, []. split; [done|]. split; [done|]. split; [apply NoDup_nil_2|].
    split; constructor.
  - apply NoDup_cons in Hnd as [Hnin Hnd]. cbn [deepcopy_list].
    rewrite (Hmemo l) by apply list_elem_of_here.
    unfold mbind at 1, M_bind at 1. rewrite deepcopy_spec.
    set (l' := fresh (dom h)). set (h1 := <[l' := h !!! l]> h).
    assert (h ⊆ h1) as Hh1 by apply insert_subseteq, fresh_lookup.
    destruct (IH (<[l := l']> memo) h1 Hnd) as (h' & ls' & Hc & Hsub & Hnd' & Hnew & Hall).
    { intros l0 Hl0. rewrite lookup_insert_ne; [|by intros ->].
      by apply Hmemo, list_elem_of_further. }
    { intros l0 Hl0. destruct (Hin l0) as [o Ho]; [by apply list_elem_of_further|].
      exists o. by apply (lookup_weaken _ _ _ _ Ho). }
    exists h', (l' :: ls'). unfold mbind, M_bind. rewrite Hc. cbn beta iota.
    split; [done|]. split; [by etrans|]. split; [|split].
    + apply NoDup_cons. split; [|done]. intros Hl'.
      rewrite Forall_forall in Hnew. specialize (Hnew l' Hl').
      unfold h1 in Hnew. by rewrite lookup_insert_eq in Hnew.
    + constructor; [apply fresh_lookup|].
      eapply Forall_impl; [exact Hnew|]. intros l2 Hl2.
      destruct (h !! l2) as [o|] eqn:Ho; [|done].
      apply (lookup_weaken _ _ _ _ Ho) in Hh1. congruence.
    + constructor.
      * apply (lookup_weaken h1); [|done]. apply lookup_insert_eq.
      * apply Forall2_same_length_lookup. split; [by eapply Forall2_length|].
        intros i l0 l0' Hl0 Hl0'.
        rewrite (Forall2_lookup_lr _ _ _ _ _ _ Hall Hl0 Hl0'). f_equal.
        destruct (Hin l0) as [o Ho].
        { apply list_elem_of_further. by apply list_elem_of_lookup_2 in Hl0. }
        rewrite (lookup_total_correct _ _ _ Ho).
        apply lookup_total_correct. by apply (lookup_weaken _ _ _ _ Ho).
Qed.

End Runs.

Lemma convert_page_dependencies_run (dfcx : Collaborator)
    (agent_id agent_type flow flow_id : string) (pages : list loc) (h : gmap loc Page) :
  agent_type = "source" ∨ agent_type = "destination" →
  get_flows_map dfcx agent_id true !! flow = Some flow_id →
  convert_page_dependencies dfcx agent_id pages agent_type flow h
  = match deepcopy_list ∅ pages h with
    | (h1, Ok pages_mod) =>
        match for_each (page_pass dfcx agent_id agent_type flow_id) pages_mod h1 with
        | (h2, Ok _) => (h2, Ok pages_mod)
        | (h2, Raise e) => (h2, Raise e)
        end
    | (h1, Raise e) => (h1, Raise e)
    end.
Proof.
  intros Htype Hflow. apply getitem_Ok in Hflow.
  unfold convert_page_dependencies, mbind, M_bind, lift, mret, M_ret.
  destruct (deepcopy_list ∅ pages h) as [h1 [pages_mod|e]]; [|done].
  unfold page_pass. destruct Htype as [-> | ->].
  - destruct (decide ("source" = "source")) as [_|]; [|done].
    destruct (decide ("source" = "destination")) as [|_]; [done|].
    rewrite Hflow.
    by destruct (for_each _ pages_mod h1) as [h2 [[]|e]].
  - destruct (decide ("destination" = "source")) as [|_]; [done|].
    destruct (decide ("destination" = "destination")) as [_|]; [|done].
    rewrite Hflow.
    by destruct (for_each _ pages_mod h1) as [h2 [[]|e]].
Qed.

(** X22. What [convert_page_dependencies] returns, for different pages of
    the store, a known [agent_type] and a known flow: when the pass of the
    direction goes through on every page, the call returns one new object
    per page, in the order of the list, holding the pass of that page; when
    the pass raises on a page, the call raises the same exception. *)
Theorem X22_copies_hold_the_passes (dfcx : Collaborator)
    (agent_id agent_type flow flow_id : string) (pages : list loc) (h : gmap loc Page)
    (known_type : agent_type = "source" ∨ agent_type = "destination")
    (known_flow : get_flows_map dfcx agent_id true !! flow = Some flow_id)
    (different : NoDup pages)
    (stored : ∀ l, l ∈ pages → is_Some (h !! l)) :
  match mapM (page_pass dfcx agent_id agent_type flow_id) ((h !!!.) <$> pages) with
  | Ok converted =>
      ∃ h' pages_mod,
        convert_page_dependencies dfcx agent_id pages agent_type flow h
        = (h', Ok pages_mod) ∧
        Forall2 (fun l' page' => h' !! l' = Some page') pages_mod converted
  | Raise e =>
      (convert_page_dependencies dfcx agent_id pages agent_type flow h).2 = Raise e
  end.
Proof.
  rewrite (convert_page_dependencies_run _ _ _ _ _ _ _ known_type known_flow).
  destruct (deepcopy_list_NoDup pages ∅ h different)
    as (h1 & pages_mod & -> & _ & Hnd & _ & Hall); [done|exact stored|].
  assert (Forall2 (fun l' p => h1 !! l' = Some p) pages_mod ((h !!!.) <$> pages)) as Hps.
  { apply Forall2_fmap_r, Forall2_flip. exact Hall. }
  pose proof (for_each_run (page_pass dfcx agent_id agent_type flow_id) pages_mod _ h1
                Hnd Hps) as Hrun.
  destruct (mapM (page_pass dfcx agent_id agent_type flow_id) ((h !!!.) <$> pages))
    as [converted|e].
  - destruct Hrun as (h2 & -> & Hconverted & _). by exists h2, pages_mod.
  - destruct (for_each _ pages_mod h1) as [h2 [[]|e']]; simpl in Hrun; [done|].
    by injection Hrun as ->.
Qed.


(** X24. The arguments [agent_type] and [flow] of the two rewriters. With
    an [agent_type] that is neither 'source' nor 'destination' the call
    makes no lookup at all and returns the deep copy as it is, for any
    flow. With one of the two, a flow that the agent does not list makes
    the call raise a [KeyError] for the flow, even on an empty list of
    pages. *)
Theorem X24_agent_type_and_flow (dfcx : Collaborator) (agent_id agent_type flow : string)
    (pages : list loc) (start_page : loc) (h : gmap loc Page) (hs : gmap loc StartPage) :
  (agent_type ≠ "source" → agent_type ≠ "destination" →
   convert_page_dependencies dfcx agent_id pages agent_type flow h
   = deepcopy_list ∅ pages h ∧
   convert_start_page_dependencies dfcx agent_id start_page agent_type flow hs
   = deepcopy start_page hs) ∧
  (agent_type = "source" ∨ agent_type = "destination" →
   get_flows_map dfcx agent_id true !! flow = None →
   (convert_page_dependencies dfcx agent_id pages agent_type flow h).2
   = Raise (KeyError flow) ∧
   (convert_start_page_dependencies dfcx agent_id start_page agent_type flow hs).2
   = Raise (KeyError flow)).
Proof.
  split.
  - intros Hs Hd.
    unfold convert_page_dependencies, convert_start_page_dependencies.
    destruct (decide (agent_type = "source")) as [|_]; [done|].
    destruct (decide (agent_type = "destination")) as [|_]; [done|].
    unfold mbind, M_bind, mret, M_ret. split.
    + by destruct (deepcopy_list ∅ pages h) as [h1 [pages_mod|e]].
    + by destruct (deepcopy start_page hs) as [h1 [page_mod|e]].
  - intros Htype Hflow. apply getitem_miss in Hflow.
    unfold convert_page_dependencies, convert_start_page_dependencies.
    destruct (deepcopy_list_spec pages ∅ h) as (h1 & pages_mod & Hc & _).
    unfold mbind, M_bind, lift. rewrite Hc, deepcopy_spec.
    destruct Htype as [-> | ->].
    + destruct (decide ("source" = "source")) as [_|]; [|done].
      by rewrite Hflow.
    + destruct (decide ("destination" = "source")) as [|_]; [done|].
      destruct (decide ("destination" = "destination")) as [_|]; [|done].
      by rewrite Hflow.
Qed.

(** X25. In the destination direction the page's own display name is looked
    up before anything else: when the first page of the list has no page of
    its display name in the destination flow (its shell was not created),
    the call raises a [KeyError] for that display name. *)
Theorem X25_destination_needs_the_shell (dfcx : Collaborator)
    (agent_id flow flow_id : string) (l : loc) (rest : list loc) (page : Page)
    (h : gmap loc Page)
    (known_flow : get_flows_map dfcx agent_id true !! flow = Some flow_id)
    (different : NoDup (l :: rest))
    (stored : ∀ l0, l0 ∈ l :: rest → is_Some (h !! l0))
    (first : h !! l = Some page)
    (no_shell : get_pages_map dfcx flow_id true !! pg_display_name page = None) :
  (convert_page_dependencies dfcx agent_id (l :: rest) "destination" flow h).2
  = Raise (KeyError (pg_display_name page)).
Proof.
  rewrite (convert_page_dependencies_run _ _ _ _ flow_id) by (by right || done).
  destruct (deepcopy_list_NoDup (l :: rest) ∅ h different)
    as (h1 & pages_mod & -> & _ & Hnd & _ & Hall); [done|exact stored|].
  apply Forall2_cons_inv_l in Hall as (l' & rest' & Hl' & _ & ->).
  rewrite (lookup_total_correct _ _ _ first) in Hl'.
  rewrite (for_each_cons _ _ _ _ _ Hl').
  unfold page_pass at 1.
  destruct (decide ("destination" = "source")) as [|_]; [done|].
  unfold destination_page. by rewrite (getitem_miss _ _ no_shell).
Qed.

Lemma X22_copies_hold_the_passes_witness :
  ∃ h' pages_mod,
    convert_page_dependencies example_dfcx "projects/p/locations/global/agents/a"
      [1%positive] "source" "Default Start Flow" {[1%positive := example_page]}
    = (h', Ok pages_mod) ∧
    Forall2 (fun l' page' => h' !! l' = Some page') pages_mod [example_page_portable].
Proof.
  assert (get_flows_map example_dfcx "projects/p/locations/global/agents/a" true
            !! "Default Start Flow"
          = Some "projects/p/locations/global/agents/a/flows/f") as Hflow
    by (vm_compute; reflexivity).
  assert (∀ l, l ∈ [1%positive] →
               is_Some (({[1%positive := example_page]} : gmap loc Page) !! l))
    as Hstored.
  { intros l Hl. apply list_elem_of_singleton in Hl as ->.
    exists example_page. apply lookup_singleton_eq. }
  exact (X22_copies_hold_the_passes example_dfcx
           "projects/p/locations/global/agents/a" "source" "Default Start Flow"
           "projects/p/locations/global/agents/a/flows/f" [1%positive]
           {[1%positive := example_page]} (or_introl eq_refl) Hflow
           (NoDup_singleton 1%positive) Hstored).
Defined.


Lemma X24_agent_type_and_flow_witness :
  (convert_page_dependencies example_dfcx "projects/p/locations/global/agents/a"
     [1%positive] "Source" "No Such Flow" {[1%positive := example_page]}
   = (<[2%positive := example_page]> {[1%positive := example_page]},
      Ok [2%positive])) ∧
  (convert_page_dependencies example_dfcx "projects/p/locations/global/agents/a"
     [] "source" "No Such Flow" ∅).2 = Raise (KeyError "No Such Flow").
Proof.
  split.
  - destruct (X24_agent_type_and_flow example_dfcx
                "projects/p/locations/global/agents/a" "Source" "No Such Flow"
                [1%positive] 1%positive {[1%positive := example_page]} ∅)
      as [Hunknown _].
    destruct Hunknown as [-> _]; [discriminate|discriminate|].
    vm_compute. reflexivity.
  - destruct (X24_agent_type_and_flow example_dfcx
                "projects/p/locations/global/agents/a" "source" "No Such Flow"
                [] 1%positive ∅ ∅) as [_ Hflow].
    apply Hflow; [left; reflexivity|vm_compute; reflexivity].
Defined.

Lemma X25_destination_needs_the_shell_witness :
  (convert_page_dependencies example_dfcx "projects/p/locations/global/agents/b"
     [1%positive] "destination" "Default Start Flow"
     {[1%positive := other_flow_page]}).2
  = Raise (KeyError (pg_display_name other_flow_page)).
Proof.
  apply (X25_destination_needs_the_shell example_dfcx
           "projects/p/locations/global/agents/b" "Default Start Flow"
           "projects/p/locations/global/agents/b/flows/g" 1%positive []
           other_flow_page).
  - vm_compute. reflexivity.
  - apply NoDup_singleton.
  - intros l Hl. apply list_elem_of_singleton in Hl as ->.
    exists other_flow_page. apply lookup_singleton_eq.
  - apply lookup_singleton_eq.
  - vm_compute. reflexivity.
Defined.



Lemma X1_index_keys_are_listed_witness :
  is_Some (get_webhooks_map example_dfcx "projects/p/locations/global/agents/a" true
             !! "OrderWebhook") ∧
  ¬ is_Some (get_webhooks_map example_dfcx "projects/p/locations/global/agents/a" true
               !! "projects/p/locations/global/agents/a/webhooks/w1").
Proof.
  split.
  - apply (X1_index_keys_are_listed rs_name rs_display_name true).
    exists (mkResource "projects/p/locations/global/agents/a/webhooks/w1"
              "OrderWebhook").
    split; [apply list_elem_of_here|reflexivity].
  - intros Hkey.
    apply (X1_index_keys_are_listed rs_name rs_display_name true) in Hkey
      as (x & Hin & Hx).
    change (x ∈ [mkResource "projects/p/locations/global/agents/a/webhooks/w1"
                   "OrderWebhook";
                 mkResource "projects/p/locations/global/agents/a/webhooks/w2"
                   "PriceWebhook"]) in Hin.
    repeat (apply elem_of_cons in Hin as [->|Hin]); [discriminate..|].
    by apply elem_of_nil in Hin.
Defined.
